(** * AI news aggregator: fetchers and runner

    A shallow embedding of the Python package [aggregator]:
    - [aggregator/fetchers/openai_news.py]  (module [OpenAINews])
    - [aggregator/fetchers/smol_ai.py]      (module [SmolAI])
    - [aggregator/fetchers/youtube.py]      (module [YouTube])
    - [aggregator/runner.py]                (module [Runner])
    - [aggregator/config/sources.py]        (module [Sources])

    Conventions of the embedding.
    - A Python [str] is a [string]; a character is a code point below 256.
    - A timezone-aware UTC [datetime] is the instant it denotes, a [Z]
      (microseconds since the epoch); the calls that build a [datetime]
      raise where Python's do, outside the years 1 to 9999.
    - [Optional[T]] is [option T]; [None] is [None].
    - A Python call that may raise lives in the monad [io], which reads the
      outside world (feeds, web pages, transcripts, the clock), records the
      outbound requests it makes, and returns or raises.  The exception
      values are instances of Python's [Exception]; this is the class every
      generic handler of the package names.
    - Calls to [logger] change neither results nor control flow and are
      left out. *)

From Stdlib Require Import ZArith NArith List String Ascii Bool Lia.
From stdpp Require Import base option list strings pretty gmap.

Local Open Scope Z_scope.

(* ===================================================================== *)
(** * Python results, exceptions and effects *)
(* ===================================================================== *)

Module Py.

(** The exception classes the package names, and a class for the rest. *)
Inductive exn_class : Type :=
| NoTranscriptFound
| TranscriptsDisabled
| VideoUnavailable
| HTTPStatusError (status_code : Z)
| RequestError
| ValueError
| RuntimeError
| OverflowError
| OtherException.

(** An exception instance: its class and the text [str(exc)]. *)
Record exn : Type := Exn { exn_cls : exn_class; exn_str : string }.

Inductive result (A : Type) : Type :=
| Returns (a : A)
| Raises (e : exn).
Arguments Returns {A} a.
Arguments Raises {A} e.

(** ** Values read from the feed parsing library *)

(** One element of [item.content]: a dict with an optional [value]. *)
Record content_part : Type := ContentPart { part_value : option string }.

(** A [time.struct_time] by what the [datetime] constructor makes of its
    fields [raw_time[:6]] with [tzinfo=timezone.utc]: the UTC instant of a date the
    constructor accepts, or the text of the [ValueError] it raises for a
    date it rejects (a year outside 1..9999, a day outside its month, a
    second above 59, ...). *)
Inductive struct_time : Type :=
| ValidTime (instant : Z)
| InvalidTime (reason : string).

(** The six fields [raw_time[:6]]. *)
Record time_tuple : Type := TimeTuple {
  tm_year : Z; tm_mon : Z; tm_mday : Z;
  tm_hour : Z; tm_min : Z; tm_sec : Z
}.

Definition is_leap (y : Z) : bool :=
  (y mod 4 =? 0) && (negb (y mod 100 =? 0) || (y mod 400 =? 0)).

Definition days_in_month (y m : Z) : Z :=
  if m =? 2 then (if is_leap y then 29 else 28)
  else if (m =? 4) || (m =? 6) || (m =? 9) || (m =? 11) then 30
  else 31.

(** The days of the years before [y], counted from year 1. *)
Definition days_before_year (y : Z) : Z :=
  (y - 1) * 365 + (y - 1) / 4 - (y - 1) / 100 + (y - 1) / 400.

(** The days of year [y] before its month [m]. *)
Fixpoint days_before_month_from (y : Z) (months : nat) : Z :=
  match months with
  | O => 0
  | S k => days_before_month_from y k + days_in_month y (Z.of_nat (S k))
  end.

Definition days_before_month (y m : Z) : Z :=
  days_before_month_from y (Z.to_nat (m - 1)).

(** What the [datetime] constructor makes of six fields: the checks in
    its order, then the microseconds from the epoch to the date. *)
Definition struct_time_of (f : time_tuple) : struct_time :=
  if negb ((1 <=? tm_year f) && (tm_year f <=? 9999)) then
    InvalidTime ("year " +:+ pretty (tm_year f) +:+ " is out of range")
  else if negb ((1 <=? tm_mon f) && (tm_mon f <=? 12)) then
    InvalidTime "month must be in 1..12"
  else if negb ((1 <=? tm_mday f)
                && (tm_mday f <=? days_in_month (tm_year f) (tm_mon f))) then
    InvalidTime "day is out of range for month"
  else if negb ((0 <=? tm_hour f) && (tm_hour f <=? 23)) then
    InvalidTime "hour must be in 0..23"
  else if negb ((0 <=? tm_min f) && (tm_min f <=? 59)) then
    InvalidTime "minute must be in 0..59"
  else if negb ((0 <=? tm_sec f) && (tm_sec f <=? 59)) then
    InvalidTime "second must be in 0..59"
  else
    let days :=
      days_before_year (tm_year f)
      + days_before_month (tm_year f) (tm_mon f)
      + tm_mday f - 719163 in
    ValidTime
      ((days * 86400 + tm_hour f * 3600 + tm_min f * 60 + tm_sec f)
       * 1000000).

(** A [FeedParserDict] entry, with the keys the fetchers read.  A key
    that is missing is [None]; [published_parsed] is the structured time
    as the [datetime] constructor takes it: [struct_time_of] of its six
    first fields. *)
Record item : Type := Item {
  link : option string;
  title : option string;
  published_parsed : option struct_time;
  published : option string;
  summary : option string;
  content : list content_part;
  yt_videoid : option string;
  media_description : option string
}.

(** The parsed feed: the [bozo] flag, [bozo_exception] and the entries. *)
Record feed : Type := Feed {
  bozo : bool;
  bozo_exception : option string;
  entries : list item
}.

(** An [httpx.Response]. *)
Record response : Type := Response { status_code : Z; text : string }.

(** A fetched transcript snippet; [snippet_text] is
    [getattr(snippet, text, None)]. *)
Record snippet : Type := Snippet { snippet_text : option string }.

(** ** The outside world *)

Record world : Type := World {
  (** [datetime.now(tz=timezone.utc)]; the readings made during one call
      are taken to be the same instant *)
  now : Z;
  (** [feedparser.parse(url)] *)
  feedparser_parse : string -> result feed;
  (** [httpx.get(url, follow_redirects=True, headers=..., timeout=10)] *)
  httpx_get : string -> result response;
  (** [YouTubeTranscriptApi().fetch(video_id, languages=[en])] *)
  ytt_fetch : string -> result (list snippet);
  (** [email.utils.parsedate_to_datetime(s).astimezone(timezone.utc)];
      [None] when the call raises *)
  parsedate_to_datetime : string -> option Z;
}.

(** The outbound requests a call makes, in order. *)
Inductive event : Type :=
| FeedRequest (url : string)
| PageFetch (url : string)
| TranscriptRequest (video_id : string).

(** ** The monad *)

Definition io (A : Type) : Type := world -> list event * result A.

Definition run {A} (m : io A) (w : world) : result A := (m w).2.
Definition trace {A} (m : io A) (w : world) : list event := (m w).1.

#[export] Instance io_ret : MRet io := fun A a _ => ([], Returns a).

#[export] Instance io_bind : MBind io := fun A B f m w =>
  match m w with
  | (t1, Returns a) => let r := f a w in (t1 ++ r.1, r.2)
  | (t1, Raises e) => (t1, Raises e)
  end.

#[export] Instance io_fmap : FMap io := fun A B f m w =>
  match m w with
  | (t1, Returns a) => (t1, Returns (f a))
  | (t1, Raises e) => (t1, Raises e)
  end.

(** [raise exc] *)
Definition raise {A} (e : exn) : io A := fun _ => ([], Raises e).

(** [try: body  except Exception as exc: handler exc] *)
Definition try_except {A} (body : io A) (handler : exn -> io A) : io A :=
  fun w =>
    match body w with
    | (t1, Returns a) => (t1, Returns a)
    | (t1, Raises e) => let r := handler e w in (t1 ++ r.1, r.2)
    end.

(** The primitive calls. *)
Definition datetime_now : io Z := fun w => ([], Returns (now w)).

Definition feedparser_parse_call (url : string) : io feed :=
  fun w => ([FeedRequest url], feedparser_parse w url).

Definition httpx_get_call (url : string) : io response :=
  fun w => ([PageFetch url], httpx_get w url).

Definition ytt_fetch_call (video_id : string) : io (list snippet) :=
  fun w => ([TranscriptRequest video_id], ytt_fetch w video_id).

(** The [datetime] built from [raw_time[:6]] with [tzinfo=timezone.utc]:
    the constructor raises for a date out of range. *)
Definition datetime_utc (raw_time : struct_time) : io Z :=
  match raw_time with
  | ValidTime t => mret t
  | InvalidTime reason => raise (Exn ValueError reason)
  end.

(** The first and the last instant a [datetime] can hold: the start of
    year 1 and the last microsecond of year 9999. *)
Definition datetime_min : Z := -62135596800000000.
Definition datetime_max : Z := 253402300799999999.

(** [timedelta(hours=hours)], in microseconds: raises when the days are
    more than 999999999 in magnitude, with one message when the days fit a
    C int and another when they do not. *)
Definition timedelta_hours (hours : Z) : io Z :=
  let days := hours / 24 in
  if (-999999999 <=? days) && (days <=? 999999999)
  then mret (hours * 3600 * 1000000)
  else if (-2147483648 <=? days) && (days <=? 2147483647)
  then raise (Exn OverflowError
                ("days=" +:+ pretty days
                 +:+ "; must have magnitude <= 999999999"))
  else raise (Exn OverflowError "Python int too large to convert to C int").

(** [t - delta] on a [datetime] and a [timedelta]: raises when the
    result is not a [datetime]. *)
Definition datetime_sub (t delta : Z) : io Z :=
  if (datetime_min <=? t - delta) && (t - delta <=? datetime_max)
  then mret (t - delta)
  else raise (Exn OverflowError "date value out of range").

(** [response.raise_for_status()]: raises outside the 2xx range. *)
Definition raise_for_status (r : response) : io unit :=
  if (200 <=? status_code r) && (status_code r <? 300) then mret tt
  else raise (Exn (HTTPStatusError (status_code r)) "HTTP status error").

(** Python's [x or y] on strings and its truth test. *)
Definition truthy (s : string) : bool :=
  match s with EmptyString => false | String _ _ => true end.

Definition str_or (s t : string) : string := if truthy s then s else t.

(** [s or None] *)
Definition or_None (s : string) : option string :=
  if truthy s then Some s else None.

(** [l[:n]] for a Python int [n]. *)
Definition slice_to {A} (n : Z) (l : list A) : list A :=
  if 0 <=? n then firstn (Z.to_nat n) l
  else firstn (Z.to_nat (Z.of_nat (length l) + n)) l.

End Py.

(* ===================================================================== *)
(** * Text: character classes, [str.strip], and the two [re.sub] calls *)
(* ===================================================================== *)

Module Text.

Local Open Scope N_scope.

Definition code (c : ascii) : N := N_of_ascii c.

Definition between (lo hi : N) (c : ascii) : bool :=
  (lo <=? code c) && (code c <=? hi).

(** [str.isspace] below code point 256. *)
Definition isspace (c : ascii) : bool :=
  between 9 13 c || between 28 32 c || (code c =? 133) || (code c =? 160).

(** The class [\w] of [re] on [str] patterns, below code point 256:
    [str.isalnum] or the underscore. *)
Definition is_word (c : ascii) : bool :=
  between 48 57 c || between 65 90 c || between 97 122 c || (code c =? 95)
  || (code c =? 170) || between 178 179 c || (code c =? 181)
  || between 185 186 c || between 188 190 c
  || between 192 214 c || between 216 246 c || between 248 255 c.

(** The class [[\w-]]. *)
Definition is_id_char (c : ascii) : bool := is_word c || (code c =? 45).

(** The class [[ \t]]. *)
Definition is_blank (c : ascii) : bool := (code c =? 32) || (code c =? 9).

Definition is_newline (c : ascii) : bool := code c =? 10.

Definition nl : string := String (ascii_of_N 10) EmptyString.

Fixpoint lstrip (s : string) : string :=
  match s with
  | EmptyString => EmptyString
  | String c s' => if isspace c then lstrip s' else s
  end.

Fixpoint rstrip (s : string) : string :=
  match s with
  | EmptyString => EmptyString
  | String c s' =>
      match rstrip s' with
      | EmptyString => if isspace c then EmptyString else String c EmptyString
      | r => String c r
      end
  end.

(** [s.strip()] *)
Definition strip (s : string) : string := rstrip (lstrip s).

(** [re.sub(r'[ \t]+', ' ', s)]: every maximal run of blanks becomes one
    space.  [in_run] tells that the previous character was a blank. *)
Fixpoint sub_blanks_from (in_run : bool) (s : string) : string :=
  match s with
  | EmptyString => EmptyString
  | String c s' =>
      if is_blank c then
        if in_run then sub_blanks_from true s'
        else String " " (sub_blanks_from true s')
      else String c (sub_blanks_from false s')
  end.

Definition sub_blanks (s : string) : string := sub_blanks_from false s.

Fixpoint newlines (n : nat) : string :=
  match n with
  | O => EmptyString
  | S n' => String (ascii_of_N 10) (newlines n')
  end.

(** What a maximal run of [n] newlines is replaced by under
    [re.sub(r'\n{3,}', '\n\n', s)]: a run of three or more matches and
    becomes two newlines, a shorter run is left as it is. *)
Definition newline_run (n : nat) : string :=
  if (3 <=? n)%nat then newlines 2 else newlines n.

(** [pending] counts the newlines of the run being read. *)
Fixpoint sub_newlines_from (pending : nat) (s : string) : string :=
  match s with
  | EmptyString => newline_run pending
  | String c s' =>
      if is_newline c then sub_newlines_from (S pending) s'
      else newline_run pending +:+ String c (sub_newlines_from 0 s')
  end.

Definition sub_newlines (s : string) : string := sub_newlines_from 0 s.

(** [sep.join(parts)] *)
Fixpoint join (sep : string) (parts : list string) : string :=
  match parts with
  | [] => EmptyString
  | [p] => p
  | p :: rest => p +:+ sep +:+ join sep rest
  end.

(** Every character, some character of [s] is in the class [p]. *)
Fixpoint all_chars (p : ascii -> bool) (s : string) : bool :=
  match s with
  | EmptyString => true
  | String c s' => p c && all_chars p s'
  end.

Fixpoint any_char (p : ascii -> bool) (s : string) : bool :=
  match s with
  | EmptyString => false
  | String c s' => p c || any_char p s'
  end.

(** [s.startswith(p)] *)
Fixpoint startswith (p s : string) : bool :=
  match p with
  | EmptyString => true
  | String a p' =>
      match s with
      | EmptyString => false
      | String b s' => Ascii.eqb a b && startswith p' s'
      end
  end.

End Text.

(* ===================================================================== *)
(** * The text extraction of the HTML parsing library *)
(* ===================================================================== *)

Module Bs4.
Import Text.

Local Open Scope N_scope.

(** The call [BeautifulSoup(raw, html.parser).get_text(separator=sep)]
    belongs to a library that is not part of the package.  This is a model
    of what it computes on markup made of element tags, text and the named
    character references amp, lt, gt, quot, apos and nbsp written with
    their closing semicolon:
    - a tag runs from an opening angle bracket followed by a letter, a
      slash, an exclamation or a question mark to the next closing angle
      bracket, and ends the text node being read;
    - a character reference contributes its character to the node;
    - a node made of ASCII white space only is stored as one newline when
      it holds a newline and as one space otherwise;
    - [get_text] joins the nodes, in document order, with [sep].
    Comments, scripts, numeric references and quoted attribute values
    holding an angle bracket are outside the model. *)

Definition is_alpha (c : ascii) : bool := between 65 90 c || between 97 122 c.

Fixpoint has_gt (s : string) : bool :=
  match s with
  | EmptyString => false
  | String c s' => (code c =? 62) || has_gt s'
  end.

(** [rest] is what follows an opening angle bracket. *)
Definition opens_markup (rest : string) : bool :=
  match rest with
  | EmptyString => false
  | String c _ =>
      (is_alpha c || (code c =? 47) || (code c =? 33) || (code c =? 63))
      && has_gt rest
  end.

(** [rest] is what follows an ampersand: the character referred to and
    the number of characters of the reference after the ampersand. *)
Definition entity_at (rest : string) : option (ascii * nat) :=
  if String.prefix "amp;" rest then Some (ascii_of_N 38, 4%nat)
  else if String.prefix "lt;" rest then Some (ascii_of_N 60, 3%nat)
  else if String.prefix "gt;" rest then Some (ascii_of_N 62, 3%nat)
  else if String.prefix "quot;" rest then Some (ascii_of_N 34, 5%nat)
  else if String.prefix "apos;" rest then Some (ascii_of_N 39, 5%nat)
  else if String.prefix "nbsp;" rest then Some (ascii_of_N 160, 5%nat)
  else None.

(** The library's [ASCII_SPACES]. *)
Definition is_ascii_space (c : ascii) : bool :=
  (code c =? 32) || (code c =? 10) || (code c =? 9) || (code c =? 12)
  || (code c =? 13).

(** The node stored for the data [cur] read so far, if any. *)
Definition end_data (cur : string) : list string :=
  match cur with
  | EmptyString => []
  | _ =>
      if all_chars is_ascii_space cur
      then (if any_char is_newline cur then [nl] else [" "%string])
      else [cur]
  end.

Definition snoc (s : string) (c : ascii) : string :=
  s +:+ String c EmptyString.

(** The text nodes of [s].  [in_tag]: inside a tag; [skip]: characters of
    a reference still to pass over; [cur]: data of the node being read. *)
Fixpoint text_nodes (in_tag : bool) (skip : nat) (cur : string)
         (s : string) : list string :=
  match s with
  | EmptyString => end_data cur
  | String c rest =>
      match skip with
      | S k => text_nodes in_tag k cur rest
      | O =>
          if in_tag then
            text_nodes (negb (code c =? 62)) O cur rest
          else if (code c =? 60) && opens_markup rest then
            (end_data cur ++ text_nodes true O EmptyString rest)%list
          else if code c =? 38 then
            match entity_at rest with
            | Some (d, n) => text_nodes false n (snoc cur d) rest
            | None => text_nodes false O (snoc cur c) rest
            end
          else text_nodes false O (snoc cur c) rest
      end
  end.

Definition get_text (separator : string) (raw : string) : string :=
  join separator (text_nodes false O EmptyString raw).

End Bs4.

(* ===================================================================== *)
(** * [aggregator/fetchers/openai_news.py] *)
(* ===================================================================== *)

Module OpenAINews.
Import Py Text.

Definition _FEED_URL : string := "https://openai.com/news/rss.xml".

(** [class OpenAINewsEntry(BaseModel)] *)
Record OpenAINewsEntry : Type := {
  post_id : string;
  title : string;
  url : string;
  published_at : Z;
  content : option string
}.

(** [_strip_html(raw)] *)
Definition _strip_html (raw : string) : string :=
  let text := Bs4.get_text " " raw in
  let text := sub_blanks text in
  let text := sub_newlines text in
  strip text.

(** [parsedate_to_datetime(raw_str).astimezone(timezone.utc)] *)
Definition parsedate_call (raw_str : string) : io Z := fun w =>
  match parsedate_to_datetime w raw_str with
  | Some t => ([], Returns t)
  | None => ([], Raises (Exn ValueError "invalid date"))
  end.

(** [_parse_pubdate(item)] *)
Definition _parse_pubdate (item : Py.item) : io Z :=
  match published_parsed item with
  | Some raw_time => datetime_utc raw_time
  | None =>
      let raw_str := default EmptyString (published item) in
      parsed ← (if truthy raw_str
                then try_except (Some <$> parsedate_call raw_str)
                                (fun _ => mret None)
                else mret None);
      match parsed with
      | Some t => mret t
      | None => datetime_now
      end
  end.

(** [since is not None and published_at <= since] *)
Definition at_or_before (since : option Z) (published_at : Z) : bool :=
  match since with
  | Some s => published_at <=? s
  | None => false
  end.

(** The entry appended for [item] once its date is known. *)
Definition make_entry (item : Py.item) (published_at : Z) : OpenAINewsEntry :=
  let url := default EmptyString (link item) in
  let title := strip (default "Untitled"%string (Py.title item)) in
  let raw_content := str_or (default EmptyString (summary item)) EmptyString in
  let content :=
    if truthy raw_content then Some (_strip_html raw_content) else None in
  {| post_id := url; title := title; url := url;
     published_at := published_at; content := content |}.

(** [for item in feed.entries: ...], with [entries] the list built so
    far; the [break] returns it. *)
Fixpoint scan (since : option Z) (items : list Py.item)
         (entries : list OpenAINewsEntry) : io (list OpenAINewsEntry) :=
  match items with
  | [] => mret entries
  | item :: rest =>
      published_at ← _parse_pubdate item;
      if at_or_before since published_at then mret entries
      else scan since rest (entries ++ [make_entry item published_at])
  end.

(** [fetch_openai_news(since)] *)
Definition fetch_openai_news (since : option Z) : io (list OpenAINewsEntry) :=
  parsed ← try_except (Some <$> feedparser_parse_call _FEED_URL)
                      (fun exc => mret None);
  match parsed with
  | None => mret []
  | Some feed =>
      match entries feed with
      | [] => mret []
      | _ => scan since (entries feed) []
      end
  end.

End OpenAINews.

(* ===================================================================== *)
(** * [aggregator/fetchers/smol_ai.py] *)
(* ===================================================================== *)

Module SmolAI.
Import Py Text.

Definition _FEED_URL : string := "https://news.smol.ai/rss.xml".

(** [class SmolAIEntry(BaseModel)] *)
Record SmolAIEntry : Type := {
  post_id : string;
  title : string;
  url : string;
  published_at : Z;
  content : option string
}.

(** [_strip_html(raw)] *)
Definition _strip_html (raw : string) : string :=
  let text := Bs4.get_text " " raw in
  let text := sub_blanks text in
  let text := sub_newlines text in
  strip text.

(** [parsedate_to_datetime(raw_str)] followed by
    [dt.astimezone(timezone.utc)] *)
Definition parsedate_call (raw_str : string) : io Z := fun w =>
  match parsedate_to_datetime w raw_str with
  | Some t => ([], Returns t)
  | None => ([], Raises (Exn ValueError "invalid date"))
  end.

(** [_parse_pubdate(item)] *)
Definition _parse_pubdate (item : Py.item) : io Z :=
  match published_parsed item with
  | Some raw_time => datetime_utc raw_time
  | None =>
      let raw_str := default EmptyString (published item) in
      parsed ← (if truthy raw_str
                then try_except (Some <$> parsedate_call raw_str)
                                (fun _ => mret None)
                else mret None);
      match parsed with
      | Some t => mret t
      | None => datetime_now
      end
  end.

(** Content priority: [content[0].value], then [summary], then nothing. *)
Definition raw_content_of (item : Py.item) : string :=
  let raw_content :=
    match Py.content item with
    | [] => EmptyString
    | part :: _ => default EmptyString (part_value part)
    end in
  if truthy raw_content then raw_content
  else str_or (default EmptyString (summary item)) EmptyString.

(** [fetch_latest_smol_ai_issue()] *)
Definition fetch_latest_smol_ai_issue : io (list SmolAIEntry) :=
  parsed ← try_except (Some <$> feedparser_parse_call _FEED_URL)
                      (fun exc => mret None);
  match parsed with
  | None => mret []
  | Some feed =>
      match entries feed with
      | [] => mret []
      | item :: _ =>
          let url := default EmptyString (link item) in
          let title := default "Untitled"%string (Py.title item) in
          published_at ← _parse_pubdate item;
          let raw_content := raw_content_of item in
          let content :=
            if truthy raw_content then Some (_strip_html raw_content)
            else None in
          mret [ {| post_id := url; title := title; url := url;
                    published_at := published_at; content := content |} ]
      end
  end.

End SmolAI.

(* ===================================================================== *)
(** * [aggregator/fetchers/youtube.py] *)
(* ===================================================================== *)

Module YouTube.
Import Py Text.

(** [@dataclass class VideoEntry] *)
Record VideoEntry : Type := {
  video_id : string;
  title : string;
  url : string;
  published_at : Z;
  description : option string;
  transcript : option string
}.

(** ** Channel resolution *)

(** Reads [n] characters of the class [[\w-]] at the head of [s]: the
    characters read and what follows them. *)
Fixpoint take_id_chars (n : nat) (s : string) : option (string * string) :=
  match n with
  | O => Some (EmptyString, s)
  | S n' =>
      match s with
      | EmptyString => None
      | String c s' =>
          if is_id_char c then
            match take_id_chars n' s' with
            | Some (m, rest) => Some (String c m, rest)
            | None => None
            end
          else None
      end
  end.

(** The anchor [$] of [re]: the end of the string, or the position
    before a newline that ends the string. *)
Definition at_dollar (rest : string) : bool :=
  match rest with
  | EmptyString => true
  | String c EmptyString => is_newline c
  | _ => false
  end.

(** [_CHANNEL_ID_RE.match(s)] for [re.compile(r'^UC[\w-]{22}$')]. *)
Definition _CHANNEL_ID_RE_match (s : string) : bool :=
  match s with
  | String "U" (String "C" body) =>
      match take_id_chars 22 body with
      | Some (_, rest) => at_dollar rest
      | None => false
      end
  | _ => false
  end.

Definition _RSS_URL (channel_id : string) : string :=
  "https://www.youtube.com/feeds/videos.xml?channel_id=" +:+ channel_id.

(** What is left of [s] after the prefix [p], if [s] starts with [p]. *)
Fixpoint after_prefix (p s : string) : option string :=
  match p with
  | EmptyString => Some s
  | String a p' =>
      match s with
      | EmptyString => None
      | String b s' => if Ascii.eqb a b then after_prefix p' s' else None
      end
  end.

(** A match of [youtube\.com/channel/(UC[\w-]{22})] at the head of [s]:
    its group 1. *)
Definition channel_link_at (s : string) : option string :=
  match after_prefix "youtube.com/channel/UC" s with
  | Some rest =>
      match take_id_chars 22 rest with
      | Some (m, _) => Some ("UC" +:+ m)
      | None => None
      end
  | None => None
  end.

(** [re.search(r'youtube\.com/channel/(UC[\w-]{22})', s)]: group 1 of
    the leftmost match. *)
Fixpoint search_channel_link (s : string) : option string :=
  match channel_link_at s with
  | Some m => Some m
  | None =>
      match s with
      | EmptyString => None
      | String _ s' => search_channel_link s'
      end
  end.

(** [_scrape_channel_id(page_url)] *)
Definition _scrape_channel_id (page_url : string) : io string :=
  response ← try_except
    (response ← httpx_get_call page_url;
     _ ← raise_for_status response;
     mret response)
    (fun exc =>
       match exn_cls exc with
       | HTTPStatusError code =>
           raise (Exn ValueError
                    ("Channel page returned HTTP " +:+ pretty code
                     +:+ ": " +:+ page_url))
       | RequestError =>
           raise (Exn ValueError
                    ("Network error while fetching channel page '"
                     +:+ page_url +:+ "': " +:+ exn_str exc))
       | _ => raise exc
       end);
  match search_channel_link (text response) with
  | Some m => mret m
  | None =>
      raise (Exn ValueError
               ("Could not extract a channel ID from '" +:+ page_url
                +:+ "'. Check that the handle or username is correct."))
  end.

(** [resolve_channel_id(channel_input)] *)
Definition resolve_channel_id (channel_input : string) : io string :=
  let channel_input := strip channel_input in
  if _CHANNEL_ID_RE_match channel_input then mret channel_input
  else
    let url :=
      if startswith "@" channel_input
      then "https://www.youtube.com/" +:+ channel_input
      else "https://www.youtube.com/@" +:+ channel_input in
    _scrape_channel_id url.

(** ** The video feed *)

(** [since is not None and published_at <= since] *)
Definition at_or_before (since : option Z) (published_at : Z) : bool :=
  match since with
  | Some s => published_at <=? s
  | None => false
  end.

(** The date of a feed item: the [datetime] of [published_parsed], else
    the clock. *)
Definition item_date (item : Py.item) : io Z :=
  match published_parsed item with
  | Some raw_time => datetime_utc raw_time
  | None => datetime_now
  end.

(** The entry appended for [item] once its date is known. *)
Definition make_entry (item : Py.item) (published_at : Z) : VideoEntry :=
  let video_id := default EmptyString (yt_videoid item) in
  let title := default "Untitled"%string (Py.title item) in
  let url :=
    default ("https://www.youtube.com/watch?v=" +:+ video_id) (link item) in
  let raw_description :=
    str_or (str_or (default EmptyString (media_description item))
                   (default EmptyString (summary item))) EmptyString in
  let description := or_None (strip raw_description) in
  {| video_id := video_id; title := title; url := url;
     published_at := published_at; description := description;
     transcript := None |}.

(** [for item in feed.entries[:max_results]: ...] on the sliced list;
    the [continue] goes on with the list built so far. *)
Fixpoint scan (since : option Z) (items : list Py.item)
         (entries : list VideoEntry) : io (list VideoEntry) :=
  match items with
  | [] => mret entries
  | item :: rest =>
      published_at ← item_date item;
      if at_or_before since published_at then scan since rest entries
      else scan since rest (entries ++ [make_entry item published_at])
  end.

(** [fetch_videos(channel_id, since, max_results)] *)
Definition fetch_videos (channel_id : string) (since : option Z)
           (max_results : Z) : io (list VideoEntry) :=
  let rss_url := _RSS_URL channel_id in
  feed ← try_except (feedparser_parse_call rss_url)
    (fun exc =>
       raise (Exn RuntimeError
                ("Unexpected error parsing RSS feed for '" +:+ channel_id
                 +:+ "': " +:+ exn_str exc)));
  if bozo feed && bool_decide (entries feed = []) then
    raise (Exn RuntimeError
             ("RSS feed for channel '" +:+ channel_id
              +:+ "' is malformed or empty. bozo_exception: "
              +:+ default "None"%string (bozo_exception feed)))
  else scan since (slice_to max_results (entries feed)) [].

(** ** Transcript retrieval *)

(** [for snippet in snippets: ...], with [parts] the list built so far. *)
Fixpoint collect_parts (snippets : list snippet) (parts : list string)
  : list string :=
  match snippets with
  | [] => parts
  | snippet :: rest =>
      let text :=
        match snippet_text snippet with
        | Some t => str_or t EmptyString
        | None => EmptyString
        end in
      let text := strip text in
      if truthy text then collect_parts rest (parts ++ [text])
      else collect_parts rest parts
  end.

(** [get_transcript(video_id)] *)
Definition get_transcript (video_id : string) : io (option string) :=
  fetched ← try_except (Some <$> ytt_fetch_call video_id)
    (fun exc =>
       match exn_cls exc with
       | NoTranscriptFound => mret None
       | TranscriptsDisabled => mret None
       | VideoUnavailable => mret None
       | _ => mret None
       end);
  match fetched with
  | None => mret None
  | Some snippets =>
      let parts := collect_parts snippets [] in
      mret (or_None (join " " parts))
  end.

(** ** The public entry point *)

Definition set_transcript (video : VideoEntry) (t : option string)
  : VideoEntry :=
  {| video_id := video_id video; title := title video; url := url video;
     published_at := published_at video;
     description := description video; transcript := t |}.

(** [for video in videos: video.transcript = get_transcript(...)] *)
Fixpoint attach_transcripts (videos : list VideoEntry)
  : io (list VideoEntry) :=
  match videos with
  | [] => mret []
  | video :: rest =>
      t ← get_transcript (video_id video);
      rest' ← attach_transcripts rest;
      mret (set_transcript video t :: rest')
  end.

(** [fetch_channel_videos(channel_input, since, include_transcripts,
    max_results)] *)
Definition fetch_channel_videos (channel_input : string) (since : option Z)
           (include_transcripts : bool) (max_results : Z)
  : io (list VideoEntry) :=
  channel_id ← resolve_channel_id channel_input;
  videos ← fetch_videos channel_id since max_results;
  if include_transcripts then attach_transcripts videos else mret videos.

End YouTube.

(* ===================================================================== *)
(** * [aggregator/config/sources.py] *)
(* ===================================================================== *)

Module Sources.

(** One source descriptor: the keys [name], [url] and [fetcher]. *)
Record source : Type := Source {
  name : string;
  url : string;
  fetcher : string
}.

Definition YOUTUBE_CHANNELS : list string := ["@Fireship"%string].

Definition RSS_SOURCES : list source :=
  [ {| name := "openai_news";
       url := "https://openai.com/news/rss.xml";
       fetcher := "openai_news" |} ].

Definition NEWSLETTER_SOURCES : list source :=
  [ {| name := "smol_ai";
       url := "https://news.smol.ai/rss.xml";
       fetcher := "smol_ai" |} ].

End Sources.

(* ===================================================================== *)
(** * [aggregator/runner.py] *)
(* ===================================================================== *)

Module Runner.
Import Py Sources.

(** The mixed list the runner returns holds entries of three shapes. *)
Inductive entry : Type :=
| Video (v : YouTube.VideoEntry)
| News (e : OpenAINews.OpenAINewsEntry)
| Digest (e : SmolAI.SmolAIEntry).

(** [_RSS_FETCHERS] *)
Definition _RSS_FETCHERS : gmap string (option Z -> io (list entry)) :=
  {[ "openai_news"%string :=
       fun since => fmap News <$> OpenAINews.fetch_openai_news since ]}.

(** [_NEWSLETTER_FETCHERS] *)
Definition _NEWSLETTER_FETCHERS : gmap string (io (list entry)) :=
  {[ "smol_ai"%string :=
       fmap Digest <$> SmolAI.fetch_latest_smol_ai_issue ]}.

(** [datetime.now(tz=timezone.utc) - timedelta(hours=hours)] *)
Definition compute_cutoff (hours : Z) : io Z :=
  now ← datetime_now;
  delta ← timedelta_hours hours;
  datetime_sub now delta.

(** The runner over any configuration, any channel fetcher and any two
    dispatch tables. *)
Section Generic.
Context {A : Type}.
Variable channels : list string.
Variable rss_sources newsletter_sources : list source.
Variable fetch_channel : string -> option Z -> io (list A).
Variable rss_fetchers : gmap string (option Z -> io (list A)).
Variable newsletter_fetchers : gmap string (io (list A)).

(** The body of the first loop: one channel. *)
Definition youtube_step (cutoff : Z) (all_entries : list A)
           (channel : string) : io (list A) :=
  try_except
    (videos ← fetch_channel channel (Some cutoff);
     mret (all_entries ++ videos))
    (fun exc => mret all_entries).

(** The body of the second loop: one RSS source. *)
Definition rss_step (cutoff : Z) (all_entries : list A)
           (source : Sources.source) : io (list A) :=
  let fetcher_key := fetcher source in
  match rss_fetchers !! fetcher_key with
  | None => mret all_entries
  | Some fetcher_fn =>
      try_except
        (entries ← fetcher_fn (Some cutoff);
         mret (all_entries ++ entries))
        (fun exc => mret all_entries)
  end.

(** The body of the third loop: one newsletter source. *)
Definition newsletter_step (all_entries : list A)
           (source : Sources.source) : io (list A) :=
  let fetcher_key := fetcher source in
  match newsletter_fetchers !! fetcher_key with
  | None => mret all_entries
  | Some fetcher_fn =>
      try_except
        (entries ← fetcher_fn;
         mret (all_entries ++ entries))
        (fun exc => mret all_entries)
  end.

(** [for x in xs: all_entries = step all_entries x] *)
Fixpoint for_each {S : Type} (step : list A -> S -> io (list A))
         (xs : list S) (all_entries : list A) : io (list A) :=
  match xs with
  | [] => mret all_entries
  | x :: rest =>
      all_entries' ← step all_entries x;
      for_each step rest all_entries'
  end.

Definition run_all_fetchers_with (hours : Z) : io (list A) :=
  cutoff ← compute_cutoff hours;
  all_entries ← for_each (youtube_step cutoff) channels [];
  all_entries ← for_each (rss_step cutoff) rss_sources all_entries;
  all_entries ← for_each newsletter_step newsletter_sources all_entries;
  mret all_entries.
End Generic.

(** [run_all_fetchers(hours)] *)
Definition run_all_fetchers (hours : Z) : io (list entry) :=
  run_all_fetchers_with
    YOUTUBE_CHANNELS RSS_SOURCES NEWSLETTER_SOURCES
    (fun channel since =>
       fmap Video <$> YouTube.fetch_channel_videos channel since true 50)
    _RSS_FETCHERS _NEWSLETTER_FETCHERS hours.

End Runner.

(* ===================================================================== *)
(** * Specification-side definitions and concrete inputs *)
(* ===================================================================== *)

Module Spec.
Import Py Text.

(** A canonical channel ID in the words of the contract: the two letters
    UC followed by 22 ID characters, 24 characters in all. *)
Definition canonical_id (s : string) : bool :=
  match s with
  | String "U" (String "C" body) =>
      (String.length body =? 22)%nat && all_chars is_id_char body
  | _ => false
  end.

(** The text of a snippet after [strip], the empty string when the
    snippet has none. *)
Definition stripped_text (sn : snippet) : string :=
  strip (default EmptyString (snippet_text sn)).

(** The non-empty stripped snippet texts, in order. *)
Definition transcript_parts (snippets : list snippet) : list string :=
  List.filter truthy (map stripped_text snippets).

(** A feed failure for the RSS and newsletter fetchers: parsing raised,
    or the parsed feed has no entries. *)
Definition feed_failed (r : result feed) : Prop :=
  match r with
  | Raises _ => True
  | Returns f => entries f = []
  end.


(** The entry the news fetcher is to return for an item dated [t]: the
    item URL as identifier and URL, the stripped title or Untitled, the
    date [t], the sanitized summary or nothing. *)
Definition news_entry (item : Py.item) (t : Z) : OpenAINews.OpenAINewsEntry :=
  {| OpenAINews.post_id := default EmptyString (link item);
     OpenAINews.title := strip (default "Untitled"%string (title item));
     OpenAINews.url := default EmptyString (link item);
     OpenAINews.published_at := t;
     OpenAINews.content :=
       match summary item with
       | Some (String c raw) => Some (OpenAINews._strip_html (String c raw))
       | _ => None
       end |}.

(** The video the video fetcher is to return for an item dated [t]: the
    video ID, the title or Untitled, the link or the watch URL of the
    video ID, the date [t], the stripped media description, else the
    stripped summary, or nothing, and no transcript. *)
Definition video_entry (item : Py.item) (t : Z) : YouTube.VideoEntry :=
  {| YouTube.video_id := default EmptyString (yt_videoid item);
     YouTube.title := default "Untitled"%string (title item);
     YouTube.url :=
       match link item with
       | Some l => l
       | None =>
           "https://www.youtube.com/watch?v="
           +:+ default EmptyString (yt_videoid item)
       end;
     YouTube.published_at := t;
     YouTube.description :=
       match media_description item with
       | Some (String c d) => or_None (strip (String c d))
       | _ =>
           match summary item with
           | Some d => or_None (strip d)
           | None => None
           end
       end;
     YouTube.transcript := None |}.

(** An item dated [t] is past the cutoff when there is a cutoff and [t]
    is not after it. *)
Definition past (since : option Z) (t : Z) : bool :=
  match since with
  | Some s => t <=? s
  | None => false
  end.

(** Early stop: the entries of a dated news feed, up to the first item at
    or before the cutoff. *)
Fixpoint news_kept (since : option Z) (dated : list (item * Z))
  : list OpenAINews.OpenAINewsEntry :=
  match dated with
  | [] => []
  | (item, t) :: rest =>
      if past since t then []
      else news_entry item t :: news_kept since rest
  end.

(** Scan and skip: the entries of the items of a dated video feed that
    are newer than the cutoff. *)
Fixpoint videos_kept (since : option Z) (dated : list (item * Z))
  : list YouTube.VideoEntry :=
  match dated with
  | [] => []
  | (item, t) :: rest =>
      if past since t then videos_kept since rest
      else video_entry item t :: videos_kept since rest
  end.


(** A video feed item dated at or before the cutoff. *)
Definition old (w : world) (since : Z) (item : Py.item) : Prop :=
  exists t, run (YouTube.item_date item) w = Returns t /\ t <= since.

(** What one source invocation adds to the aggregate: the list it
    returned, nothing when it raised. *)
Definition contribution {A} (r : result (list A)) : list A :=
  match r with
  | Returns l => l
  | Raises _ => []
  end.

(** A video entry without an empty string in its description or its
    transcript. *)
Definition clean (v : YouTube.VideoEntry) : Prop :=
  YouTube.description v <> Some EmptyString
  /\ YouTube.transcript v <> Some EmptyString.

(** What each kind of source adds: a source without a registered
    fetcher adds nothing. *)
Definition channel_contribution {A}
           (fetch_channel : string -> option Z -> io (list A))
           (cutoff : Z) (w : world) (channel : string) : list A :=
  contribution (run (fetch_channel channel (Some cutoff)) w).

Definition rss_contribution {A}
           (rss_fetchers : gmap string (option Z -> io (list A)))
           (cutoff : Z) (w : world) (source : Sources.source) : list A :=
  match rss_fetchers !! Sources.fetcher source with
  | None => []
  | Some fetcher_fn => contribution (run (fetcher_fn (Some cutoff)) w)
  end.

Definition newsletter_contribution {A}
           (newsletter_fetchers : gmap string (io (list A)))
           (w : world) (source : Sources.source) : list A :=
  match newsletter_fetchers !! Sources.fetcher source with
  | None => []
  | Some fetcher_fn => contribution (run fetcher_fn w)
  end.

(** The requests each kind of source makes: a source without a
    registered fetcher makes none. *)
Definition channel_requests {A}
           (fetch_channel : string -> option Z -> io (list A))
           (cutoff : Z) (w : world) (channel : string) : list event :=
  trace (fetch_channel channel (Some cutoff)) w.

Definition rss_requests {A}
           (rss_fetchers : gmap string (option Z -> io (list A)))
           (cutoff : Z) (w : world) (source : Sources.source) : list event :=
  match rss_fetchers !! Sources.fetcher source with
  | None => []
  | Some fetcher_fn => trace (fetcher_fn (Some cutoff)) w
  end.

Definition newsletter_requests {A}
           (newsletter_fetchers : gmap string (io (list A)))
           (w : world) (source : Sources.source) : list event :=
  match newsletter_fetchers !! Sources.fetcher source with
  | None => []
  | Some fetcher_fn => trace fetcher_fn w
  end.

(** The cutoff the runner computes: [hours] before the clock. *)
Definition cutoff_of (w : world) (hours : Z) : Z :=
  now w - hours * 3600 * 1000000.

(** The look-back is a [timedelta], at most 999999999 days in magnitude,
    and the cutoff is a [datetime], between the first microsecond of
    year 1 and the last of year 9999. *)
Definition cutoff_in_range (w : world) (hours : Z) : Prop :=
  -999999999 <= hours / 24 <= 999999999
  /\ -62135596800000000 <= cutoff_of w hours <= 253402300799999999.

(** ** Shapes of sanitized text *)

(** No tab, and no blank directly after a blank; [prev] tells that the
    character before [s] is a blank. *)
Fixpoint blanks_single (prev : bool) (s : string) : bool :=
  match s with
  | EmptyString => true
  | String c s' =>
      if is_blank c
      then negb prev && (code c =? 32)%N && blanks_single true s'
      else blanks_single false s'
  end.

(** No three newlines in a row; [n] newlines come directly before [s]. *)
Fixpoint newlines_short (n : nat) (s : string) : bool :=
  match s with
  | EmptyString => true
  | String c s' =>
      if is_newline c then (n <? 2)%nat && newlines_short (S n) s'
      else newlines_short 0 s'
  end.

Definition head_space (s : string) : bool :=
  match s with
  | EmptyString => false
  | String c _ => isspace c
  end.

Fixpoint last_space (s : string) : bool :=
  match s with
  | EmptyString => false
  | String c EmptyString => isspace c
  | String _ s' => last_space s'
  end.

(** Neither the first nor the last character is white space. *)
Definition trimmed (s : string) : bool :=
  negb (head_space s) && negb (last_space s).

(** ** Dates and selections *)

(** The date of an item of the news or the newsletter feed in the world
    [w]: the structured date when the item has one, which is a
    [ValueError] when the [datetime] constructor refuses it; else the
    parse of the raw date string; else, for a string that is missing,
    empty or not parsed, the clock. *)
Definition news_date (w : world) (item : Py.item) : result Z :=
  match published_parsed item with
  | Some (ValidTime t) => Returns t
  | Some (InvalidTime reason) => Raises (Exn ValueError reason)
  | None =>
      Returns
        match published item with
        | Some (String c raw_str) =>
            default (now w) (parsedate_to_datetime w (String c raw_str))
        | _ => now w
        end
  end.

(** The date of an item of a video feed in the world [w]: the structured
    date when the item has one, which is a [ValueError] when the
    [datetime] constructor refuses it; else the clock. *)
Definition video_date (w : world) (item : Py.item) : result Z :=
  match published_parsed item with
  | Some (ValidTime t) => Returns t
  | Some (InvalidTime reason) => Raises (Exn ValueError reason)
  | None => Returns (now w)
  end.

(** The entries of the feed at [url]; none when parsing raises. *)
Definition feed_items (w : world) (url : string) : list Py.item :=
  match feedparser_parse w url with
  | Returns f => entries f
  | Raises _ => []
  end.

(** The news entries of all the dated items newer than the cutoff. *)
Definition news_newer (since : option Z) (dated : list (item * Z))
  : list OpenAINews.OpenAINewsEntry :=
  map (fun p => news_entry p.1 p.2)
      (List.filter (fun p => negb (past since p.2)) dated).

(** Dates in newest-first order: no date is later than one before it. *)
Fixpoint newest_first (ts : list Z) : Prop :=
  match ts with
  | [] => True
  | t :: rest => Forall (fun t' => t' <= t) rest /\ newest_first rest
  end.

(** The transcript the pipeline attaches to a video in the world [w]. *)
Definition transcript_of (w : world) (video_id : string) : option string :=
  match run (YouTube.get_transcript video_id) w with
  | Returns r => r
  | Raises _ => None
  end.

(** The entry the newsletter fetcher builds from an item dated [t]. *)
Definition digest_entry (item : Py.item) (t : Z) : SmolAI.SmolAIEntry :=
  {| SmolAI.post_id := default EmptyString (link item);
     SmolAI.title := default "Untitled"%string (title item);
     SmolAI.url := default EmptyString (link item);
     SmolAI.published_at := t;
     SmolAI.content :=
       if truthy (SmolAI.raw_content_of item)
       then Some (SmolAI._strip_html (SmolAI.raw_content_of item))
       else None |}.

End Spec.

Module Examples.
Import Py Text.

(** The sanitizer example of the specification. *)
Definition markup : string :=
  "<p>Hello &amp; <b>world</b></p>  " +:+ nl +:+ nl +:+ nl +:+ nl +:+ "Bye".

(** A feed item that carries only a link and a structured date. *)
Definition dated (t : Z) (l : string) : item :=
  {| link := Some l; title := None; published_parsed := Some (ValidTime t);
     published := None; summary := None; content := [];
     yt_videoid := None; media_description := None |}.

(** A feed item whose structured date is in year -1, which the [datetime]
    constructor refuses. *)
Definition undatable (l : string) : item :=
  {| link := Some l; title := None;
     published_parsed :=
       Some (struct_time_of {| tm_year := -1; tm_mon := 1; tm_mday := 1;
                               tm_hour := 0; tm_min := 0; tm_sec := 0 |});
     published := None; summary := None; content := [];
     yt_videoid := None; media_description := None |}.

(** A feed item without a structured date, with the raw date string
    [raw]. *)
Definition undated (raw : string) : item :=
  {| link := None; title := None; published_parsed := None;
     published := Some raw; summary := None; content := [];
     yt_videoid := None; media_description := None |}.

(** A feed item whose summary is [s]. *)
Definition summarised (t : Z) (s : string) : item :=
  {| link := Some "https://example.org/post"%string; title := Some "Post"%string;
     published_parsed := Some (ValidTime t); published := None; summary := Some s;
     content := []; yt_videoid := None; media_description := None |}.

Definition transport_error : exn := Exn OtherException "connection reset".

(** A world where every request fails. *)
Definition offline : world :=
  {| now := 1000;
     feedparser_parse := fun _ => Raises transport_error;
     httpx_get := fun _ => Raises (Exn RequestError "unreachable");
     ytt_fetch := fun _ => Raises (Exn VideoUnavailable "unavailable");
     parsedate_to_datetime := fun _ => None |}.

(** A world where every feed URL serves the entries [items]. *)
Definition serving (items : list item) : world :=
  {| now := 1000;
     feedparser_parse := fun _ =>
       Returns {| bozo := false; bozo_exception := None; entries := items |};
     httpx_get := fun _ => Raises (Exn RequestError "unreachable");
     ytt_fetch := fun _ => Raises (Exn VideoUnavailable "unavailable");
     parsedate_to_datetime := fun _ => None |}.

(** A world where every video has the transcript [snippets]. *)
Definition captioned (snippets : list snippet) : world :=
  {| now := 1000;
     feedparser_parse := fun _ => Raises transport_error;
     httpx_get := fun _ => Raises (Exn RequestError "unreachable");
     ytt_fetch := fun _ => Returns snippets;
     parsedate_to_datetime := fun _ => None |}.

(** A world where every page request is answered by [r]. *)
Definition answering (r : response) : world :=
  {| now := 1000;
     feedparser_parse := fun _ => Raises transport_error;
     httpx_get := fun _ => Returns r;
     ytt_fetch := fun _ => Raises (Exn VideoUnavailable "unavailable");
     parsedate_to_datetime := fun _ => None |}.

Definition channel_page : response :=
  {| status_code := 200;
     text := "<link rel=canonical href=https://www.youtube.com/channel/UCabcdefghijklmnopqrstuv>" |}.

(** A configuration with an RSS source whose fetcher raises, before a
    newsletter source whose fetcher returns two entries. *)
Definition flaky_source : Sources.source :=
  {| Sources.name := "flaky"; Sources.url := "https://example.org/rss.xml";
     Sources.fetcher := "flaky" |}.

Definition steady_source : Sources.source :=
  {| Sources.name := "steady"; Sources.url := "https://example.org/digest.xml";
     Sources.fetcher := "steady" |}.

Definition flaky_fetchers : gmap string (option Z -> io (list nat)) :=
  {[ "flaky"%string := fun _ => raise transport_error ]}.

Definition steady_fetchers : gmap string (io (list nat)) :=
  {[ "steady"%string := mret [7%nat; 8%nat] ]}.

Definition no_channel (channel : string) (since : option Z) : io (list nat) :=
  raise (Exn ValueError "no such channel").

Definition missing_page : response :=
  {| status_code := 404; text := "not found" |}.

Definition empty_page : response :=
  {| status_code := 200; text := "<html><body>nothing here</body></html>" |}.

(** A world where the page request fails with the exception [e]. *)
Definition failing_with (e : exn) : world :=
  {| now := 1000;
     feedparser_parse := fun _ => Raises transport_error;
     httpx_get := fun _ => Raises e;
     ytt_fetch := fun _ => Raises (Exn VideoUnavailable "unavailable");
     parsedate_to_datetime := fun _ => None |}.

(** A page whose text holds a channel link after other text. *)
Definition linked_page : response :=
  {| status_code := 200;
     text := "<a href=/about>About</a> see https://www.youtube.com/channel/UC0123456789_-ABCDEFGHIJ/videos" |}.

(** A source whose fetcher key is in no dispatch table. *)
Definition unknown_source : Sources.source :=
  {| Sources.name := "unknown"; Sources.url := "https://example.org/feed.xml";
     Sources.fetcher := "unknown" |}.

(** White space around a channel reference. *)
Definition padding_left : string := "  ".
Definition padding_right : string := String " " (String (ascii_of_N 10) EmptyString).

Definition spoken : list snippet :=
  [Snippet (Some " hello "%string); Snippet None;
   Snippet (Some "  "%string); Snippet (Some "world"%string)].

Definition silent : list snippet := [Snippet (Some "  "%string); Snippet None].

(** A video feed item with an ID and a structured date. *)
Definition clip (t : Z) (vid : string) : item :=
  {| link := None; title := Some "Clip"%string; published_parsed := Some (ValidTime t);
     published := None; summary := None; content := [];
     yt_videoid := Some vid; media_description := None |}.

(** A world with a channel page, a feed of two videos, and a transcript
    for the first of them only. *)
Definition studio : world :=
  {| now := 1000;
     feedparser_parse := fun _ =>
       Returns {| bozo := false; bozo_exception := None;
                  entries := [clip 300 "aaaaaaaaaaa"; clip 200 "bbbbbbbbbbb"] |};
     httpx_get := fun _ => Returns channel_page;
     ytt_fetch := fun video_id =>
       if String.eqb video_id "aaaaaaaaaaa" then Returns spoken
       else Raises (Exn NoTranscriptFound "no transcript");
     parsedate_to_datetime := fun _ => None |}.

(** The world [studio] with a feed that cannot be parsed. *)
Definition studio_no_feed : world :=
  {| now := 1000;
     feedparser_parse := fun _ => Raises transport_error;
     httpx_get := fun _ => Returns channel_page;
     ytt_fetch := fun _ => Returns spoken;
     parsedate_to_datetime := fun _ => None |}.

(** A world where only the news feed can be read; it holds an item less
    than one hour old and an item between one and two hours old. *)
Definition newsroom : world :=
  {| now := 10000000000;
     feedparser_parse := fun url =>
       if String.eqb url OpenAINews._FEED_URL
       then Returns {| bozo := false; bozo_exception := None;
                       entries := [dated 7000000000 "a";
                                   dated 3000000000 "b"] |}
       else Raises transport_error;
     httpx_get := fun _ => Raises (Exn RequestError "unreachable");
     ytt_fetch := fun _ => Raises (Exn VideoUnavailable "unavailable");
     parsedate_to_datetime := fun _ => None |}.

(** The world [newsroom] with a third item in the news feed, whose
    structured date is in year -1. *)
Definition newsroom_undatable : world :=
  {| now := 10000000000;
     feedparser_parse := fun url =>
       if String.eqb url OpenAINews._FEED_URL
       then Returns {| bozo := false; bozo_exception := None;
                       entries := [dated 7000000000 "a";
                                   dated 3000000000 "b";
                                   undatable "c"] |}
       else Raises transport_error;
     httpx_get := fun _ => Raises (Exn RequestError "unreachable");
     ytt_fetch := fun _ => Raises (Exn VideoUnavailable "unavailable");
     parsedate_to_datetime := fun _ => None |}.


End Examples.

(* ===================================================================== *)
(** * Laws of the monad *)
(* ===================================================================== *)

Section MonadLaws.
Import Py.
Context {A B : Type}.

Lemma run_ret (a : A) w : run (mret a) w = Returns a.
Proof. reflexivity. Qed.

Lemma trace_ret (a : A) w : trace (mret a) w = [].
Proof. reflexivity. Qed.

Lemma run_bind (m : io A) (f : A -> io B) w :
  run (m ≫= f) w =
  match run m w with Returns a => run (f a) w | Raises e => Raises e end.
Proof.
  unfold run, mbind, io_bind. destruct (m w) as [t [a|e]]; reflexivity.
Qed.

Lemma trace_bind (m : io A) (f : A -> io B) w :
  trace (m ≫= f) w =
  match run m w with
  | Returns a => trace m w ++ trace (f a) w
  | Raises e => trace m w
  end.
Proof.
  unfold run, trace, mbind, io_bind.
  destruct (m w) as [t [a|e]]; reflexivity.
Qed.

Lemma run_fmap (g : A -> B) (m : io A) w :
  run (g <$> m) w =
  match run m w with Returns a => Returns (g a) | Raises e => Raises e end.
Proof.
  unfold run, fmap, io_fmap. destruct (m w) as [t [a|e]]; reflexivity.
Qed.

Lemma trace_fmap (g : A -> B) (m : io A) w :
  trace (g <$> m) w = trace m w.
Proof.
  unfold trace, fmap, io_fmap. destruct (m w) as [t [a|e]]; reflexivity.
Qed.

Lemma run_try_except (body : io A) h w :
  run (try_except body h) w =
  match run body w with Returns a => Returns a | Raises e => run (h e) w end.
Proof.
  unfold run, try_except. destruct (body w) as [t [a|e]]; reflexivity.
Qed.

Lemma trace_try_except (body : io A) h w :
  trace (try_except body h) w =
  match run body w with
  | Returns a => trace body w
  | Raises e => trace body w ++ trace (h e) w
  end.
Proof.
  unfold run, trace, try_except. destruct (body w) as [t [a|e]]; reflexivity.
Qed.

Lemma run_raise (e : exn) w : run (raise (A:=A) e) w = Raises e.
Proof. reflexivity. Qed.

End MonadLaws.

Create Rewrite HintDb io_run.
Create Rewrite HintDb io_trace.

#[local] Hint Rewrite @run_bind @run_fmap @run_try_except @run_ret
  @run_raise : io_run.
#[local] Hint Rewrite @trace_bind @trace_fmap @trace_try_except @trace_ret
  : io_trace.

Ltac io_run := autorewrite with io_run.

(* ===================================================================== *)
(** * The HTML sanitizer *)
(* ===================================================================== *)

Module SanitizerFacts.
Import Py Text Examples.

(** The two copies of the sanitizer are the same function. *)
Lemma strip_html_copies raw :
  SmolAI._strip_html raw = OpenAINews._strip_html raw.
Proof. reflexivity. Qed.

(** The text extraction of the example keeps the blanks that precede
    the newlines. *)
Lemma markup_text :
  Bs4.get_text " " markup =
  "Hello &  world   " +:+ nl +:+ nl +:+ nl +:+ nl +:+ "Bye".
Proof. vm_compute. reflexivity. Qed.

(** C5, as stated, fails: on the example of the specification the
    sanitizer of either fetcher does not return the text in which the
    word world is directly followed by the blank line. *)
Lemma sanitizer_example_differs :
  OpenAINews._strip_html markup <> "Hello & world" +:+ nl +:+ nl +:+ "Bye"
  /\ SmolAI._strip_html markup <> "Hello & world" +:+ nl +:+ nl +:+ "Bye".
Proof. split; vm_compute; discriminate. Qed.

(** C5, amended: on the example of the specification the sanitizer of
    either fetcher returns the text with the tags removed, the reference
    decoded, each run of blanks collapsed to one space, the four newlines
    collapsed to two and the ends trimmed; one space is left between the
    word world and the blank line, because a run of blanks before a
    newline is collapsed and not removed. *)
Theorem strip_html_example :
  OpenAINews._strip_html markup = "Hello & world " +:+ nl +:+ nl +:+ "Bye"
  /\ SmolAI._strip_html markup = "Hello & world " +:+ nl +:+ nl +:+ "Bye".
Proof. split; vm_compute; reflexivity. Qed.

End SanitizerFacts.

(* ===================================================================== *)
(** * Transcript retrieval *)
(* ===================================================================== *)

Module TranscriptFacts.
Import Py Text Spec Examples YouTube.

Lemma str_or_empty s : str_or s EmptyString = s.
Proof. destruct s; reflexivity. Qed.

Lemma truthy_app_l s t : truthy s = true -> truthy (s +:+ t) = true.
Proof. destruct s; [discriminate | reflexivity]. Qed.

Lemma truthy_join sep p rest :
  truthy p = true -> truthy (join sep (p :: rest)) = true.
Proof.
  intros Hp. destruct rest as [|q rest]; [exact Hp|].
  change (join sep (p :: q :: rest)) with (p +:+ sep +:+ join sep (q :: rest)).
  now apply truthy_app_l.
Qed.

(** The loop over the snippets appends the non-empty stripped texts. *)
Lemma collect_parts_spec snippets parts :
  collect_parts snippets parts = parts ++ transcript_parts snippets.
Proof.
  revert parts.
  induction snippets as [|sn rest IH]; intros parts; simpl.
  - now rewrite app_nil_r.
  - unfold transcript_parts; simpl.
    replace (strip match snippet_text sn with
                   | Some t => str_or t EmptyString
                   | None => EmptyString
                   end) with (stripped_text sn)
      by (unfold stripped_text; destruct (snippet_text sn);
          simpl; now rewrite ?str_or_empty).
    destruct (truthy (stripped_text sn)); rewrite IH.
    + now rewrite <- app_assoc.
    + reflexivity.
Qed.

Lemma transcript_parts_truthy snippets :
  Forall (fun p => truthy p = true) (transcript_parts snippets).
Proof.
  unfold transcript_parts. apply Forall_forall. intros p Hp.
  apply list_elem_of_In, filter_In in Hp. tauto.
Qed.

(** What [get_transcript] returns, by the outcome of the retrieval. *)
Lemma get_transcript_run w video_id :
  run (get_transcript video_id) w =
  match ytt_fetch w video_id with
  | Raises _ => Returns None
  | Returns snippets => Returns (or_None (join " " (transcript_parts snippets)))
  end.
Proof.
  unfold get_transcript. io_run.
  unfold run at 1, ytt_fetch_call. simpl.
  destruct (ytt_fetch w video_id) as [snippets|e].
  - io_run. now rewrite collect_parts_spec.
  - destruct (exn_cls e); reflexivity.
Qed.

Lemma or_None_join parts :
  Forall (fun p => truthy p = true) parts ->
  or_None (join " " parts) =
  match parts with [] => None | _ => Some (join " " parts) end.
Proof.
  intros Hall. destruct parts as [|p rest]; [reflexivity|].
  unfold or_None. rewrite truthy_join; [reflexivity|].
  now inversion Hall.
Qed.

(** C6: [get_transcript] never raises.  Whatever exception the retrieval
    raises, the result is [None].  When the retrieval succeeds the result
    is the non-empty stripped snippet texts joined by single spaces, and
    [None] when there is none.  The result is never the empty string. *)
Theorem get_transcript_never_raises w video_id :
  (forall e, ytt_fetch w video_id = Raises e ->
             run (get_transcript video_id) w = Returns None)
  /\ (forall snippets, ytt_fetch w video_id = Returns snippets ->
        run (get_transcript video_id) w =
        Returns match transcript_parts snippets with
                | [] => None
                | parts => Some (join " " parts)
                end)
  /\ (exists r, run (get_transcript video_id) w = Returns r)
  /\ run (get_transcript video_id) w <> Returns (Some EmptyString).
Proof.
  rewrite get_transcript_run.
  destruct (ytt_fetch w video_id) as [snippets|e] eqn:Hfetch.
  - pose proof (transcript_parts_truthy snippets) as Hall.
    rewrite (or_None_join _ Hall).
    repeat split.
    + discriminate.
    + intros ? [= <-]. now destruct (transcript_parts snippets).
    + eauto.
    + destruct (transcript_parts snippets) as [|p rest]; [discriminate|].
      intros [= Hempty]. apply (f_equal truthy) in Hempty.
      change (truthy (join " " (p :: rest)) = false) in Hempty.
      rewrite truthy_join in Hempty; [discriminate|].
      now inversion Hall.
  - repeat split; try discriminate; eauto.
Qed.

Lemma get_transcript_never_raises_witness :
  run (get_transcript "dQw4w9WgXcQ") offline = Returns None
  /\ run (get_transcript "dQw4w9WgXcQ") (captioned spoken)
     = Returns (Some "hello world"%string)
  /\ run (get_transcript "dQw4w9WgXcQ") (captioned silent) = Returns None.
Proof.
  split; [|split].
  - exact (proj1 (get_transcript_never_raises offline "dQw4w9WgXcQ")
             (Exn VideoUnavailable "unavailable") eq_refl).
  - exact (proj1 (proj2 (get_transcript_never_raises
                           (captioned spoken) "dQw4w9WgXcQ"))
             spoken eq_refl).
  - exact (proj1 (proj2 (get_transcript_never_raises
                           (captioned silent) "dQw4w9WgXcQ"))
             silent eq_refl).
Defined.

End TranscriptFacts.

(* ===================================================================== *)
(** * The RSS news fetcher *)
(* ===================================================================== *)

Module NewsFacts.
Import Py Text Spec Examples OpenAINews.

(** The date routine makes no request.  It raises only for a structured
    date out of range, and then raises the [ValueError] of the
    constructor. *)
Lemma news_pubdate_outcome item w :
  exists r, _parse_pubdate item w = ([], r)
            /\ forall e, r = Raises e ->
                         exists reason,
                           published_parsed item = Some (InvalidTime reason)
                           /\ e = Exn ValueError reason.
Proof.
  unfold _parse_pubdate.
  destruct (published_parsed item) as [[t|reason]|].
  - exists (Returns t). split; [reflexivity | discriminate].
  - exists (Raises (Exn ValueError reason)). split; [reflexivity|].
    intros e [= <-]. eauto.
  - unfold mbind, io_bind, try_except, fmap, io_fmap, parsedate_call,
      datetime_now, mret, io_ret.
    destruct (truthy (default EmptyString (published item))); simpl;
      [|eexists; split; [reflexivity | discriminate]].
    destruct (parsedate_to_datetime w _); simpl;
      eexists; (split; [reflexivity | discriminate]).
Qed.

(** The constructor on six fields: a leap day, the first and the last
    second a [datetime] holds, and the dates it refuses. *)
Example struct_time_of_cases :
  struct_time_of (TimeTuple 2024 2 29 12 0 0) = ValidTime 1709208000000000
  /\ struct_time_of (TimeTuple 1970 1 1 0 0 0) = ValidTime 0
  /\ struct_time_of (TimeTuple 1 1 1 0 0 0) = ValidTime datetime_min
  /\ struct_time_of (TimeTuple 9999 12 31 23 59 59)
     = ValidTime (datetime_max - 999999)
  /\ struct_time_of (TimeTuple 2023 2 29 0 0 0)
     = InvalidTime "day is out of range for month"
  /\ struct_time_of (TimeTuple 2024 1 1 0 0 60)
     = InvalidTime "second must be in 0..59"
  /\ struct_time_of (TimeTuple 0 1 1 0 0 0)
     = InvalidTime "year 0 is out of range"
  /\ struct_time_of (TimeTuple 10000 1 1 0 0 0)
     = InvalidTime "year 10000 is out of range".
Proof. repeat split; vm_compute; reflexivity. Qed.

(** The date routine computes the date of the contract, without a
    request. *)
Lemma parse_pubdate_run item w :
  _parse_pubdate item w = ([], news_date w item).
Proof.
  unfold _parse_pubdate, news_date.
  destruct (published_parsed item) as [[t|reason]|]; [reflexivity..|].
  unfold mbind, io_bind, try_except, fmap, io_fmap, parsedate_call,
    datetime_now, mret, io_ret.
  destruct (published item) as [[|c raw_str]|]; simpl; [reflexivity| |reflexivity].
  now destruct (parsedate_to_datetime w (String c raw_str)).
Qed.

Lemma news_date_run item w :
  run (_parse_pubdate item) w = news_date w item.
Proof. unfold run. now rewrite parse_pubdate_run. Qed.

(** The entry the loop appends is the entry of the contract. *)
Lemma make_entry_news_entry item t : make_entry item t = news_entry item t.
Proof.
  unfold make_entry, news_entry.
  destruct (summary item) as [[|c raw]|]; reflexivity.
Qed.

(** One turn of the loop on an item dated [t]. *)
Lemma news_scan_cons since item rest acc w t :
  run (_parse_pubdate item) w = Returns t ->
  run (scan since (item :: rest) acc) w =
  if at_or_before since t then Returns acc
  else run (scan since rest (acc ++ [make_entry item t])) w.
Proof.
  intros Ht. simpl scan. rewrite run_bind, Ht.
  now destruct (at_or_before since t).
Qed.

(** One turn of the loop on an item whose date raises. *)
Lemma news_scan_raises since item rest acc w e :
  run (_parse_pubdate item) w = Raises e ->
  run (scan since (item :: rest) acc) w = Raises e.
Proof. intros He. simpl scan. now rewrite run_bind, He. Qed.

(** The loop is the early stop [news_kept] on the dated items. *)
Lemma news_scan_run since dated w :
  Forall (fun p => run (_parse_pubdate p.1) w = Returns p.2) dated ->
  forall acc,
    run (scan since (map fst dated) acc) w
    = Returns (acc ++ news_kept since dated).
Proof.
  induction 1 as [|[item t] rest Ht _ IH]; intros acc.
  - simpl. now rewrite app_nil_r.
  - cbn [fst snd] in Ht. cbn [map fst news_kept].
    rewrite (news_scan_cons _ _ _ _ _ _ Ht). change (at_or_before since t) with (past since t).
    destruct (past since t); [now rewrite app_nil_r|].
    rewrite IH, make_entry_news_entry. now rewrite <- app_assoc.
Qed.


(** What the fetcher does once the feed is parsed. *)
Lemma fetch_openai_news_run since w :
  run (fetch_openai_news since) w =
  match feedparser_parse w _FEED_URL with
  | Raises _ => Returns []
  | Returns f =>
      match entries f with
      | [] => Returns []
      | _ => run (scan since (entries f) []) w
      end
  end.
Proof.
  unfold fetch_openai_news. io_run.
  unfold run at 1, feedparser_parse_call. simpl.
  destruct (feedparser_parse w _FEED_URL) as [f|e]; io_run; [|reflexivity].
  now destruct (entries f).
Qed.



(** The entry of the witness, field by field. *)
Example news_entry_fields :
  news_entry (dated 300 "a") 300
  = {| post_id := "a"; title := "Untitled"; url := "a";
       published_at := 300; content := None |}.
Proof. reflexivity. Qed.

End NewsFacts.

(* ===================================================================== *)
(** * The newsletter fetcher and the feed failures of both fetchers *)
(* ===================================================================== *)

Module DigestFacts.
Import Py Text Spec Examples.

(** The date routine of the newsletter fetcher is that of the news
    fetcher: no request, and no raise but for a structured date out of
    range. *)
Lemma digest_pubdate_outcome item w :
  exists r, SmolAI._parse_pubdate item w = ([], r)
            /\ forall e, r = Raises e ->
                         exists reason,
                           published_parsed item = Some (InvalidTime reason)
                           /\ e = Exn ValueError reason.
Proof. exact (NewsFacts.news_pubdate_outcome item w). Qed.

(** What the fetcher does once the feed is parsed. *)
Lemma fetch_latest_run w :
  run SmolAI.fetch_latest_smol_ai_issue w =
  match feedparser_parse w SmolAI._FEED_URL with
  | Raises _ => Returns []
  | Returns f =>
      match entries f with
      | [] => Returns []
      | item :: _ =>
          match run (SmolAI._parse_pubdate item) w with
          | Returns t =>
              Returns
                [ {| SmolAI.post_id := default EmptyString (link item);
                     SmolAI.title := default "Untitled"%string (title item);
                     SmolAI.url := default EmptyString (link item);
                     SmolAI.published_at := t;
                     SmolAI.content :=
                       if truthy (SmolAI.raw_content_of item)
                       then Some (SmolAI._strip_html (SmolAI.raw_content_of item))
                       else None |} ]
          | Raises e => Raises e
          end
      end
  end.
Proof.
  unfold SmolAI.fetch_latest_smol_ai_issue. io_run.
  unfold run at 1, feedparser_parse_call. simpl.
  destruct (feedparser_parse w SmolAI._FEED_URL) as [f|e]; io_run;
    [|reflexivity].
  destruct (entries f) as [|item rest]; [reflexivity|].
  io_run. reflexivity.
Qed.

(** The fetcher adds at most one entry. *)
Lemma fetch_latest_at_most_one w :
  (length (contribution (run SmolAI.fetch_latest_smol_ai_issue w)) <= 1)%nat.
Proof.
  rewrite fetch_latest_run.
  destruct (feedparser_parse w SmolAI._FEED_URL) as [f|e]; [|simpl; lia].
  destruct (entries f) as [|item rest]; [simpl; lia|].
  destruct (run (SmolAI._parse_pubdate item) w); simpl; lia.
Qed.

(** C8: the RSS news fetcher and the newsletter fetcher do not raise on
    a feed failure.  When parsing the feed raises, or the parsed feed has
    no entries, each of them returns the empty list. *)
Theorem feed_failure_yields_empty_list w since :
  (feed_failed (feedparser_parse w OpenAINews._FEED_URL) ->
   run (OpenAINews.fetch_openai_news since) w = Returns [])
  /\ (feed_failed (feedparser_parse w SmolAI._FEED_URL) ->
      run SmolAI.fetch_latest_smol_ai_issue w = Returns []).
Proof.
  split; intros Hfail.
  - rewrite NewsFacts.fetch_openai_news_run.
    destruct (feedparser_parse w OpenAINews._FEED_URL) as [f|e];
      [|reflexivity].
    simpl in Hfail. now rewrite Hfail.
  - rewrite fetch_latest_run.
    destruct (feedparser_parse w SmolAI._FEED_URL) as [f|e];
      [|reflexivity].
    simpl in Hfail. now rewrite Hfail.
Qed.

Lemma feed_failure_yields_empty_list_witness :
  (run (OpenAINews.fetch_openai_news (Some 200)) offline = Returns []
   /\ run SmolAI.fetch_latest_smol_ai_issue offline = Returns [])
  /\ (run (OpenAINews.fetch_openai_news (Some 200)) (serving []) = Returns []
      /\ run SmolAI.fetch_latest_smol_ai_issue (serving []) = Returns []).
Proof.
  split; split.
  - exact (proj1 (feed_failure_yields_empty_list offline (Some 200)) I).
  - exact (proj2 (feed_failure_yields_empty_list offline (Some 200)) I).
  - exact (proj1 (feed_failure_yields_empty_list (serving []) (Some 200))
             eq_refl).
  - exact (proj2 (feed_failure_yields_empty_list (serving []) (Some 200))
             eq_refl).
Defined.

End DigestFacts.

(* ===================================================================== *)
(** * The video fetcher *)
(* ===================================================================== *)

Module VideoFacts.
Import Py Text Spec Examples YouTube.



(** The date of an item is the date of the contract, without a
    request. *)
Lemma item_date_run item w : item_date item w = ([], video_date w item).
Proof.
  unfold item_date, video_date, datetime_now.
  now destruct (published_parsed item) as [[t|reason]|].
Qed.

Lemma video_date_run item w : run (item_date item) w = video_date w item.
Proof. unfold run. now rewrite item_date_run. Qed.

(** The entry the loop appends is the video of the contract. *)
Lemma make_entry_video_entry item t : make_entry item t = video_entry item t.
Proof.
  unfold make_entry, video_entry, str_or.
  destruct (link item); destruct (media_description item) as [[|c d]|];
    destruct (summary item) as [[|c' d']|]; reflexivity.
Qed.

(** One turn of the loop on an item dated [t]. *)
Lemma video_scan_cons since item rest acc w t :
  run (item_date item) w = Returns t ->
  run (scan since (item :: rest) acc) w =
  if at_or_before since t then run (scan since rest acc) w
  else run (scan since rest (acc ++ [make_entry item t])) w.
Proof.
  intros Ht. simpl scan. rewrite run_bind, Ht.
  now destruct (at_or_before since t).
Qed.

(** One turn of the loop on an item whose date raises. *)
Lemma video_scan_raises since item rest acc w e :
  run (item_date item) w = Raises e ->
  run (scan since (item :: rest) acc) w = Raises e.
Proof. intros He. simpl scan. now rewrite run_bind, He. Qed.



(** Items at or before the cutoff leave the list as it is. *)
Lemma scan_all_old since items acc w :
  Forall (old w since) items ->
  run (scan (Some since) items acc) w = Returns acc.
Proof.
  induction 1 as [|item rest [t [Ht Hle]] _ IH]; [reflexivity|].
  rewrite (video_scan_cons _ _ _ _ _ _ Ht). simpl at_or_before.
  destruct (Z.leb_spec t since); [exact IH | lia].
Qed.

(** What the fetcher does once the feed is parsed. *)
Lemma fetch_videos_run channel_id since max_results w :
  run (fetch_videos channel_id since max_results) w =
  match feedparser_parse w (_RSS_URL channel_id) with
  | Raises exc =>
      Raises (Exn RuntimeError
                ("Unexpected error parsing RSS feed for '" +:+ channel_id
                 +:+ "': " +:+ exn_str exc))
  | Returns f =>
      if bozo f && bool_decide (entries f = []) then
        Raises (Exn RuntimeError
                  ("RSS feed for channel '" +:+ channel_id
                   +:+ "' is malformed or empty. bozo_exception: "
                   +:+ default "None"%string (bozo_exception f)))
      else run (scan since (slice_to max_results (entries f)) []) w
  end.
Proof.
  unfold fetch_videos. io_run.
  unfold run at 1, feedparser_parse_call. simpl.
  destruct (feedparser_parse w (_RSS_URL channel_id)) as [f|e]; io_run;
    [|reflexivity].
  now destruct (bozo f && bool_decide (entries f = [])).
Qed.




(** The loop is the filter [videos_kept] on the dated items. *)
Lemma video_scan_run since dated w :
  Forall (fun p => run (item_date p.1) w = Returns p.2) dated ->
  forall acc,
    run (scan since (map fst dated) acc) w
    = Returns (acc ++ videos_kept since dated).
Proof.
  induction 1 as [|[item t] rest Ht _ IH]; intros acc.
  - simpl. now rewrite app_nil_r.
  - cbn [fst snd] in Ht. cbn [map fst videos_kept].
    rewrite (video_scan_cons _ _ _ _ _ _ Ht). change (at_or_before since t) with (past since t).
    destruct (past since t); rewrite IH; [reflexivity|].
    rewrite make_entry_video_entry. now rewrite <- app_assoc.
Qed.




(** The video of the witness, field by field. *)
Example video_entry_fields :
  video_entry (clip 300 "aaaaaaaaaaa") 300
  = {| video_id := "aaaaaaaaaaa"; title := "Clip";
       url := "https://www.youtube.com/watch?v=aaaaaaaaaaa";
       published_at := 300; description := None; transcript := None |}.
Proof. reflexivity. Qed.

(** C3: the cap is applied to the feed in its raw order, before the
    cutoff.  With more than [max_results] entries in the feed, the fetcher
    scans the first [max_results] of them and no other; when these are all
    published at or before the cutoff, the result is empty, whatever the
    dates of the entries beyond the cap. *)
Theorem fetch_videos_cap_before_filter w channel_id f since max_results :
  feedparser_parse w (_RSS_URL channel_id) = Returns f ->
  0 <= max_results < Z.of_nat (length (entries f)) ->
  run (fetch_videos channel_id (Some since) max_results) w
  = run (scan (Some since) (firstn (Z.to_nat max_results) (entries f)) []) w
  /\ (Forall (old w since) (firstn (Z.to_nat max_results) (entries f)) ->
      run (fetch_videos channel_id (Some since) max_results) w = Returns []).
Proof.
  intros Hf [Hlo Hhi].
  assert (Hrun :
    run (fetch_videos channel_id (Some since) max_results) w
    = run (scan (Some since) (firstn (Z.to_nat max_results) (entries f)) []) w).
  { rewrite fetch_videos_run, Hf.
    destruct (entries f) as [|item rest] eqn:He; [simpl in Hhi; lia|].
    rewrite andb_false_r. unfold slice_to.
    destruct (Z.leb_spec 0 max_results); [reflexivity | lia]. }
  split; [exact Hrun|].
  intros Hold. rewrite Hrun. now apply scan_all_old.
Qed.

Lemma fetch_videos_cap_before_filter_witness :
  run (fetch_videos "UCabcdefghijklmnopqrstuv" (Some 200) 2)
      (serving [dated 150 "a"; dated 100 "b"; dated 300 "c"])
  = Returns []
  /\ ~ old (serving [dated 150 "a"; dated 100 "b"; dated 300 "c"]) 200
           (dated 300 "c").
Proof.
  split.
  - apply (proj2 (fetch_videos_cap_before_filter
                    (serving [dated 150 "a"; dated 100 "b"; dated 300 "c"])
                    "UCabcdefghijklmnopqrstuv"
                    {| bozo := false; bozo_exception := None;
                       entries := [dated 150 "a"; dated 100 "b";
                                   dated 300 "c"] |}
                    200 2 eq_refl ltac:(simpl; lia))).
    repeat constructor; eexists; (split; [reflexivity | lia]).
  - intros [t [Ht Hle]]. injection Ht as <-. lia.
Defined.

(** The two policies differ on the feed of C2: the news fetcher stops at
    its first item and returns nothing. *)
Example news_fetcher_on_unordered_feed :
  run (OpenAINews.fetch_openai_news (Some 200))
      (serving [dated 200 "b"; dated 300 "a"; dated 100 "c"])
  = Returns [].
Proof. vm_compute. reflexivity. Qed.

End VideoFacts.

(* ===================================================================== *)
(** * Channel resolution *)
(* ===================================================================== *)

Module ResolveFacts.
Import Py Text Spec Examples YouTube.

Lemma id_char_not_space c : is_id_char c = true -> isspace c = false.
Proof.
  destruct c as [[] [] [] [] [] [] [] []]; vm_compute; congruence.
Qed.

Lemma rstrip_head c s :
  isspace c = false -> exists r, rstrip (String c s) = String c r.
Proof.
  intros Hc. simpl. destruct (rstrip s); rewrite ?Hc; eauto.
Qed.

(** A string without white space is its own [rstrip]. *)
Lemma rstrip_no_space s :
  all_chars (fun c => negb (isspace c)) s = true -> rstrip s = s.
Proof.
  induction s as [|c s IH]; [reflexivity|].
  simpl. intros [Hc Hs]%andb_prop. rewrite (IH Hs).
  apply negb_true_iff in Hc. rewrite Hc. now destruct s.
Qed.

Lemma all_chars_impl (p q : ascii -> bool) s :
  (forall c, p c = true -> q c = true) ->
  all_chars p s = true -> all_chars q s = true.
Proof.
  intros Hpq. induction s as [|c s IH]; [reflexivity|].
  simpl. intros [Hc Hs]%andb_prop. now rewrite (Hpq _ Hc), (IH Hs).
Qed.

(** Reading as many ID characters as a string of ID characters holds
    reads all of it and leaves what follows. *)
Lemma take_id_chars_app body rest :
  all_chars is_id_char body = true ->
  take_id_chars (String.length body) (body +:+ rest) = Some (body, rest).
Proof.
  induction body as [|c body IH]; [reflexivity|].
  simpl. intros [Hc Hs]%andb_prop.
  change (String c body +:+ rest) with (String c (body +:+ rest)).
  now rewrite Hc, (IH Hs).
Qed.

Lemma append_empty_r s : s +:+ EmptyString = s.
Proof.
  induction s as [|c s IH]; [reflexivity|].
  change (String c s +:+ EmptyString) with (String c (s +:+ EmptyString)).
  now rewrite IH.
Qed.

Lemma take_id_chars_all body :
  all_chars is_id_char body = true ->
  take_id_chars (String.length body) body = Some (body, EmptyString).
Proof.
  intros Hall. rewrite <- (append_empty_r body) at 2.
  now apply take_id_chars_app.
Qed.

(** What was read are ID characters, as many as asked for. *)
Lemma take_id_chars_inv n : forall s m rest,
  take_id_chars n s = Some (m, rest) ->
  s = m +:+ rest /\ String.length m = n /\ all_chars is_id_char m = true.
Proof.
  induction n as [|n IH]; intros s m rest; simpl.
  - intros [= <- <-]. auto.
  - destruct s as [|c s]; [discriminate|].
    destruct (is_id_char c) eqn:Hc; [|discriminate].
    destruct (take_id_chars n s) as [[m' rest']|] eqn:Ht; [|discriminate].
    intros [= <- <-]. destruct (IH _ _ _ Ht) as (-> & <- & Hall).
    simpl. rewrite Hc, Hall. auto.
Qed.

Lemma canonical_id_inv s :
  canonical_id s = true ->
  exists body, s = String "U" (String "C" body)
               /\ String.length body = 22%nat
               /\ all_chars is_id_char body = true.
Proof.
  destruct s as [|c s]; [discriminate|].
  destruct c as [[] [] [] [] [] [] [] []]; try discriminate.
  destruct s as [|c s]; [discriminate|].
  destruct c as [[] [] [] [] [] [] [] []]; try discriminate.
  simpl. intros [Hlen Hall]%andb_prop.
  apply Nat.eqb_eq in Hlen. eauto.
Qed.

(** A canonical ID is left as it is by [strip] and matches the pattern. *)
Lemma canonical_id_fixed s :
  canonical_id s = true ->
  strip s = s /\ _CHANNEL_ID_RE_match s = true.
Proof.
  intros (body & -> & Hlen & Hall)%canonical_id_inv. split.
  - unfold strip. change (lstrip (String "U" (String "C" body)))
      with (String "U" (String "C" body)).
    apply rstrip_no_space.
    change (all_chars (fun c => negb (isspace c)) body = true).
    apply all_chars_impl with (p := is_id_char); [|assumption].
    intros c Hc. now rewrite (id_char_not_space _ Hc).
  - change (match take_id_chars 22 body with
            | Some (_, rest) => at_dollar rest
            | None => false
            end = true).
    rewrite <- Hlen, (take_id_chars_all _ Hall). reflexivity.
Qed.

(** The pattern accepts the canonical IDs and, because of the anchor, the
    canonical IDs followed by one newline; nothing else. *)
Lemma channel_id_pattern s :
  _CHANNEL_ID_RE_match s = true <->
  canonical_id s = true
  \/ exists s', s = s' +:+ nl /\ canonical_id s' = true.
Proof.
  split.
  - destruct s as [|c s]; [discriminate|].
    destruct c as [[] [] [] [] [] [] [] []]; try discriminate.
    destruct s as [|c s]; [discriminate|].
    destruct c as [[] [] [] [] [] [] [] []]; try discriminate.
    change (match take_id_chars 22 s with
            | Some (_, rest) => at_dollar rest
            | None => false
            end = true -> canonical_id (String "U" (String "C" s)) = true
                          \/ exists s', String "U" (String "C" s) = s' +:+ nl
                                        /\ canonical_id s' = true).
    destruct (take_id_chars 22 s) as [[m rest]|] eqn:Ht; [|discriminate].
    destruct (take_id_chars_inv _ _ _ _ Ht) as (-> & Hlen & Hall).
    destruct rest as [|c [|c' rest]]; try discriminate.
    + intros _. left. rewrite append_empty_r.
      change (((String.length m =? 22)%nat && all_chars is_id_char m) = true).
      now rewrite Hlen, Hall.
    + intros Hnl. right. exists (String "U" (String "C" m)). split.
      * destruct c as [[] [] [] [] [] [] [] []]; try discriminate.
        reflexivity.
      * change (((String.length m =? 22)%nat && all_chars is_id_char m) = true).
        now rewrite Hlen, Hall.
  - intros [Hc | (s' & -> & Hc)]; [now apply canonical_id_fixed|].
    apply canonical_id_inv in Hc as (body & -> & Hlen & Hall).
    change (match take_id_chars 22 (body +:+ nl) with
            | Some (_, rest) => at_dollar rest
            | None => false
            end = true).
    rewrite <- Hlen, (take_id_chars_app _ nl Hall). reflexivity.
Qed.

(** Scraping a channel page makes one page request, whatever comes of
    it. *)
Lemma scrape_channel_id_trace page_url w :
  trace (_scrape_channel_id page_url) w = [PageFetch page_url].
Proof.
  unfold _scrape_channel_id, trace, mbind, io_bind, try_except,
    httpx_get_call, raise_for_status.
  destruct (httpx_get w page_url) as [r|e]; simpl.
  - destruct ((200 <=? status_code r) && (status_code r <? 300)); simpl.
    + now destruct (search_channel_link (text r)).
    + reflexivity.
  - now destruct (exn_cls e).
Qed.

Lemma startswith_at h :
  startswith "@" h = true -> exists rest, h = String "@" rest.
Proof.
  destruct h as [|[[] [] [] [] [] [] [] []] rest]; try discriminate.
  eauto.
Qed.

(** C4: an input that is a canonical channel ID (UC and 22 ID
    characters, 24 characters in all) is returned as it is and no
    request is made; an input that starts with the at sign leads to
    exactly one page fetch. *)
Theorem resolve_channel_id_requests w :
  (forall s, canonical_id s = true ->
             resolve_channel_id s w = ([], Returns s))
  /\ (forall h, startswith "@" h = true ->
                trace (resolve_channel_id h) w
                = [PageFetch ("https://www.youtube.com/" +:+ strip h)]).
Proof.
  split.
  - intros s [Hstrip Hmatch]%canonical_id_fixed.
    unfold resolve_channel_id. now rewrite Hstrip, Hmatch.
  - intros h [rest ->]%startswith_at.
    unfold resolve_channel_id.
    assert (Hs : exists r, strip (String "@" rest) = String "@" r)
      by (apply (rstrip_head "@" rest); reflexivity).
    destruct Hs as [r ->].
    change (_CHANNEL_ID_RE_match (String "@" r)) with false.
    change (startswith "@" (String "@" r)) with true.
    apply scrape_channel_id_trace.
Qed.

Lemma resolve_channel_id_requests_witness :
  resolve_channel_id "UCabcdefghijklmnopqrstuv" (answering channel_page)
  = ([], Returns "UCabcdefghijklmnopqrstuv"%string)
  /\ trace (resolve_channel_id "@SomeHandle") (answering channel_page)
     = [PageFetch "https://www.youtube.com/@SomeHandle"].
Proof.
  split.
  - exact (proj1 (resolve_channel_id_requests (answering channel_page))
             "UCabcdefghijklmnopqrstuv"%string eq_refl).
  - exact (proj2 (resolve_channel_id_requests (answering channel_page))
             "@SomeHandle"%string eq_refl).
Defined.

(** The handle of the example resolves to the ID on the page. *)
Example resolve_handle_example :
  run (resolve_channel_id "@SomeHandle") (answering channel_page)
  = Returns "UCabcdefghijklmnopqrstuv"%string.
Proof. vm_compute. reflexivity. Qed.

(** The pattern alone also accepts a canonical ID followed by a newline;
    the fetcher strips its input first. *)
Example pattern_trailing_newline :
  _CHANNEL_ID_RE_match ("UCabcdefghijklmnopqrstuv" +:+ nl) = true
  /\ run (resolve_channel_id ("UCabcdefghijklmnopqrstuv" +:+ nl)) offline
     = Returns "UCabcdefghijklmnopqrstuv"%string.
Proof. split; vm_compute; reflexivity. Qed.

End ResolveFacts.

(* ===================================================================== *)
(** * The runner *)
(* ===================================================================== *)

Module RunnerFacts.
Import Py Spec Examples Sources Runner.

(** The cutoff in range: the computation returns it, without a request. *)
Lemma compute_cutoff_run hours w :
  cutoff_in_range w hours ->
  compute_cutoff hours w = ([], Returns (cutoff_of w hours)).
Proof.
  unfold cutoff_in_range, cutoff_of, compute_cutoff, timedelta_hours,
    datetime_sub, datetime_now, datetime_min, datetime_max.
  intros [[Hd1 Hd2] [Hc1 Hc2]].
  cbv [mbind io_bind mret io_ret raise]. cbn [fst snd].
  destruct (Z.leb_spec (-999999999) (hours / 24)); [|lia].
  destruct (Z.leb_spec (hours / 24) 999999999); [|lia].
  cbn [andb fst snd app].
  destruct (Z.leb_spec (-62135596800000000) (now w - hours * 3600 * 1000000));
    [|lia].
  destruct (Z.leb_spec (now w - hours * 3600 * 1000000) 253402300799999999);
    [|lia].
  reflexivity.
Qed.

(** The cutoff out of range: the computation raises an [OverflowError],
    without a request. *)
Lemma compute_cutoff_overflow hours w :
  ~ cutoff_in_range w hours ->
  exists e, compute_cutoff hours w = ([], Raises e)
            /\ exn_cls e = OverflowError.
Proof.
  unfold cutoff_in_range, cutoff_of, compute_cutoff, timedelta_hours,
    datetime_sub, datetime_now, datetime_min, datetime_max.
  intros Hout.
  cbv [mbind io_bind mret io_ret raise]. cbn [fst snd].
  destruct ((-999999999 <=? hours / 24) && (hours / 24 <=? 999999999))
    eqn:Hdays; cbn [fst snd app].
  - destruct ((-62135596800000000 <=? now w - hours * 3600 * 1000000)
              && (now w - hours * 3600 * 1000000 <=? 253402300799999999))
      eqn:Hdate; cbn [fst snd app]; [|eauto].
    exfalso. apply Hout. lia.
  - destruct ((-2147483648 <=? hours / 24) && (hours / 24 <=? 2147483647));
      cbn [fst snd app]; eauto.
Qed.

(** The computation of the cutoff makes no request. *)
Lemma compute_cutoff_trace hours w : trace (compute_cutoff hours) w = [].
Proof.
  unfold trace, compute_cutoff, timedelta_hours, datetime_sub, datetime_now.
  cbv [mbind io_bind mret io_ret raise]. cbn [fst snd].
  destruct ((-999999999 <=? hours / 24) && (hours / 24 <=? 999999999));
    cbn [fst snd app].
  - now destruct ((datetime_min <=? now w - hours * 3600 * 1000000)
                  && (now w - hours * 3600 * 1000000 <=? datetime_max)).
  - now destruct ((-2147483648 <=? hours / 24)
                  && (hours / 24 <=? 2147483647)).
Qed.

(** A cutoff that is computed is in range, and is [hours] before the
    clock. *)
Lemma compute_cutoff_returns hours w cutoff :
  run (compute_cutoff hours) w = Returns cutoff ->
  cutoff_in_range w hours /\ cutoff = cutoff_of w hours.
Proof.
  unfold run, cutoff_in_range, cutoff_of, compute_cutoff, timedelta_hours,
    datetime_sub, datetime_now, datetime_min, datetime_max.
  cbv [mbind io_bind mret io_ret raise]. cbn [fst snd].
  destruct ((-999999999 <=? hours / 24) && (hours / 24 <=? 999999999))
    eqn:Hdays; cbn [fst snd app].
  - destruct ((-62135596800000000 <=? now w - hours * 3600 * 1000000)
              && (now w - hours * 3600 * 1000000 <=? 253402300799999999))
      eqn:Hdate; cbn [fst snd app]; [|discriminate].
    intros [= <-]. split; [lia | reflexivity].
  - destruct ((-2147483648 <=? hours / 24) && (hours / 24 <=? 2147483647));
      discriminate.
Qed.

Section Generic.
Context {A : Type}.
Variable channels : list string.
Variable rss_sources newsletter_sources : list source.
Variable fetch_channel : string -> option Z -> io (list A).
Variable rss_fetchers : gmap string (option Z -> io (list A)).
Variable newsletter_fetchers : gmap string (io (list A)).

(** A run whose cutoff cannot be computed raises what the computation
    raises, before any request. *)
Lemma run_all_fetchers_with_raises hours w e :
  run (compute_cutoff hours) w = Raises e ->
  run_all_fetchers_with channels rss_sources newsletter_sources
    fetch_channel rss_fetchers newsletter_fetchers hours w
  = ([], Raises e).
Proof.
  intros He. pose proof (compute_cutoff_trace hours w) as Ht.
  unfold run_all_fetchers_with, mbind, io_bind. unfold run in He.
  unfold trace in Ht.
  destruct (compute_cutoff hours w) as [t r]. simpl in *. now subst.
Qed.

(** A loop whose every turn returns the list extended by [g x] returns
    the list extended by all the [g x], in order. *)
Lemma for_each_run {S : Type} (step : list A -> S -> io (list A))
      (g : S -> list A) w xs :
  (forall acc x, run (step acc x) w = Returns (acc ++ g x)) ->
  forall acc,
    run (for_each step xs acc) w = Returns (acc ++ flat_map g xs).
Proof.
  intros Hstep. induction xs as [|x rest IH]; intros acc; simpl.
  - now rewrite app_nil_r.
  - rewrite run_bind, Hstep, IH. now rewrite <- app_assoc.
Qed.

Lemma youtube_step_run cutoff w acc channel :
  run (youtube_step fetch_channel cutoff acc channel) w
  = Returns (acc ++ channel_contribution fetch_channel cutoff w channel).
Proof.
  unfold youtube_step, channel_contribution. io_run.
  destruct (run (fetch_channel channel (Some cutoff)) w); io_run; simpl;
    now rewrite ?app_nil_r.
Qed.

Lemma rss_step_run cutoff w acc source :
  run (rss_step rss_fetchers cutoff acc source) w
  = Returns (acc ++ rss_contribution rss_fetchers cutoff w source).
Proof.
  unfold rss_step, rss_contribution.
  destruct (rss_fetchers !! fetcher source) as [fetcher_fn|];
    [|now rewrite app_nil_r].
  io_run.
  destruct (run (fetcher_fn (Some cutoff)) w); io_run; simpl;
    now rewrite ?app_nil_r.
Qed.

Lemma newsletter_step_run w acc source :
  run (newsletter_step newsletter_fetchers acc source) w
  = Returns (acc ++ newsletter_contribution newsletter_fetchers w source).
Proof.
  unfold newsletter_step, newsletter_contribution.
  destruct (newsletter_fetchers !! fetcher source) as [fetcher_fn|];
    [|now rewrite app_nil_r].
  io_run.
  destruct (run fetcher_fn w); io_run; simpl; now rewrite ?app_nil_r.
Qed.

(** The aggregate: what every source adds, in the order of the
    configuration. *)
Lemma run_all_fetchers_with_run hours w :
  cutoff_in_range w hours ->
  run (run_all_fetchers_with channels rss_sources newsletter_sources
         fetch_channel rss_fetchers newsletter_fetchers hours) w
  = Returns
      (flat_map (channel_contribution fetch_channel (cutoff_of w hours) w)
                channels
       ++ flat_map (rss_contribution rss_fetchers (cutoff_of w hours) w)
                   rss_sources
       ++ flat_map (newsletter_contribution newsletter_fetchers w)
                   newsletter_sources).
Proof.
  intros Hrange. unfold run_all_fetchers_with. rewrite run_bind.
  assert (Hcut : run (compute_cutoff hours) w = Returns (cutoff_of w hours))
    by (unfold run; now rewrite (compute_cutoff_run _ _ Hrange)).
  rewrite Hcut.
  rewrite run_bind,
    (for_each_run _ _ w channels (fun acc x => youtube_step_run _ w acc x)).
  rewrite run_bind,
    (for_each_run _ _ w rss_sources (fun acc x => rss_step_run _ w acc x)).
  rewrite run_bind,
    (for_each_run _ _ w newsletter_sources
       (fun acc x => newsletter_step_run w acc x)).
  rewrite run_ret. simpl. now rewrite <- app_assoc.
Qed.

End Generic.

(** The configured runner returns a list whenever the cutoff can be
    computed. *)
Lemma run_all_fetchers_returns hours w :
  cutoff_in_range w hours ->
  exists l, run (run_all_fetchers hours) w = Returns l.
Proof.
  intros Hrange. unfold run_all_fetchers.
  rewrite run_all_fetchers_with_run by assumption. eauto.
Qed.

(** C10: the runner isolates the failure of a source.  The fetchers are
    invoked when the cutoff is in range; a cutoff out of range raises
    before the first source.  With the cutoff in range the run does not
    raise: its result is, in the order of the configuration, the lists
    returned by the channel, RSS and newsletter invocations that
    returned.  A source whose invocation raises is caught and adds
    nothing, so the run is the run of the configuration without that
    source: the entries of every other source, the later ones included,
    are in the aggregate, in source order. *)
Theorem run_all_fetchers_isolates_failures {A : Type}
        (channels : list string) (rss_sources newsletter_sources : list source)
        (fetch_channel : string -> option Z -> io (list A))
        (rss_fetchers : gmap string (option Z -> io (list A)))
        (newsletter_fetchers : gmap string (io (list A)))
        (hours : Z) (w : world) :
  cutoff_in_range w hours ->
  let runner cs rs ns :=
    run (run_all_fetchers_with cs rs ns
           fetch_channel rss_fetchers newsletter_fetchers hours) w in
  runner channels rss_sources newsletter_sources
  = Returns
      (flat_map (channel_contribution fetch_channel (cutoff_of w hours) w)
                channels
       ++ flat_map (rss_contribution rss_fetchers (cutoff_of w hours) w)
                   rss_sources
       ++ flat_map (newsletter_contribution newsletter_fetchers w)
                   newsletter_sources)
  /\ (forall pre channel post e,
        channels = pre ++ channel :: post ->
        run (fetch_channel channel (Some (cutoff_of w hours))) w = Raises e ->
        runner channels rss_sources newsletter_sources
        = runner (pre ++ post) rss_sources newsletter_sources)
  /\ (forall pre source post fetcher_fn e,
        rss_sources = pre ++ source :: post ->
        rss_fetchers !! fetcher source = Some fetcher_fn ->
        run (fetcher_fn (Some (cutoff_of w hours))) w = Raises e ->
        runner channels rss_sources newsletter_sources
        = runner channels (pre ++ post) newsletter_sources)
  /\ (forall pre source post fetcher_fn e,
        newsletter_sources = pre ++ source :: post ->
        newsletter_fetchers !! fetcher source = Some fetcher_fn ->
        run fetcher_fn w = Raises e ->
        runner channels rss_sources newsletter_sources
        = runner channels rss_sources (pre ++ post)).
Proof.
  intros Hrange runner. unfold runner.
  split; [now apply run_all_fetchers_with_run|].
  split; [|split].
  - intros pre channel post e -> Hraise.
    rewrite !run_all_fetchers_with_run, !flat_map_app by assumption. simpl.
    unfold channel_contribution at 2. now rewrite Hraise.
  - intros pre source post fetcher_fn e -> Hkey Hraise.
    rewrite !run_all_fetchers_with_run, !flat_map_app by assumption. simpl.
    unfold rss_contribution at 2. now rewrite Hkey, Hraise.
  - intros pre source post fetcher_fn e -> Hkey Hraise.
    rewrite !run_all_fetchers_with_run, !flat_map_app by assumption. simpl.
    unfold newsletter_contribution at 2. now rewrite Hkey, Hraise.
Qed.

Lemma run_all_fetchers_isolates_failures_witness :
  cutoff_in_range offline 24
  /\ run (run_all_fetchers_with ["@nobody"%string] [flaky_source]
            [steady_source] no_channel flaky_fetchers steady_fetchers 24)
         offline
     = Returns [7%nat; 8%nat]
  /\ run (run_all_fetchers_with ["@nobody"%string] [flaky_source]
            [steady_source] no_channel flaky_fetchers steady_fetchers 24)
         offline
     = run (run_all_fetchers_with ["@nobody"%string] [] [steady_source]
              no_channel flaky_fetchers steady_fetchers 24) offline.
Proof.
  assert (Hrange : cutoff_in_range offline 24)
    by (repeat split; vm_compute; discriminate).
  split; [exact Hrange|]. split.
  - exact (proj1 (run_all_fetchers_isolates_failures
                    ["@nobody"%string] [flaky_source] [steady_source]
                    no_channel flaky_fetchers steady_fetchers 24 offline
                    Hrange)).
  - exact (proj1 (proj2 (proj2 (run_all_fetchers_isolates_failures
                    ["@nobody"%string] [flaky_source] [steady_source]
                    no_channel flaky_fetchers steady_fetchers 24 offline
                    Hrange)))
             [] flaky_source [] (fun _ => raise transport_error)
             transport_error eq_refl eq_refl eq_refl).
Defined.

(** A look-back of 24000000000 hours is no [timedelta]: the run raises
    before it invokes a source, and makes no request. *)
Example run_all_fetchers_overflow :
  run_all_fetchers 24000000000 (serving [dated 999 "a"])
  = ([], Raises (Exn OverflowError
                   "days=1000000000; must have magnitude <= 999999999")).
Proof. vm_compute. reflexivity. Qed.

(** The configured runner in a world where the channel page cannot be
    fetched and both feeds serve one item: the channel failure is caught
    and the news and digest entries are returned, in this order. *)
Example run_all_fetchers_channel_failure :
  run (run_all_fetchers 24) (serving [dated 999 "a"])
  = Returns
      [News (OpenAINews.make_entry (dated 999 "a") 999);
       Digest {| SmolAI.post_id := "a"; SmolAI.title := "Untitled";
                 SmolAI.url := "a"; SmolAI.published_at := 999;
                 SmolAI.content := None |}].
Proof. vm_compute. reflexivity. Qed.

(** With every request failing the run still returns, with no entry. *)
Example run_all_fetchers_offline :
  run (run_all_fetchers 24) offline = Returns [].
Proof. vm_compute. reflexivity. Qed.

End RunnerFacts.

(* ===================================================================== *)
(** * The optional text fields of the entries *)
(* ===================================================================== *)

Module ContentFacts.
Import Py Text Spec Examples.

Lemma or_None_not_empty s : or_None s <> Some EmptyString.
Proof. destruct s; discriminate. Qed.

(** ** The video path normalises after stripping *)

Lemma video_description_not_empty item t :
  YouTube.description (YouTube.make_entry item t) <> Some EmptyString.
Proof. apply or_None_not_empty. Qed.

Lemma get_transcript_not_empty video_id w :
  exists r, run (YouTube.get_transcript video_id) w = Returns r
            /\ r <> Some EmptyString.
Proof.
  rewrite TranscriptFacts.get_transcript_run.
  destruct (ytt_fetch w video_id); eexists; split; try reflexivity;
    [apply or_None_not_empty | discriminate].
Qed.

Lemma video_scan_clean since items w :
  forall acc l,
    Forall clean acc ->
    run (YouTube.scan since items acc) w = Returns l ->
    Forall clean l.
Proof.
  induction items as [|item rest IH]; intros acc l Hacc.
  - intros [= <-]. exact Hacc.
  - destruct (run (YouTube.item_date item) w) as [t|e] eqn:Ht.
    + rewrite (VideoFacts.video_scan_cons since item rest acc w t Ht).
      destruct (YouTube.at_or_before since t); [now apply IH|].
      apply IH. apply Forall_app. split; [exact Hacc|].
      constructor; [|constructor].
      split; [apply video_description_not_empty | discriminate].
    + rewrite (VideoFacts.video_scan_raises since item rest acc w e Ht).
      discriminate.
Qed.

Lemma attach_transcripts_clean w videos :
  Forall clean videos ->
  exists l, run (YouTube.attach_transcripts videos) w = Returns l
            /\ Forall clean l.
Proof.
  induction 1 as [|v rest [Hd _] _ [l [Hl Hclean]]].
  - exists []. split; [reflexivity | constructor].
  - destruct (get_transcript_not_empty (YouTube.video_id v) w)
      as [r [Hr Hne]].
    exists (YouTube.set_transcript v r :: l). split.
    + simpl YouTube.attach_transcripts.
      rewrite run_bind, Hr, run_bind, Hl. reflexivity.
    + constructor; [split; assumption | exact Hclean].
Qed.

(** Every entry the video pipeline returns has a description and a
    transcript that are not the empty string. *)
Lemma fetch_channel_videos_clean channel_input since include max_results w l :
  run (YouTube.fetch_channel_videos channel_input since include max_results) w
  = Returns l ->
  Forall clean l.
Proof.
  unfold YouTube.fetch_channel_videos. rewrite run_bind.
  destruct (run (YouTube.resolve_channel_id channel_input) w)
    as [channel_id|e]; [|discriminate].
  rewrite run_bind, VideoFacts.fetch_videos_run.
  destruct (feedparser_parse w _) as [f|e]; [|discriminate].
  destruct (bozo f && bool_decide (entries f = [])); [discriminate|].
  destruct (run (YouTube.scan since (slice_to max_results (entries f)) []) w)
    as [videos|e] eqn:Hv; [|discriminate].
  pose proof (video_scan_clean _ _ _ _ _ (Forall_nil_2 _) Hv) as Hclean.
  destruct include.
  - destruct (attach_transcripts_clean w videos Hclean) as [l' [Hl' Hc]].
    rewrite Hl'. now intros [= <-].
  - now intros [= <-].
Qed.

(** ** The RSS and newsletter paths test the raw text *)

(** The content is [None] when the summary is missing or empty. *)
Lemma news_content_absent item t :
  summary item = None \/ summary item = Some EmptyString ->
  OpenAINews.content (OpenAINews.make_entry item t) = None.
Proof.
  intros [Hs | Hs]; unfold OpenAINews.make_entry;
    cbn [OpenAINews.content]; now rewrite Hs.
Qed.

(** The content is the sanitized summary otherwise, whatever the
    sanitizer leaves of it. *)
Lemma news_content_present item t raw :
  summary item = Some raw -> truthy raw = true ->
  OpenAINews.content (OpenAINews.make_entry item t)
  = Some (OpenAINews._strip_html raw).
Proof.
  intros Hs Hraw. unfold OpenAINews.make_entry.
  cbn [OpenAINews.content]. rewrite Hs. cbn [default from_option id].
  rewrite TranscriptFacts.str_or_empty. now rewrite Hraw.
Qed.

(** C9 fails on the RSS and the newsletter paths: for a feed item whose
    summary is markup without text, here an empty paragraph, the entry
    of either fetcher has the empty string as its content. *)
Theorem rss_content_empty_string :
  run (OpenAINews.fetch_openai_news None) (serving [summarised 500 "<p></p>"])
  = Returns
      [ {| OpenAINews.post_id := "https://example.org/post";
           OpenAINews.title := "Post";
           OpenAINews.url := "https://example.org/post";
           OpenAINews.published_at := 500;
           OpenAINews.content := Some EmptyString |} ]
  /\ run SmolAI.fetch_latest_smol_ai_issue
         (serving [summarised 500 "<p></p>"])
     = Returns
         [ {| SmolAI.post_id := "https://example.org/post";
              SmolAI.title := "Post";
              SmolAI.url := "https://example.org/post";
              SmolAI.published_at := 500;
              SmolAI.content := Some EmptyString |} ].
Proof. split; vm_compute; reflexivity. Qed.

(** The same holds for a summary of white space only, whatever the text
    extraction makes of the markup: [strip] empties it. *)
Example rss_content_blank_summary :
  OpenAINews.content (OpenAINews.make_entry (summarised 500 "<p> </p>") 500)
  = Some EmptyString.
Proof. vm_compute. reflexivity. Qed.

End ContentFacts.

(* ===================================================================== *)
(** * The shape of sanitized text *)
(* ===================================================================== *)

Module SanitizerShape.
Import Py Text Spec.

Lemma append_cons c s t : String c s +:+ t = String c (s +:+ t).
Proof. reflexivity. Qed.

Lemma append_nil t : EmptyString +:+ t = t.
Proof. reflexivity. Qed.

Lemma newline_not_blank c : is_newline c = true -> is_blank c = false.
Proof.
  unfold is_newline, is_blank. intros H%N.eqb_eq. now rewrite H.
Qed.

(** [rstrip] either empties a string or keeps its head. *)
Lemma rstrip_cases c s :
  rstrip (String c s) = EmptyString
  \/ rstrip (String c s) = String c (rstrip s).
Proof.
  simpl. destruct (rstrip s); [destruct (isspace c)|]; auto.
Qed.

(** ** Trimmed ends *)

Lemma lstrip_head s : head_space (lstrip s) = false.
Proof.
  induction s as [|c s IH]; [reflexivity|].
  simpl. destruct (isspace c) eqn:Hc; [exact IH | simpl; exact Hc].
Qed.

Lemma rstrip_keeps_head s :
  head_space s = false -> head_space (rstrip s) = false.
Proof.
  destruct s as [|c s]; [reflexivity|].
  intros Hc. destruct (rstrip_cases c s) as [-> | ->]; [reflexivity | exact Hc].
Qed.

Lemma rstrip_last s : last_space (rstrip s) = false.
Proof.
  induction s as [|c s IH]; [reflexivity|].
  simpl. destruct (rstrip s) as [|d r] eqn:Hr.
  - destruct (isspace c) eqn:Hc; [reflexivity | simpl; exact Hc].
  - exact IH.
Qed.

Lemma strip_trimmed s : trimmed (strip s) = true.
Proof.
  unfold trimmed, strip.
  now rewrite (rstrip_keeps_head _ (lstrip_head s)), rstrip_last.
Qed.

(** ** Single blanks *)

Lemma blanks_single_weaken b s :
  blanks_single b s = true -> blanks_single false s = true.
Proof.
  destruct s as [|c s]; [reflexivity|].
  simpl. destruct (is_blank c); [|auto].
  destruct b; [discriminate | auto].
Qed.

Lemma sub_blanks_from_single b s :
  blanks_single b (sub_blanks_from b s) = true.
Proof.
  revert b. induction s as [|c s IH]; intros b; [reflexivity|].
  simpl. destruct (is_blank c) eqn:Hc.
  - destruct b; [apply IH|].
    change (blanks_single false (String " " (sub_blanks_from true s)))
      with (blanks_single true (sub_blanks_from true s)).
    apply IH.
  - simpl. rewrite Hc. apply IH.
Qed.

Lemma blanks_single_newlines k b t :
  blanks_single b (newlines (S k) +:+ t) = blanks_single false t.
Proof.
  revert b. induction k as [|k IH]; intros b; [reflexivity|].
  change (newlines (S (S k)) +:+ t)
    with (String (ascii_of_N 10) (newlines (S k) +:+ t)).
  change (blanks_single b (String (ascii_of_N 10) (newlines (S k) +:+ t)))
    with (blanks_single false (newlines (S k) +:+ t)).
  apply IH.
Qed.

Lemma blanks_single_only_newlines k b :
  blanks_single b (newlines k) = true.
Proof.
  revert b. induction k as [|k IH]; intros b; [reflexivity | apply IH].
Qed.

Lemma newline_run_succ n : exists k, newline_run (S n) = newlines (S k).
Proof.
  unfold newline_run. destruct (3 <=? S n)%nat; [now exists 1%nat | now exists n].
Qed.

Lemma sub_newlines_from_single s :
  (forall n b, blanks_single false s = true ->
               blanks_single b (sub_newlines_from (S n) s) = true)
  /\ (forall b, blanks_single b s = true ->
                blanks_single b (sub_newlines_from 0 s) = true).
Proof.
  induction s as [|c s [IH1 IH0]].
  - split; [|reflexivity].
    intros n b _. cbn [sub_newlines_from].
    destruct (newline_run_succ n) as [k ->].
    apply blanks_single_only_newlines.
  - split.
    + intros n b H. simpl. destruct (is_newline c) eqn:Hnl.
      * apply IH1. simpl in H. now rewrite (newline_not_blank _ Hnl) in H.
      * destruct (newline_run_succ n) as [k ->].
        rewrite blanks_single_newlines. simpl in H |- *.
        destruct (is_blank c); [|auto].
        apply andb_prop in H as [H1 H2]. rewrite H1. simpl. auto.
    + intros b H. simpl. destruct (is_newline c) eqn:Hnl.
      * apply IH1. simpl in H. now rewrite (newline_not_blank _ Hnl) in H.
      * unfold newline_run. simpl newlines. rewrite append_nil.
        simpl in H |- *. destruct (is_blank c); [|auto].
        apply andb_prop in H as [H1 H2]. rewrite H1. simpl. auto.
Qed.

Lemma lstrip_single b s :
  blanks_single b s = true -> blanks_single false (lstrip s) = true.
Proof.
  revert b. induction s as [|c s IH]; intros b H; [reflexivity|].
  simpl. destruct (isspace c).
  - simpl in H. destruct (is_blank c); [|eauto].
    apply andb_prop in H as [_ H]. eauto.
  - eapply blanks_single_weaken, H.
Qed.

Lemma rstrip_single s : forall b,
  blanks_single b s = true -> blanks_single b (rstrip s) = true.
Proof.
  induction s as [|c s IH]; intros b H; [reflexivity|].
  destruct (rstrip_cases c s) as [-> | ->]; [reflexivity|].
  simpl in H |- *. destruct (is_blank c); [|auto].
  apply andb_prop in H as [H1 H2]. rewrite H1. simpl. auto.
Qed.

(** ** Short runs of newlines *)

Lemma newlines_short_weaken s : forall n n',
  (n' <= n)%nat -> newlines_short n s = true -> newlines_short n' s = true.
Proof.
  induction s as [|c s IH]; intros n n' Hle H; [reflexivity|].
  simpl in H |- *. destruct (is_newline c); [|exact H].
  apply andb_prop in H as [H1 H2].
  apply Nat.ltb_lt in H1.
  replace (n' <? 2)%nat with true by (symmetry; apply Nat.ltb_lt; lia).
  apply (IH (S n) (S n')); [lia | exact H2].
Qed.

Lemma newlines_short_run n c t :
  is_newline c = false ->
  newlines_short 0 (newline_run n +:+ String c t) = newlines_short 0 t.
Proof.
  intros Hc. unfold newline_run.
  destruct n as [|[|[|n]]]; cbn [Nat.leb newlines];
    rewrite ?append_cons, append_nil;
    cbn [newlines_short]; now rewrite Hc.
Qed.

Lemma sub_newlines_from_short s : forall n,
  newlines_short 0 (sub_newlines_from n s) = true.
Proof.
  induction s as [|c s IH]; intros n.
  - cbn [sub_newlines_from]. unfold newline_run.
    now destruct n as [|[|[|n]]].
  - cbn [sub_newlines_from]. destruct (is_newline c) eqn:Hc; [apply IH|].
    rewrite (newlines_short_run _ _ _ Hc). apply IH.
Qed.

Lemma lstrip_short s : forall n,
  newlines_short n s = true -> newlines_short 0 (lstrip s) = true.
Proof.
  induction s as [|c s IH]; intros n H; [reflexivity|].
  simpl. destruct (isspace c).
  - simpl in H. destruct (is_newline c); [|eauto].
    apply andb_prop in H as [_ H]. eauto.
  - apply (newlines_short_weaken _ n 0%nat); [lia | exact H].
Qed.

Lemma rstrip_short s : forall n,
  newlines_short n s = true -> newlines_short n (rstrip s) = true.
Proof.
  induction s as [|c s IH]; intros n H; [reflexivity|].
  destruct (rstrip_cases c s) as [-> | ->]; [reflexivity|].
  simpl in H |- *. destruct (is_newline c); [|auto].
  apply andb_prop in H as [H1 H2]. rewrite H1. simpl. auto.
Qed.

(** X1: whatever the raw text, the text either sanitizer returns has no
    white space at its ends, holds no tab and no two blanks in a row, and
    holds no three newlines in a row. *)
Theorem strip_html_shape raw :
  let shaped t :=
    trimmed t = true /\ blanks_single false t = true
    /\ newlines_short 0 t = true in
  shaped (OpenAINews._strip_html raw) /\ shaped (SmolAI._strip_html raw).
Proof.
  assert (H : forall text,
             trimmed (strip (sub_newlines (sub_blanks text))) = true
             /\ blanks_single false (strip (sub_newlines (sub_blanks text))) = true
             /\ newlines_short 0 (strip (sub_newlines (sub_blanks text))) = true).
  { intros text. split; [apply strip_trimmed|]. split.
    - unfold strip. apply rstrip_single, (lstrip_single false).
      apply (proj2 (sub_newlines_from_single _)), sub_blanks_from_single.
    - unfold strip. apply rstrip_short, (lstrip_short _ 0%nat).
      apply sub_newlines_from_short. }
  split; apply H.
Qed.

(** Newlines that blanks keep apart are not a run: the blank lines
    between them stay. *)
Example blank_lines_between_blanks :
  OpenAINews._strip_html ("a" +:+ nl +:+ " " +:+ nl +:+ " " +:+ nl +:+ "b")
  = "a" +:+ nl +:+ " " +:+ nl +:+ " " +:+ nl +:+ "b".
Proof. vm_compute. reflexivity. Qed.

End SanitizerShape.

(* ===================================================================== *)
(** * The news fetcher: dates, window and requests *)
(* ===================================================================== *)

Module NewsWindow.
Import Py Text Spec Examples OpenAINews.

(** The two copies of the date routine are the same function. *)
Lemma parse_pubdate_copies item :
  SmolAI._parse_pubdate item = _parse_pubdate item.
Proof. reflexivity. Qed.

(** X2: the date routine of both fetchers makes no request and gives the
    date in this order.  A structured date wins: the routine returns it
    when the [datetime] constructor accepts it, and raises the
    [ValueError] of the constructor when it does not.  Without a
    structured date the routine does not raise: the raw date string is
    parsed, and an empty, missing or unparseable string gives the
    clock. *)
Theorem parse_pubdate_order item w :
  SmolAI._parse_pubdate item w = _parse_pubdate item w
  /\ _parse_pubdate item w = ([], news_date w item).
Proof. split; [reflexivity | apply NewsFacts.parse_pubdate_run]. Qed.

(** The three cases of the date, on items of the examples. *)
Example parse_pubdate_cases :
  run (_parse_pubdate (dated 300 "a")) offline = Returns 300
  /\ run (_parse_pubdate (undatable "c")) offline
     = Raises (Exn ValueError "year -1 is out of range")
  /\ run (_parse_pubdate (undated "yesterday")) offline = Returns 1000.
Proof. repeat split. Qed.

Lemma parse_pubdate_trace item w : trace (_parse_pubdate item) w = [].
Proof. unfold trace. now rewrite NewsFacts.parse_pubdate_run. Qed.

Lemma news_dated_run w dated :
  Forall (fun p => news_date w p.1 = Returns p.2) dated ->
  Forall (fun p => run (_parse_pubdate p.1) w = Returns p.2) dated.
Proof.
  intros H. eapply Forall_impl; [exact H|].
  intros p Hp. now rewrite NewsFacts.news_date_run.
Qed.

(** The fetcher is the early stop on the dated items of the feed. *)
Lemma fetch_openai_news_kept since w dated :
  map fst dated = feed_items w _FEED_URL ->
  Forall (fun p => run (_parse_pubdate p.1) w = Returns p.2) dated ->
  run (fetch_openai_news since) w = Returns (news_kept since dated).
Proof.
  intros Hitems Hdated.
  rewrite NewsFacts.fetch_openai_news_run. unfold feed_items in Hitems.
  destruct (feedparser_parse w _FEED_URL) as [f|e].
  - destruct (entries f) as [|item rest] eqn:He.
    + now destruct dated.
    + rewrite <- Hitems. now rewrite NewsFacts.news_scan_run.
  - now destruct dated.
Qed.

(** When the loop returns, it returns the early stop on dated items. *)
Lemma news_scan_returns since items w :
  forall acc l,
    run (scan since items acc) w = Returns l ->
    exists dated, l = acc ++ news_kept since dated.
Proof.
  induction items as [|item rest IH]; intros acc l.
  - intros [= <-]. exists []. simpl. now rewrite app_nil_r.
  - destruct (run (_parse_pubdate item) w) as [t|e] eqn:Ht.
    + rewrite (NewsFacts.news_scan_cons _ _ _ _ _ _ Ht).
      change (at_or_before since t) with (past since t).
      destruct (past since t) eqn:Hpast.
      * intros [= <-]. exists [(item, t)]. simpl.
        now rewrite Hpast, app_nil_r.
      * intros Hl. destruct (IH _ _ Hl) as [dated ->].
        exists ((item, t) :: dated). simpl.
        rewrite Hpast, <- app_assoc, NewsFacts.make_entry_news_entry.
        reflexivity.
    + rewrite (NewsFacts.news_scan_raises _ _ _ _ _ _ Ht). discriminate.
Qed.

(** Without a cutoff the loop returns only when it has dated every
    item. *)
Lemma news_scan_all_dated items w :
  forall acc l,
    run (scan None items acc) w = Returns l ->
    exists dated,
      map fst dated = items
      /\ Forall (fun p => run (_parse_pubdate p.1) w = Returns p.2) dated.
Proof.
  induction items as [|item rest IH]; intros acc l.
  - exists []. split; [reflexivity | constructor].
  - destruct (run (_parse_pubdate item) w) as [t|e] eqn:Ht.
    + rewrite (NewsFacts.news_scan_cons _ _ _ _ _ _ Ht). simpl.
      intros Hl. destruct (IH _ _ Hl) as (dated & <- & Hdated).
      exists ((item, t) :: dated). split; [reflexivity|].
      now constructor.
    + rewrite (NewsFacts.news_scan_raises _ _ _ _ _ _ Ht). discriminate.
Qed.

(** When the fetcher returns, it returns the early stop on dated items. *)
Lemma fetch_openai_news_returns since w l :
  run (fetch_openai_news since) w = Returns l ->
  exists dated, l = news_kept since dated.
Proof.
  rewrite NewsFacts.fetch_openai_news_run.
  destruct (feedparser_parse w _FEED_URL) as [f|e];
    [|intros [= <-]; now exists []].
  destruct (entries f) as [|item rest]; [intros [= <-]; now exists []|].
  intros Hl. apply news_scan_returns in Hl as [dated ->]. now exists dated.
Qed.

(** When the fetcher returns without a cutoff, every item of the feed has
    a date, and these dates give the result under every cutoff. *)
Lemma fetch_openai_news_dated w l :
  run (fetch_openai_news None) w = Returns l ->
  exists dated,
    forall since,
      run (fetch_openai_news since) w = Returns (news_kept since dated).
Proof.
  intros Hl.
  assert (Hdated : exists dated,
             map fst dated = feed_items w _FEED_URL
             /\ Forall (fun p => run (_parse_pubdate p.1) w = Returns p.2)
                       dated).
  { rewrite NewsFacts.fetch_openai_news_run in Hl. unfold feed_items.
    destruct (feedparser_parse w _FEED_URL) as [f|e];
      [|exists []; split; [reflexivity | constructor]].
    destruct (entries f) as [|item rest];
      [exists []; split; [reflexivity | constructor]|].
    now apply news_scan_all_dated in Hl. }
  destruct Hdated as (dated & Hitems & Hdated).
  exists dated. intros since. now apply fetch_openai_news_kept.
Qed.

Lemma news_kept_all dated :
  news_kept None dated = map (fun p => news_entry p.1 p.2) dated.
Proof.
  induction dated as [|[item t] rest IH]; [reflexivity|].
  simpl. now rewrite IH.
Qed.

(** X3: without a cutoff the news fetcher returns one entry for every
    item of a feed whose items all have a date, in feed order: the entry
    of each item, with the date of the item. *)
Theorem fetch_openai_news_all w f dated :
  feedparser_parse w _FEED_URL = Returns f ->
  map fst dated = entries f ->
  Forall (fun p => news_date w p.1 = Returns p.2) dated ->
  run (fetch_openai_news None) w
  = Returns (map (fun p => news_entry p.1 p.2) dated).
Proof.
  intros Hf Hitems Hdated. rewrite <- news_kept_all.
  apply fetch_openai_news_kept; [|now apply news_dated_run].
  unfold feed_items. now rewrite Hf.
Qed.

Lemma fetch_openai_news_all_witness :
  run (fetch_openai_news None)
      (serving [dated 200 "b"; dated 300 "a"; dated 100 "c"])
  = Returns [news_entry (dated 200 "b") 200; news_entry (dated 300 "a") 300;
             news_entry (dated 100 "c") 100].
Proof.
  apply (fetch_openai_news_all
           (serving [dated 200 "b"; dated 300 "a"; dated 100 "c"])
           {| bozo := false; bozo_exception := None;
              entries := [dated 200 "b"; dated 300 "a"; dated 100 "c"] |}
           [(dated 200 "b", 200); (dated 300 "a", 300);
            (dated 100 "c", 100)]);
    [reflexivity | reflexivity | repeat constructor].
Defined.

Lemma news_kept_newer since dated :
  Forall (fun e => since < published_at e /\ post_id e = url e)
         (news_kept (Some since) dated).
Proof.
  induction dated as [|[item t] rest IH]; [constructor|].
  simpl. destruct (Z.leb_spec t since); constructor; [|exact IH].
  split; [simpl; lia | reflexivity].
Qed.

(** X4: every entry the news fetcher returns under a cutoff is published
    after the cutoff, and has its URL as identifier. *)
Theorem fetch_openai_news_newer w since l :
  run (fetch_openai_news (Some since)) w = Returns l ->
  Forall (fun e => since < published_at e /\ post_id e = url e) l.
Proof.
  intros [dated ->]%fetch_openai_news_returns. apply news_kept_newer.
Qed.

Lemma fetch_openai_news_newer_witness :
  Forall (fun e => 150 < published_at e /\ post_id e = url e)
         [make_entry (dated 300 "a") 300; make_entry (dated 200 "b") 200].
Proof.
  apply (fetch_openai_news_newer
           (serving [dated 300 "a"; dated 200 "b"; dated 100 "c"]) 150).
  reflexivity.
Defined.

(** A tighter cutoff keeps a prefix of what a looser one keeps. *)
Lemma news_kept_prefix since since' dated :
  (forall t, past since t = true -> past since' t = true) ->
  news_kept since' dated `prefix_of` news_kept since dated.
Proof.
  intros Hmono. induction dated as [|[item t] rest IH]; [reflexivity|].
  simpl. destruct (past since t) eqn:Ht.
  - now rewrite (Hmono _ Ht).
  - destruct (past since' t); [apply prefix_nil|].
    now apply prefix_cons.
Qed.

(** X5: the result of the news fetcher shrinks from its end as the cutoff
    moves forward: the entries kept under a later cutoff are a prefix of
    those kept under an earlier one, which are a prefix of the entries
    returned without a cutoff. *)
Theorem fetch_openai_news_window w since since' l_all l l' :
  since <= since' ->
  run (fetch_openai_news None) w = Returns l_all ->
  run (fetch_openai_news (Some since)) w = Returns l ->
  run (fetch_openai_news (Some since')) w = Returns l' ->
  l' `prefix_of` l /\ l `prefix_of` l_all.
Proof.
  intros Hle Hall. destruct (fetch_openai_news_dated _ _ Hall) as [dated Hd].
  rewrite Hd in Hall. rewrite !Hd.
  injection Hall as <-. intros [= <-] [= <-]. split; apply news_kept_prefix.
  - intros t. simpl. intros Ht%Z.leb_le. apply Z.leb_le. lia.
  - discriminate.
Qed.

Lemma fetch_openai_news_window_witness :
  [make_entry (dated 300 "a") 300]
    `prefix_of` [make_entry (dated 300 "a") 300; make_entry (dated 200 "b") 200]
  /\ [make_entry (dated 300 "a") 300; make_entry (dated 200 "b") 200]
       `prefix_of` [make_entry (dated 300 "a") 300;
                    make_entry (dated 200 "b") 200;
                    make_entry (dated 100 "c") 100].
Proof.
  apply (fetch_openai_news_window
           (serving [dated 300 "a"; dated 200 "b"; dated 100 "c"]) 150 250);
    [lia | reflexivity | reflexivity | reflexivity].
Defined.

(** On dates in newest-first order nothing kept by the filter comes after
    an item at or before the cutoff. *)
Lemma news_kept_sorted since dated :
  newest_first (map snd dated) ->
  news_kept since dated = news_newer since dated.
Proof.
  unfold news_newer.
  induction dated as [|[item t] rest IH]; [reflexivity|].
  simpl. intros [Hle Hrest].
  destruct (past since t) eqn:Ht; simpl; [|now rewrite IH].
  clear IH Hrest. induction rest as [|[item' t'] rest IH]; [reflexivity|].
  simpl in Hle |- *. inversion Hle as [|? ? Hle' Hall]; subst.
  replace (past since t') with true; [simpl; now apply IH|].
  symmetry. destruct since as [s|]; [|discriminate].
  simpl in Ht |- *. apply Z.leb_le. apply Z.leb_le in Ht. lia.
Qed.

(** X6: on a feed whose items all have a date, with the dates in
    newest-first order, the early stop loses nothing: the news fetcher
    returns the entries of exactly the items newer than the cutoff, in
    feed order. *)
Theorem fetch_openai_news_complete w since dated :
  map fst dated = feed_items w _FEED_URL ->
  Forall (fun p => news_date w p.1 = Returns p.2) dated ->
  newest_first (map snd dated) ->
  run (fetch_openai_news since) w = Returns (news_newer since dated).
Proof.
  intros Hitems Hdated Hsorted. rewrite <- news_kept_sorted by assumption.
  apply fetch_openai_news_kept; [assumption | now apply news_dated_run].
Qed.

Lemma fetch_openai_news_complete_witness :
  run (fetch_openai_news (Some 150))
      (serving [dated 300 "a"; dated 200 "b"; dated 200 "c"; dated 100 "d"])
  = Returns [news_entry (dated 300 "a") 300; news_entry (dated 200 "b") 200;
             news_entry (dated 200 "c") 200].
Proof.
  apply (fetch_openai_news_complete
           (serving [dated 300 "a"; dated 200 "b"; dated 200 "c";
                     dated 100 "d"]) (Some 150)
           [(dated 300 "a", 300); (dated 200 "b", 200);
            (dated 200 "c", 200); (dated 100 "d", 100)]).
  - reflexivity.
  - repeat constructor.
  - simpl. repeat split; repeat constructor; lia.
Defined.

(** The early stop matters on a feed that is not in newest-first order:
    an item newer than the cutoff after one that is not is lost. *)
Example fetch_openai_news_unordered :
  run (fetch_openai_news (Some 150))
      (serving [dated 100 "d"; dated 300 "a"])
  = Returns []
  /\ news_newer (Some 150) [(dated 100 "d", 100); (dated 300 "a", 300)]
     = [news_entry (dated 300 "a") 300].
Proof. split; reflexivity. Qed.

Lemma news_scan_trace since items w : forall acc,
  trace (scan since items acc) w = [].
Proof.
  induction items as [|item rest IH]; intros acc; [reflexivity|].
  simpl scan. rewrite trace_bind, parse_pubdate_trace.
  destruct (run (_parse_pubdate item) w) as [t|e]; [|reflexivity].
  destruct (at_or_before since t); [reflexivity | apply IH].
Qed.

Lemma fetch_openai_news_trace since w :
  trace (fetch_openai_news since) w = [FeedRequest _FEED_URL].
Proof.
  unfold trace, fetch_openai_news, mbind, io_bind, try_except, fmap,
    io_fmap, feedparser_parse_call.
  destruct (feedparser_parse w _FEED_URL) as [f|e]; simpl; [|reflexivity].
  destruct (entries f) as [|item rest]; [reflexivity|].
  pose proof (news_scan_trace since (item :: rest) w []) as Hscan.
  unfold trace in Hscan. now rewrite Hscan.
Qed.

Lemma fetch_latest_trace w :
  trace SmolAI.fetch_latest_smol_ai_issue w = [FeedRequest SmolAI._FEED_URL].
Proof.
  unfold trace, SmolAI.fetch_latest_smol_ai_issue, mbind, io_bind,
    try_except, fmap, io_fmap, feedparser_parse_call.
  destruct (feedparser_parse w SmolAI._FEED_URL) as [f|e]; simpl;
    [|reflexivity].
  destruct (entries f) as [|item rest]; [reflexivity|].
  destruct (DigestFacts.digest_pubdate_outcome item w) as [r [Hr _]].
  rewrite Hr. now destruct r.
Qed.

(** X7: each call of the news fetcher and of the newsletter fetcher makes
    one request, for its own feed URL, whatever the feed holds and
    whether or not parsing raises; neither fetches a page or a
    transcript. *)
Theorem rss_fetchers_one_request w since :
  trace (fetch_openai_news since) w = [FeedRequest _FEED_URL]
  /\ trace SmolAI.fetch_latest_smol_ai_issue w
     = [FeedRequest SmolAI._FEED_URL].
Proof.
  split; [apply fetch_openai_news_trace | apply fetch_latest_trace].
Qed.

End NewsWindow.

(* ===================================================================== *)
(** * The newsletter fetcher: the first item only *)
(* ===================================================================== *)

Module DigestFirst.
Import Py Text Spec Examples.

(** X8: the newsletter fetcher reads the first item of the feed and no
    other.  For a feed with at least one item it returns exactly one
    entry, built from the first item with the date of that item; no
    cutoff applies, and the items after the first do not matter. *)
Theorem fetch_latest_first_item w f item rest t :
  feedparser_parse w SmolAI._FEED_URL = Returns f ->
  entries f = item :: rest ->
  run (SmolAI._parse_pubdate item) w = Returns t ->
  run SmolAI.fetch_latest_smol_ai_issue w = Returns [digest_entry item t].
Proof.
  intros Hf He Ht. now rewrite DigestFacts.fetch_latest_run, Hf, He, Ht.
Qed.

Lemma fetch_latest_first_item_witness :
  run SmolAI.fetch_latest_smol_ai_issue
      (serving [dated 100 "old"; dated 300 "new"])
  = Returns [digest_entry (dated 100 "old") 100].
Proof.
  exact (fetch_latest_first_item
           (serving [dated 100 "old"; dated 300 "new"])
           {| bozo := false; bozo_exception := None;
              entries := [dated 100 "old"; dated 300 "new"] |}
           (dated 100 "old") [dated 300 "new"] 100 eq_refl eq_refl eq_refl).
Defined.

End DigestFirst.

(* ===================================================================== *)
(** * The video fetcher: cap, window and requests *)
(* ===================================================================== *)

Module VideoWindow.
Import Py Text Spec Examples YouTube.

Lemma item_date_trace item w : trace (item_date item) w = [].
Proof. unfold trace. now rewrite VideoFacts.item_date_run. Qed.

Lemma video_dated_run w dated :
  Forall (fun p => video_date w p.1 = Returns p.2) dated ->
  Forall (fun p => run (item_date p.1) w = Returns p.2) dated.
Proof.
  intros H. eapply Forall_impl; [exact H|].
  intros p Hp. now rewrite VideoFacts.video_date_run.
Qed.

(** The loop returns only when it has dated every item. *)
Lemma video_scan_all_dated since items w :
  forall acc l,
    run (scan since items acc) w = Returns l ->
    exists dated,
      map fst dated = items
      /\ Forall (fun p => run (item_date p.1) w = Returns p.2) dated.
Proof.
  induction items as [|item rest IH]; intros acc l.
  - exists []. split; [reflexivity | constructor].
  - destruct (run (item_date item) w) as [t|e] eqn:Ht.
    + rewrite (VideoFacts.video_scan_cons _ _ _ _ _ _ Ht).
      intros Hl.
      assert (Hrest : exists dated,
                 map fst dated = rest
                 /\ Forall (fun p => run (item_date p.1) w = Returns p.2)
                           dated)
        by (destruct (at_or_before since t); eapply IH, Hl).
      destruct Hrest as (dated & <- & Hdated).
      exists ((item, t) :: dated). split; [reflexivity|].
      now constructor.
    + rewrite (VideoFacts.video_scan_raises _ _ _ _ _ _ Ht). discriminate.
Qed.

(** The fetcher is the filter on the dated items of the capped feed. *)
Lemma fetch_videos_dated channel_id since max_results w f dated :
  feedparser_parse w (_RSS_URL channel_id) = Returns f ->
  bozo f && bool_decide (entries f = []) = false ->
  map fst dated = slice_to max_results (entries f) ->
  Forall (fun p => run (item_date p.1) w = Returns p.2) dated ->
  run (fetch_videos channel_id since max_results) w
  = Returns (videos_kept since dated).
Proof.
  intros Hf Hb Hitems Hdated.
  rewrite VideoFacts.fetch_videos_run, Hf, Hb, <- Hitems.
  now rewrite VideoFacts.video_scan_run.
Qed.

(** When the fetcher returns, every item of the capped feed has a date,
    and these dates give the result under every cutoff. *)
Lemma fetch_videos_kept channel_id since max_results w l :
  run (fetch_videos channel_id since max_results) w = Returns l ->
  exists dated,
    map fst dated
    = slice_to max_results (feed_items w (_RSS_URL channel_id))
    /\ forall since',
         run (fetch_videos channel_id since' max_results) w
         = Returns (videos_kept since' dated).
Proof.
  rewrite VideoFacts.fetch_videos_run. unfold feed_items.
  destruct (feedparser_parse w (_RSS_URL channel_id)) as [f|e] eqn:Hf;
    [|discriminate].
  destruct (bozo f && bool_decide (entries f = [])) eqn:Hb; [discriminate|].
  intros Hl. apply video_scan_all_dated in Hl as (dated & Hitems & Hdated).
  exists dated. split; [exact Hitems|].
  intros since'. now apply fetch_videos_dated with (f := f).
Qed.

Lemma videos_kept_length since dated :
  (length (videos_kept since dated) <= length dated)%nat.
Proof.
  induction dated as [|[item t] rest IH]; [reflexivity|].
  simpl. destruct (past since t); simpl; lia.
Qed.

(** X9: the cap bounds the result of the video fetcher.  With a cap that
    is not negative no more than [max_results] videos are returned; a
    negative cap is not refused: it leaves that many items off the end of
    the feed, which bounds the result by the length of the feed plus the
    cap. *)
Theorem fetch_videos_cap w channel_id since max_results l :
  run (fetch_videos channel_id since max_results) w = Returns l ->
  (0 <= max_results -> Z.of_nat (length l) <= max_results)
  /\ (max_results < 0 ->
      Z.of_nat (length l)
      <= Z.max 0 (Z.of_nat (length (feed_items w (_RSS_URL channel_id)))
                  + max_results)).
Proof.
  intros Hl. destruct (fetch_videos_kept _ _ _ _ _ Hl) as (dated & Hitems & Hd).
  rewrite Hd in Hl. injection Hl as <-.
  pose proof (videos_kept_length since dated) as Hlen.
  rewrite <- (length_map fst), Hitems in Hlen. unfold slice_to in *.
  destruct (0 <=? max_results) eqn:Hb;
    [apply Z.leb_le in Hb | apply Z.leb_gt in Hb];
    rewrite length_firstn in Hlen; split; intros Hm; lia.
Qed.

Lemma fetch_videos_cap_witness :
  (Z.of_nat (length [make_entry (dated 300 "a") 300;
                     make_entry (dated 200 "b") 200]) <= 2)
  /\ (Z.of_nat (length [make_entry (dated 300 "a") 300;
                        make_entry (dated 200 "b") 200])
      <= Z.max 0 (3 + -1)).
Proof.
  split.
  - apply (proj1 (fetch_videos_cap
                    (serving [dated 300 "a"; dated 200 "b"; dated 100 "c"])
                    "UCabcdefghijklmnopqrstuv" None 2 _ eq_refl)).
    lia.
  - apply (proj2 (fetch_videos_cap
                    (serving [dated 300 "a"; dated 200 "b"; dated 100 "c"])
                    "UCabcdefghijklmnopqrstuv" None (-1) _ eq_refl)).
    lia.
Defined.

Lemma video_entry_description_not_empty item t :
  description (video_entry item t) <> Some EmptyString.
Proof.
  rewrite <- VideoFacts.make_entry_video_entry.
  apply ContentFacts.video_description_not_empty.
Qed.

Lemma videos_kept_newer since dated :
  Forall (fun v => since < published_at v /\ transcript v = None
                   /\ description v <> Some EmptyString)
         (videos_kept (Some since) dated).
Proof.
  induction dated as [|[item t] rest IH]; [constructor|].
  simpl. destruct (Z.leb_spec t since); [exact IH|].
  constructor; [|exact IH].
  split; [simpl; lia|]. split; [reflexivity|].
  apply video_entry_description_not_empty.
Qed.

(** X10: every video the video fetcher returns under a cutoff is
    published after the cutoff, carries no transcript yet, and has a
    description that is not the empty string. *)
Theorem fetch_videos_newer w channel_id since max_results l :
  run (fetch_videos channel_id (Some since) max_results) w = Returns l ->
  Forall (fun v => since < published_at v /\ transcript v = None
                   /\ description v <> Some EmptyString) l.
Proof.
  intros Hl. destruct (fetch_videos_kept _ _ _ _ _ Hl) as (dated & _ & Hd).
  rewrite Hd in Hl. injection Hl as <-. apply videos_kept_newer.
Qed.

Lemma fetch_videos_newer_witness :
  Forall (fun v => 150 < published_at v /\ transcript v = None
                   /\ description v <> Some EmptyString)
         [make_entry (dated 200 "b") 200; make_entry (dated 300 "a") 300].
Proof.
  apply (fetch_videos_newer
           (serving [dated 200 "b"; dated 100 "c"; dated 300 "a"])
           "UCabcdefghijklmnopqrstuv" 150 50).
  reflexivity.
Defined.

(** A tighter cutoff keeps a sublist of what a looser one keeps. *)
Lemma videos_kept_sublist since since' dated :
  (forall t, past since t = true -> past since' t = true) ->
  videos_kept since' dated `sublist_of` videos_kept since dated.
Proof.
  intros Hmono. induction dated as [|[item t] rest IH]; [constructor|].
  simpl. destruct (past since t) eqn:Ht.
  - now rewrite (Hmono _ Ht).
  - destruct (past since' t).
    + now apply sublist_cons.
    + now apply sublist_skip.
Qed.

(** X11: under one cap, the videos kept under a later cutoff are, in the
    same order, among those kept under an earlier one, which are among the
    videos returned without a cutoff. *)
Theorem fetch_videos_window w channel_id max_results since since' l_all l l' :
  since <= since' ->
  run (fetch_videos channel_id None max_results) w = Returns l_all ->
  run (fetch_videos channel_id (Some since) max_results) w = Returns l ->
  run (fetch_videos channel_id (Some since') max_results) w = Returns l' ->
  l' `sublist_of` l /\ l `sublist_of` l_all.
Proof.
  intros Hle Hall.
  destruct (fetch_videos_kept _ _ _ _ _ Hall) as (dated & _ & Hd).
  rewrite Hd in Hall. rewrite !Hd.
  injection Hall as <-. intros [= <-] [= <-].
  split; apply videos_kept_sublist.
  - intros t. simpl. intros Ht%Z.leb_le. apply Z.leb_le. lia.
  - discriminate.
Qed.

Lemma fetch_videos_window_witness :
  [make_entry (dated 300 "a") 300]
    `sublist_of` [make_entry (dated 200 "b") 200; make_entry (dated 300 "a") 300]
  /\ [make_entry (dated 200 "b") 200; make_entry (dated 300 "a") 300]
       `sublist_of` [make_entry (dated 200 "b") 200;
                     make_entry (dated 100 "c") 100;
                     make_entry (dated 300 "a") 300].
Proof.
  apply (fetch_videos_window
           (serving [dated 200 "b"; dated 100 "c"; dated 300 "a"])
           "UCabcdefghijklmnopqrstuv" 50 150 250);
    [lia | reflexivity | reflexivity | reflexivity].
Defined.

Lemma videos_kept_all dated :
  videos_kept None dated = map (fun p => video_entry p.1 p.2) dated.
Proof.
  induction dated as [|[item t] rest IH]; [reflexivity|].
  simpl. now rewrite IH.
Qed.

(** X12: without a cutoff, and with a cap that is not below the length of
    the feed, the video fetcher returns one video for every item of a
    feed that is not empty and whose items all have a date, in feed
    order: the video of each item, with the date of the item. *)
Theorem fetch_videos_all w channel_id max_results f dated :
  feedparser_parse w (_RSS_URL channel_id) = Returns f ->
  entries f <> [] ->
  Z.of_nat (length (entries f)) <= max_results ->
  map fst dated = entries f ->
  Forall (fun p => video_date w p.1 = Returns p.2) dated ->
  run (fetch_videos channel_id None max_results) w
  = Returns (map (fun p => video_entry p.1 p.2) dated).
Proof.
  intros Hf Hne Hcap Hitems Hdated. rewrite <- videos_kept_all.
  apply fetch_videos_dated with (f := f); [assumption| | |].
  - now rewrite (bool_decide_eq_false_2 _ Hne), andb_false_r.
  - unfold slice_to. destruct (Z.leb_spec 0 max_results); [|lia].
    rewrite firstn_all2 by lia. exact Hitems.
  - now apply video_dated_run.
Qed.

Lemma fetch_videos_all_witness :
  run (fetch_videos "UCabcdefghijklmnopqrstuv" None 50)
      (serving [dated 200 "b"; dated 300 "a"])
  = Returns [video_entry (dated 200 "b") 200; video_entry (dated 300 "a") 300].
Proof.
  apply (fetch_videos_all
           (serving [dated 200 "b"; dated 300 "a"])
           "UCabcdefghijklmnopqrstuv" 50
           {| bozo := false; bozo_exception := None;
              entries := [dated 200 "b"; dated 300 "a"] |}
           [(dated 200 "b", 200); (dated 300 "a", 300)] eq_refl);
    [discriminate | simpl; lia | reflexivity | repeat constructor].
Defined.

Lemma video_scan_trace since items w : forall acc,
  trace (scan since items acc) w = [].
Proof.
  induction items as [|item rest IH]; intros acc; [reflexivity|].
  simpl scan. rewrite trace_bind, item_date_trace.
  destruct (run (item_date item) w) as [t|e]; [|reflexivity].
  destruct (at_or_before since t); apply IH.
Qed.

(** The video fetcher makes one request, for the feed of the channel,
    whether it returns or raises. *)
Lemma fetch_videos_trace channel_id since max_results w :
  trace (fetch_videos channel_id since max_results) w
  = [FeedRequest (_RSS_URL channel_id)].
Proof.
  unfold trace, fetch_videos, mbind, io_bind, try_except,
    feedparser_parse_call, raise.
  destruct (feedparser_parse w (_RSS_URL channel_id)) as [f|e]; simpl;
    [|reflexivity].
  destruct (bozo f && bool_decide (entries f = [])); [reflexivity|].
  pose proof (video_scan_trace since
                (slice_to max_results (entries f)) w []) as Hscan.
  unfold trace in Hscan. now rewrite Hscan.
Qed.

End VideoWindow.

(* ===================================================================== *)
(** * Channel resolution: results, white space, names and errors *)
(* ===================================================================== *)

Module ResolverExtra.
Import Py Text Spec Examples YouTube.

(** What scraping a page comes to, by the outcome of the request. *)
Lemma scrape_channel_id_run page_url w :
  run (_scrape_channel_id page_url) w =
  match httpx_get w page_url with
  | Raises exc =>
      match exn_cls exc with
      | HTTPStatusError code =>
          Raises (Exn ValueError
                    ("Channel page returned HTTP " +:+ pretty code
                     +:+ ": " +:+ page_url))
      | RequestError =>
          Raises (Exn ValueError
                    ("Network error while fetching channel page '"
                     +:+ page_url +:+ "': " +:+ exn_str exc))
      | _ => Raises exc
      end
  | Returns r =>
      if (200 <=? status_code r) && (status_code r <? 300) then
        match search_channel_link (text r) with
        | Some m => Returns m
        | None =>
            Raises (Exn ValueError
                      ("Could not extract a channel ID from '" +:+ page_url
                       +:+ "'. Check that the handle or username is correct."))
        end
      else
        Raises (Exn ValueError
                  ("Channel page returned HTTP " +:+ pretty (status_code r)
                   +:+ ": " +:+ page_url))
  end.
Proof.
  unfold _scrape_channel_id, run, mbind, io_bind, try_except,
    httpx_get_call, raise_for_status.
  destruct (httpx_get w page_url) as [r|e]; simpl.
  - destruct ((200 <=? status_code r) && (status_code r <? 300)); simpl;
      [|reflexivity].
    now destruct (search_channel_link (text r)).
  - now destruct (exn_cls e).
Qed.

Lemma channel_link_at_canonical s m :
  channel_link_at s = Some m -> canonical_id m = true.
Proof.
  unfold channel_link_at.
  destruct (after_prefix "youtube.com/channel/UC" s) as [rest|];
    [|discriminate].
  destruct (take_id_chars 22 rest) as [[m' rest']|] eqn:Ht; [|discriminate].
  intros [= <-].
  destruct (ResolveFacts.take_id_chars_inv _ _ _ _ Ht) as (_ & Hlen & Hall).
  change (((String.length m' =? 22)%nat && all_chars is_id_char m') = true).
  now rewrite Hlen, Hall.
Qed.

Lemma search_channel_link_canonical s m :
  search_channel_link s = Some m -> canonical_id m = true.
Proof.
  induction s as [|c s IH]; cbn [search_channel_link].
  - discriminate.
  - destruct (channel_link_at (String c s)) eqn:Hat; [|exact IH].
    intros [= <-]. eapply channel_link_at_canonical, Hat.
Qed.

Lemma last_space_newline s : last_space (s +:+ nl) = true.
Proof.
  induction s as [|c s IH]; [reflexivity|].
  rewrite SanitizerShape.append_cons. simpl.
  destruct (s +:+ nl) eqn:Hs; [|exact IH].
  destruct s; discriminate.
Qed.

(** A stripped string that matches the pattern is a canonical ID: the
    newline the anchor would let through has been stripped. *)
Lemma stripped_match_canonical s :
  _CHANNEL_ID_RE_match (strip s) = true -> canonical_id (strip s) = true.
Proof.
  intros [Hc | (s' & Hs & _)]%ResolveFacts.channel_id_pattern; [exact Hc|].
  pose proof (SanitizerShape.rstrip_last (lstrip s)) as Hlast.
  fold (strip s) in Hlast. rewrite Hs, last_space_newline in Hlast.
  discriminate.
Qed.

(** X13: whatever [resolve_channel_id] returns is a canonical channel ID:
    the letters UC followed by 22 ID characters. *)
Theorem resolve_channel_id_canonical channel_input w r :
  run (resolve_channel_id channel_input) w = Returns r ->
  canonical_id r = true.
Proof.
  unfold resolve_channel_id.
  destruct (_CHANNEL_ID_RE_match (strip channel_input)) eqn:Hm.
  - intros [= <-]. now apply stripped_match_canonical.
  - rewrite scrape_channel_id_run.
    destruct (httpx_get w _) as [resp|e].
    + destruct ((200 <=? status_code resp) && (status_code resp <? 300));
        [|discriminate].
      destruct (search_channel_link (text resp)) as [m|] eqn:Hs;
        [|discriminate].
      intros [= <-]. eapply search_channel_link_canonical, Hs.
    + destruct (exn_cls e); discriminate.
Qed.

Lemma resolve_channel_id_canonical_witness :
  canonical_id "UCabcdefghijklmnopqrstuv" = true.
Proof.
  apply (resolve_channel_id_canonical "@SomeHandle" (answering channel_page)).
  reflexivity.
Defined.

(** ** White space around the input *)

Lemma lstrip_padding a t :
  all_chars isspace a = true -> lstrip (a +:+ t) = lstrip t.
Proof.
  induction a as [|c a IH]; [reflexivity|].
  intros H. simpl in H. apply andb_prop in H as [Hc Ha].
  rewrite SanitizerShape.append_cons. cbn [lstrip]. rewrite Hc. now apply IH.
Qed.

Lemma rstrip_all_space b : all_chars isspace b = true -> rstrip b = EmptyString.
Proof.
  induction b as [|c b IH]; [reflexivity|].
  simpl. intros [Hc Hb]%andb_prop. now rewrite (IH Hb), Hc.
Qed.

Lemma rstrip_padding s b :
  all_chars isspace b = true -> rstrip (s +:+ b) = rstrip s.
Proof.
  intros Hb. induction s as [|c s IH].
  - rewrite SanitizerShape.append_nil. now apply rstrip_all_space.
  - rewrite SanitizerShape.append_cons. cbn [rstrip]. now rewrite IH.
Qed.

(** X14: white space around a canonical channel ID does not matter: the
    ID is returned without its padding and no request is made. *)
Theorem resolve_channel_id_padding w a s b :
  canonical_id s = true ->
  all_chars isspace a = true -> all_chars isspace b = true ->
  resolve_channel_id (a +:+ s +:+ b) w = ([], Returns s).
Proof.
  intros Hc Ha Hb.
  destruct (ResolveFacts.canonical_id_fixed s Hc) as [Hstrip Hmatch].
  assert (Hpad : strip (a +:+ s +:+ b) = s).
  { unfold strip. rewrite (lstrip_padding _ _ Ha).
    apply ResolveFacts.canonical_id_inv in Hc as (body & -> & _ & _).
    change (lstrip (String "U" (String "C" body) +:+ b))
      with (String "U" (String "C" body) +:+ b).
    rewrite (rstrip_padding _ _ Hb). exact Hstrip. }
  unfold resolve_channel_id. now rewrite Hpad, Hmatch.
Qed.

Lemma resolve_channel_id_padding_witness :
  resolve_channel_id
    (padding_left +:+ "UCabcdefghijklmnopqrstuv" +:+ padding_right) offline
  = ([], Returns "UCabcdefghijklmnopqrstuv"%string).
Proof.
  exact (resolve_channel_id_padding offline padding_left
           "UCabcdefghijklmnopqrstuv" padding_right
           eq_refl eq_refl eq_refl).
Defined.

(** ** Bare names and handles *)

Lemma lstrip_no_head s : head_space s = false -> lstrip s = s.
Proof. destruct s as [|c s]; [reflexivity|]. simpl. now intros ->. Qed.

Lemma rstrip_cons c s :
  isspace c = false -> rstrip (String c s) = String c (rstrip s).
Proof. intros Hc. simpl. destruct (rstrip s); now rewrite ?Hc. Qed.

Lemma startswith_at_rstrip s :
  startswith "@" s = false -> startswith "@" (rstrip s) = false.
Proof.
  destruct s as [|c s]; [reflexivity|].
  intros Hs. destruct (SanitizerShape.rstrip_cases c s) as [-> | ->];
    [reflexivity | exact Hs].
Qed.

(** X15: a bare name is resolved as the handle made of the at sign and
    the name.  For a name without leading white space that neither starts
    with the at sign nor is a channel ID, both inputs lead to the same
    request and the same outcome. *)
Theorem resolve_channel_id_bare_name w name :
  head_space name = false ->
  startswith "@" name = false ->
  _CHANNEL_ID_RE_match (strip name) = false ->
  resolve_channel_id name w = resolve_channel_id (String "@" name) w.
Proof.
  intros Hhead Hat Hmatch. unfold resolve_channel_id.
  rewrite Hmatch. unfold strip in *.
  rewrite (lstrip_no_head _ Hhead) in *.
  change (lstrip (String "@" name)) with (String "@" name).
  rewrite (rstrip_cons "@" name eq_refl).
  change (_CHANNEL_ID_RE_match (String "@" (rstrip name))) with false.
  change (startswith "@" (String "@" (rstrip name))) with true.
  rewrite (startswith_at_rstrip _ Hat).
  reflexivity.
Qed.

Lemma resolve_channel_id_bare_name_witness :
  resolve_channel_id "Fireship" (answering channel_page)
  = resolve_channel_id "@Fireship" (answering channel_page).
Proof.
  exact (resolve_channel_id_bare_name (answering channel_page) "Fireship"
           eq_refl eq_refl eq_refl).
Defined.

(** ** Errors *)

(** X16: scraping a channel page returns exactly when the request returns
    a response with a 2xx status whose text holds a channel link, and then
    returns the ID of the leftmost link.  A status outside 2xx raises a
    [ValueError] that names the status and the URL.  Whatever it raises is
    a [ValueError], or is the exception the request raised when that is
    neither an [HTTPStatusError] nor a [RequestError]. *)
Theorem scrape_channel_id_outcomes page_url w :
  (forall m,
     run (_scrape_channel_id page_url) w = Returns m <->
     exists r, httpx_get w page_url = Returns r
               /\ 200 <= status_code r < 300
               /\ search_channel_link (text r) = Some m)
  /\ (forall r,
        httpx_get w page_url = Returns r ->
        ~ 200 <= status_code r < 300 ->
        run (_scrape_channel_id page_url) w
        = Raises (Exn ValueError
                    ("Channel page returned HTTP " +:+ pretty (status_code r)
                     +:+ ": " +:+ page_url)))
  /\ (forall e,
        run (_scrape_channel_id page_url) w = Raises e ->
        exn_cls e = ValueError
        \/ (httpx_get w page_url = Raises e
            /\ exn_cls e <> RequestError
            /\ forall code, exn_cls e <> HTTPStatusError code)).
Proof.
  rewrite scrape_channel_id_run.
  destruct (httpx_get w page_url) as [r|exc].
  - destruct (Z.leb_spec 200 (status_code r));
      destruct (Z.ltb_spec (status_code r) 300); simpl.
    all: split; [|split].
    all: try (intros m; split;
              [discriminate | intros (r' & [= <-] & Hr & _); lia]).
    all: try (intros r' [= <-] Hr; first [lia | reflexivity]).
    all: try (intros e [= <-]; now left).
    + intros m. split.
      * destruct (search_channel_link (text r)) as [m'|] eqn:Hs;
          [|discriminate].
        intros [= <-]. exists r. auto with lia.
      * intros (r' & [= <-] & _ & ->). reflexivity.
    + intros e. destruct (search_channel_link (text r)); [discriminate|].
      intros [= <-]. now left.
  - split; [|split].
    + intros m. split; [|intros (r & Hr & _); discriminate].
      destruct (exn_cls exc); discriminate.
    + discriminate.
    + intros e. destruct (exn_cls exc) eqn:Hcls; intros [= <-];
        try (now left); right; rewrite Hcls; repeat split; discriminate.
Qed.

Lemma scrape_channel_id_outcomes_witness :
  run (_scrape_channel_id "https://www.youtube.com/@SomeHandle")
      (answering channel_page)
  = Returns "UCabcdefghijklmnopqrstuv"%string
  /\ run (_scrape_channel_id "https://www.youtube.com/@SomeHandle")
         (answering missing_page)
     = Raises (Exn ValueError
                 "Channel page returned HTTP 404: https://www.youtube.com/@SomeHandle")
  /\ (exn_cls (Exn ValueError
                 ("Could not extract a channel ID from '"
                  +:+ "https://www.youtube.com/@SomeHandle"
                  +:+ "'. Check that the handle or username is correct."))
      = ValueError
      \/ (httpx_get (answering empty_page) "https://www.youtube.com/@SomeHandle"
          = Raises (Exn ValueError
                      ("Could not extract a channel ID from '"
                       +:+ "https://www.youtube.com/@SomeHandle"
                       +:+ "'. Check that the handle or username is correct."))
          /\ ValueError <> RequestError
          /\ forall code, ValueError <> HTTPStatusError code)).
Proof.
  split; [|split].
  - apply (proj1 (scrape_channel_id_outcomes
                    "https://www.youtube.com/@SomeHandle"
                    (answering channel_page))).
    exists channel_page. repeat split; simpl; lia.
  - apply (proj1 (proj2 (scrape_channel_id_outcomes
                           "https://www.youtube.com/@SomeHandle"
                           (answering missing_page))) missing_page eq_refl).
    simpl. lia.
  - apply (proj2 (proj2 (scrape_channel_id_outcomes
                           "https://www.youtube.com/@SomeHandle"
                           (answering empty_page)))).
    reflexivity.
Defined.

(** An exception of the request that is neither of the two named classes
    is passed on as it is. *)
Example scrape_unexpected_exception :
  run (_scrape_channel_id "https://www.youtube.com/@SomeHandle")
      (failing_with transport_error)
  = Raises transport_error.
Proof. reflexivity. Qed.

(** ** A page that holds a channel link *)

Lemma channel_link_at_here id post :
  canonical_id id = true ->
  channel_link_at ("youtube.com/channel/" +:+ id +:+ post) = Some id.
Proof.
  intros (body & -> & Hlen & Hall)%ResolveFacts.canonical_id_inv.
  unfold channel_link_at.
  change (after_prefix "youtube.com/channel/UC"
            ("youtube.com/channel/" +:+ String "U" (String "C" body) +:+ post))
    with (Some (body +:+ post)).
  rewrite <- Hlen, (ResolveFacts.take_id_chars_app _ post Hall).
  reflexivity.
Qed.

Lemma search_channel_link_finds pre t m :
  channel_link_at t = Some m ->
  exists m', search_channel_link (pre +:+ t) = Some m'.
Proof.
  intros Hat. induction pre as [|c pre IH].
  - rewrite SanitizerShape.append_nil. exists m.
    destruct t; [discriminate Hat|].
    cbn [search_channel_link]. now rewrite Hat.
  - rewrite SanitizerShape.append_cons. cbn [search_channel_link].
    destruct (channel_link_at (String c (pre +:+ t))) as [m''|]; eauto.
Qed.

(** X26: a page answered with a 2xx status whose text holds, anywhere, a
    channel link with a canonical ID is resolved: scraping it returns a
    canonical ID, and returns the ID of that link when the link opens the
    text. *)
Theorem scrape_channel_id_finds_link page_url w r pre id post :
  httpx_get w page_url = Returns r ->
  200 <= status_code r < 300 ->
  text r = pre +:+ "youtube.com/channel/" +:+ id +:+ post ->
  canonical_id id = true ->
  (exists m, run (_scrape_channel_id page_url) w = Returns m
             /\ canonical_id m = true)
  /\ (pre = EmptyString ->
      run (_scrape_channel_id page_url) w = Returns id).
Proof.
  intros Hget [Hlo Hhi] Htext Hid.
  rewrite scrape_channel_id_run, Hget.
  destruct (Z.leb_spec 200 (status_code r)); [|lia].
  destruct (Z.ltb_spec (status_code r) 300); [|lia]. simpl.
  pose proof (channel_link_at_here id post Hid) as Hat.
  rewrite Htext. split.
  - destruct (search_channel_link_finds pre _ _ Hat) as [m Hm].
    rewrite Hm. exists m. split; [reflexivity|].
    eapply search_channel_link_canonical, Hm.
  - intros ->. rewrite SanitizerShape.append_nil.
    destruct ("youtube.com/channel/" +:+ id +:+ post) eqn:Ht;
      [discriminate Hat|].
    cbn [search_channel_link]. now rewrite Hat.
Qed.

Lemma scrape_channel_id_finds_link_witness :
  (exists m, run (_scrape_channel_id "https://www.youtube.com/@SomeHandle")
                 (answering linked_page) = Returns m
             /\ canonical_id m = true).
Proof.
  apply (scrape_channel_id_finds_link
           "https://www.youtube.com/@SomeHandle" (answering linked_page)
           linked_page "<a href=/about>About</a> see https://www."
           "UC0123456789_-ABCDEFGHIJ" "/videos" eq_refl);
    [simpl; lia | reflexivity | reflexivity].
Defined.

End ResolverExtra.

(* ===================================================================== *)
(** * Transcripts and the channel pipeline *)
(* ===================================================================== *)

Module PipelineFacts.
Import Py Text Spec Examples YouTube.

(** ** The transcript text *)

Lemma transcript_parts_app l1 l2 :
  transcript_parts (l1 ++ l2) = transcript_parts l1 ++ transcript_parts l2.
Proof.
  unfold transcript_parts. now rewrite map_app, List.filter_app.
Qed.

(** X17: a snippet without text, or with white space only, leaves the
    transcript as it is: with or without it among the snippets,
    [get_transcript] returns the same. *)
Theorem get_transcript_blank_snippet w w' video_id l1 sn l2 :
  ytt_fetch w video_id = Returns (l1 ++ sn :: l2) ->
  ytt_fetch w' video_id = Returns (l1 ++ l2) ->
  stripped_text sn = EmptyString ->
  run (get_transcript video_id) w = run (get_transcript video_id) w'.
Proof.
  intros Hw Hw' Hblank.
  rewrite !TranscriptFacts.get_transcript_run, Hw, Hw'.
  rewrite !transcript_parts_app.
  change (transcript_parts (sn :: l2))
    with (List.filter truthy (stripped_text sn :: map stripped_text l2)).
  simpl List.filter. now rewrite Hblank.
Qed.

Lemma get_transcript_blank_snippet_witness :
  run (get_transcript "aaaaaaaaaaa") (captioned spoken)
  = run (get_transcript "aaaaaaaaaaa")
        (captioned [Snippet (Some " hello "%string); Snippet None;
                    Snippet (Some "world"%string)]).
Proof.
  exact (get_transcript_blank_snippet
           (captioned spoken)
           (captioned [Snippet (Some " hello "%string); Snippet None;
                       Snippet (Some "world"%string)])
           "aaaaaaaaaaa"
           [Snippet (Some " hello "%string); Snippet None]
           (Snippet (Some "  "%string))
           [Snippet (Some "world"%string)]
           eq_refl eq_refl eq_refl).
Defined.

Lemma head_space_app s t :
  truthy s = true -> head_space (s +:+ t) = head_space s.
Proof. destruct s; [discriminate | reflexivity]. Qed.

Lemma last_space_app s t :
  truthy t = true -> last_space (s +:+ t) = last_space t.
Proof.
  intros Ht. induction s as [|c s IH]; [reflexivity|].
  rewrite SanitizerShape.append_cons.
  destruct (s +:+ t) eqn:Hst.
  - destruct s; [|discriminate].
    rewrite SanitizerShape.append_nil in Hst. now subst.
  - simpl. exact IH.
Qed.

Lemma join_trimmed parts :
  Forall (fun p => truthy p = true /\ trimmed p = true) parts ->
  trimmed (join " " parts) = true.
Proof.
  induction 1 as [|p rest [Hp Htrim] Hrest IH]; [reflexivity|].
  destruct rest as [|q rest]; [exact Htrim|].
  change (join " " (p :: q :: rest))
    with (p +:+ " " +:+ join " " (q :: rest)).
  inversion Hrest as [|? ? [Hq _] _]; subst.
  pose proof (TranscriptFacts.truthy_join " " q rest Hq) as Hj.
  unfold trimmed in *.
  apply andb_prop in Htrim as [Hh _]. apply andb_prop in IH as [_ Hl].
  rewrite (head_space_app _ _ Hp), Hh.
  rewrite last_space_app by reflexivity.
  rewrite (last_space_app " " _ Hj). exact Hl.
Qed.

(** X18: a transcript that [get_transcript] returns is not empty and has
    no white space at its ends. *)
Theorem get_transcript_trimmed w video_id t :
  run (get_transcript video_id) w = Returns (Some t) ->
  truthy t = true /\ trimmed t = true.
Proof.
  rewrite TranscriptFacts.get_transcript_run.
  destruct (ytt_fetch w video_id) as [snippets|e]; [|discriminate].
  unfold or_None.
  destruct (truthy (join " " (transcript_parts snippets))) eqn:Hj;
    [|discriminate].
  intros [= <-]. split; [exact Hj|].
  apply join_trimmed. unfold transcript_parts.
  apply Forall_forall. intros p Hp.
  apply list_elem_of_In, filter_In in Hp as [Hin Hp]. split; [exact Hp|].
  apply in_map_iff in Hin as (sn & <- & _).
  apply SanitizerShape.strip_trimmed.
Qed.

Lemma get_transcript_trimmed_witness :
  truthy "hello world" = true /\ trimmed "hello world" = true.
Proof.
  apply (get_transcript_trimmed (captioned spoken) "aaaaaaaaaaa").
  reflexivity.
Defined.

(** ** The channel pipeline *)

(** One transcript request for the video, and never a raise. *)
Lemma get_transcript_pair video_id w :
  get_transcript video_id w
  = ([TranscriptRequest video_id], Returns (transcript_of w video_id)).
Proof.
  unfold transcript_of, run, get_transcript, mbind, io_bind, try_except,
    fmap, io_fmap, ytt_fetch_call.
  destruct (ytt_fetch w video_id) as [snippets|e]; simpl; [reflexivity|].
  now destruct (exn_cls e).
Qed.

(** Attaching the transcripts asks for one transcript per video, in list
    order, and sets the transcript of each video. *)
Lemma attach_transcripts_pair videos w :
  attach_transcripts videos w
  = (map (fun v => TranscriptRequest (video_id v)) videos,
     Returns (map (fun v => set_transcript v (transcript_of w (video_id v)))
                  videos)).
Proof.
  induction videos as [|v rest IH]; [reflexivity|].
  simpl attach_transcripts. unfold mbind, io_bind.
  rewrite get_transcript_pair, IH. simpl. now rewrite app_nil_r.
Qed.

(** The pipeline, by the outcomes of its two first steps. *)
Lemma fetch_channel_videos_pair channel_input since include max_results w :
  fetch_channel_videos channel_input since include max_results w
  = match run (resolve_channel_id channel_input) w with
    | Raises e => (trace (resolve_channel_id channel_input) w, Raises e)
    | Returns channel_id =>
        match run (fetch_videos channel_id since max_results) w with
        | Raises e =>
            (trace (resolve_channel_id channel_input) w
             ++ [FeedRequest (_RSS_URL channel_id)], Raises e)
        | Returns videos =>
            if include then
              (trace (resolve_channel_id channel_input) w
               ++ FeedRequest (_RSS_URL channel_id)
                  :: map (fun v => TranscriptRequest (video_id v)) videos,
               Returns (map (fun v => set_transcript v
                                        (transcript_of w (video_id v)))
                            videos))
            else
              (trace (resolve_channel_id channel_input) w
               ++ [FeedRequest (_RSS_URL channel_id)], Returns videos)
        end
    end.
Proof.
  unfold fetch_channel_videos, mbind, io_bind, run, trace.
  destruct (resolve_channel_id channel_input w) as [t1 [channel_id|e]];
    cbn [fst snd]; [|reflexivity].
  pose proof (VideoWindow.fetch_videos_trace channel_id since max_results w)
    as Ht.
  unfold trace in Ht.
  destruct (fetch_videos channel_id since max_results w) as [t2 [videos|e]];
    simpl in Ht |- *; subst t2; [|reflexivity].
  destruct include; simpl.
  - rewrite attach_transcripts_pair. reflexivity.
  - reflexivity.
Qed.

Lemma set_transcript_video_id v t : video_id (set_transcript v t) = video_id v.
Proof. reflexivity. Qed.

(** X19: when the pipeline returns, its requests are those of the
    resolution, then one request for the feed of the resolved channel,
    then, if transcripts are asked for, one transcript request for each
    returned video, in list order; without transcripts there is no
    transcript request. *)
Theorem fetch_channel_videos_requests channel_input since include
        max_results w l :
  run (fetch_channel_videos channel_input since include max_results) w
  = Returns l ->
  exists channel_id,
    run (resolve_channel_id channel_input) w = Returns channel_id
    /\ trace (fetch_channel_videos channel_input since include max_results) w
       = trace (resolve_channel_id channel_input) w
         ++ FeedRequest (_RSS_URL channel_id)
            :: (if include
                then map (fun v => TranscriptRequest (video_id v)) l
                else []).
Proof.
  unfold run at 1, trace at 1. rewrite fetch_channel_videos_pair.
  destruct (run (resolve_channel_id channel_input) w) as [channel_id|e];
    [|discriminate].
  destruct (run (fetch_videos channel_id since max_results) w)
    as [videos|e]; [|discriminate].
  destruct include; simpl; intros [= <-]; exists channel_id;
    (split; [reflexivity|]); [|reflexivity].
  now rewrite map_map.
Qed.

Lemma fetch_channel_videos_requests_witness :
  exists channel_id,
    run (resolve_channel_id "@SomeHandle") studio = Returns channel_id
    /\ trace (fetch_channel_videos "@SomeHandle" (Some 100) true 50) studio
       = trace (resolve_channel_id "@SomeHandle") studio
         ++ FeedRequest (_RSS_URL channel_id)
            :: map (fun v => TranscriptRequest (video_id v))
                 [set_transcript (make_entry (clip 300 "aaaaaaaaaaa") 300)
                    (Some "hello world"%string);
                  make_entry (clip 200 "bbbbbbbbbbb") 200].
Proof.
  apply (fetch_channel_videos_requests "@SomeHandle" (Some 100) true 50
           studio).
  reflexivity.
Defined.

(** X20: attaching transcripts drops and reorders nothing.  The videos
    returned with transcripts are those returned without, each with the
    transcript [get_transcript] gives for it, [None] when the retrieval
    failed; all the other fields are the same. *)
Theorem fetch_channel_videos_transcripts channel_input since max_results w l :
  run (fetch_channel_videos channel_input since false max_results) w
  = Returns l ->
  run (fetch_channel_videos channel_input since true max_results) w
  = Returns (map (fun v => set_transcript v (transcript_of w (video_id v))) l).
Proof.
  unfold run at 1 2. rewrite !fetch_channel_videos_pair.
  destruct (run (resolve_channel_id channel_input) w) as [channel_id|e];
    [|discriminate].
  destruct (run (fetch_videos channel_id since max_results) w)
    as [videos|e]; [|discriminate].
  simpl. now intros [= <-].
Qed.

Lemma fetch_channel_videos_transcripts_witness :
  run (fetch_channel_videos "@SomeHandle" (Some 100) true 50) studio
  = Returns [set_transcript (make_entry (clip 300 "aaaaaaaaaaa") 300)
               (Some "hello world"%string);
             set_transcript (make_entry (clip 200 "bbbbbbbbbbb") 200) None].
Proof.
  exact (fetch_channel_videos_transcripts "@SomeHandle" (Some 100) 50 studio
           [make_entry (clip 300 "aaaaaaaaaaa") 300;
            make_entry (clip 200 "bbbbbbbbbbb") 200] eq_refl).
Defined.

(** X21: the pipeline passes the errors of its two first steps on as they
    are.  When the resolution raises, the pipeline raises the same
    exception and asks for no feed and no transcript; when the video
    fetcher raises, the pipeline raises the same exception and asks for no
    transcript. *)
Theorem fetch_channel_videos_errors channel_input since include max_results w :
  (forall e,
     run (resolve_channel_id channel_input) w = Raises e ->
     fetch_channel_videos channel_input since include max_results w
     = (trace (resolve_channel_id channel_input) w, Raises e))
  /\ (forall channel_id e,
        run (resolve_channel_id channel_input) w = Returns channel_id ->
        run (fetch_videos channel_id since max_results) w = Raises e ->
        fetch_channel_videos channel_input since include max_results w
        = (trace (resolve_channel_id channel_input) w
           ++ [FeedRequest (_RSS_URL channel_id)], Raises e)).
Proof.
  split.
  - intros e He. now rewrite fetch_channel_videos_pair, He.
  - intros channel_id e Hc He.
    now rewrite fetch_channel_videos_pair, Hc, He.
Qed.

Lemma fetch_channel_videos_errors_witness :
  fetch_channel_videos "@SomeHandle" (Some 100) true 50
    (answering missing_page)
  = ([PageFetch "https://www.youtube.com/@SomeHandle"],
     Raises (Exn ValueError
               "Channel page returned HTTP 404: https://www.youtube.com/@SomeHandle"))
  /\ fetch_channel_videos "@SomeHandle" (Some 100) true 50 studio_no_feed
     = ([PageFetch "https://www.youtube.com/@SomeHandle";
         FeedRequest (_RSS_URL "UCabcdefghijklmnopqrstuv")],
        Raises (Exn RuntimeError
                  "Unexpected error parsing RSS feed for 'UCabcdefghijklmnopqrstuv': connection reset")).
Proof.
  split.
  - exact (proj1 (fetch_channel_videos_errors "@SomeHandle" (Some 100) true
                    50 (answering missing_page)) _ eq_refl).
  - exact (proj2 (fetch_channel_videos_errors "@SomeHandle" (Some 100) true
                    50 studio_no_feed) _ _ eq_refl eq_refl).
Defined.

End PipelineFacts.

(* ===================================================================== *)
(** * The runner: requests, unknown keys and the configured run *)
(* ===================================================================== *)

Module RunnerExtra.
Import Py Spec Examples Sources Runner.

Section Generic.
Context {A : Type}.
Variable channels : list string.
Variable rss_sources newsletter_sources : list source.
Variable fetch_channel : string -> option Z -> io (list A).
Variable rss_fetchers : gmap string (option Z -> io (list A)).
Variable newsletter_fetchers : gmap string (io (list A)).

(** A loop whose turns make requests that do not depend on the list
    built so far makes the requests of all its turns, in order. *)
Lemma for_each_trace {S : Type} (step : list A -> S -> io (list A))
      (g : S -> list A) (h : S -> list event) w xs :
  (forall acc x, run (step acc x) w = Returns (acc ++ g x)) ->
  (forall acc x, trace (step acc x) w = h x) ->
  forall acc, trace (for_each step xs acc) w = flat_map h xs.
Proof.
  intros Hrun Htrace. induction xs as [|x rest IH]; intros acc; simpl.
  - reflexivity.
  - now rewrite trace_bind, Hrun, Htrace, IH.
Qed.

Lemma youtube_step_trace cutoff w acc channel :
  trace (youtube_step fetch_channel cutoff acc channel) w
  = channel_requests fetch_channel cutoff w channel.
Proof.
  unfold youtube_step, channel_requests.
  rewrite trace_try_except, run_bind, trace_bind.
  destruct (run (fetch_channel channel (Some cutoff)) w);
    rewrite ?run_ret, ?trace_ret; now rewrite app_nil_r.
Qed.

Lemma rss_step_trace cutoff w acc source :
  trace (rss_step rss_fetchers cutoff acc source) w
  = rss_requests rss_fetchers cutoff w source.
Proof.
  unfold rss_step, rss_requests.
  destruct (rss_fetchers !! fetcher source) as [fetcher_fn|]; [|reflexivity].
  rewrite trace_try_except, run_bind, trace_bind.
  destruct (run (fetcher_fn (Some cutoff)) w);
    rewrite ?run_ret, ?trace_ret; now rewrite app_nil_r.
Qed.

Lemma newsletter_step_trace w acc source :
  trace (newsletter_step newsletter_fetchers acc source) w
  = newsletter_requests newsletter_fetchers w source.
Proof.
  unfold newsletter_step, newsletter_requests.
  destruct (newsletter_fetchers !! fetcher source) as [fetcher_fn|];
    [|reflexivity].
  rewrite trace_try_except, run_bind, trace_bind.
  destruct (run fetcher_fn w);
    rewrite ?run_ret, ?trace_ret; now rewrite app_nil_r.
Qed.

(** The requests of a run: those of every source, in the order of the
    configuration. *)
Lemma run_all_fetchers_with_trace hours w :
  cutoff_in_range w hours ->
  trace (run_all_fetchers_with channels rss_sources newsletter_sources
           fetch_channel rss_fetchers newsletter_fetchers hours) w
  = flat_map (channel_requests fetch_channel (cutoff_of w hours) w) channels
    ++ flat_map (rss_requests rss_fetchers (cutoff_of w hours) w) rss_sources
    ++ flat_map (newsletter_requests newsletter_fetchers w)
                newsletter_sources.
Proof.
  intros Hrange. unfold run_all_fetchers_with. rewrite trace_bind.
  rewrite RunnerFacts.compute_cutoff_trace.
  assert (Hcut : run (compute_cutoff hours) w = Returns (cutoff_of w hours))
    by (unfold run; now rewrite (RunnerFacts.compute_cutoff_run _ _ Hrange)).
  rewrite Hcut. cbn [app].
  rewrite trace_bind.
  rewrite (RunnerFacts.for_each_run _ _ w channels
             (fun acc x => RunnerFacts.youtube_step_run _ _ w acc x)).
  rewrite (for_each_trace _ _ _ w channels
             (fun acc x => RunnerFacts.youtube_step_run _ _ w acc x)
             (fun acc x => youtube_step_trace _ w acc x)).
  rewrite trace_bind.
  rewrite (RunnerFacts.for_each_run _ _ w rss_sources
             (fun acc x => RunnerFacts.rss_step_run _ _ w acc x)).
  rewrite (for_each_trace _ _ _ w rss_sources
             (fun acc x => RunnerFacts.rss_step_run _ _ w acc x)
             (fun acc x => rss_step_trace _ w acc x)).
  rewrite trace_bind.
  rewrite (RunnerFacts.for_each_run _ _ w newsletter_sources
             (fun acc x => RunnerFacts.newsletter_step_run _ w acc x)).
  rewrite (for_each_trace _ _ _ w newsletter_sources
             (fun acc x => RunnerFacts.newsletter_step_run _ w acc x)
             (fun acc x => newsletter_step_trace w acc x)).
  rewrite trace_ret, app_nil_r. simpl. reflexivity.
Qed.

(** A run whose cutoff is out of range makes no request. *)
Lemma run_all_fetchers_with_silent hours w :
  ~ cutoff_in_range w hours ->
  trace (run_all_fetchers_with channels rss_sources newsletter_sources
           fetch_channel rss_fetchers newsletter_fetchers hours) w = [].
Proof.
  intros Hout.
  destruct (RunnerFacts.compute_cutoff_overflow _ _ Hout) as (e & He & _).
  unfold trace.
  rewrite (RunnerFacts.run_all_fetchers_with_raises _ _ _ _ _ _ hours w e);
    [reflexivity|].
  unfold run. now rewrite He.
Qed.

End Generic.

Lemma io_pair_eq {A} (m m' : io A) w :
  run m w = run m' w -> trace m w = trace m' w -> m w = m' w.
Proof.
  unfold run, trace. destruct (m w), (m' w). simpl. now intros -> ->.
Qed.

(** X22: a source whose fetcher key is in no dispatch table is skipped:
    the run, its requests included, is the run of the configuration
    without that source.  This holds for an RSS source and for a
    newsletter source. *)
Theorem run_all_fetchers_unknown_key {A : Type}
        (channels : list string) (rss_sources newsletter_sources : list source)
        (fetch_channel : string -> option Z -> io (list A))
        (rss_fetchers : gmap string (option Z -> io (list A)))
        (newsletter_fetchers : gmap string (io (list A)))
        (hours : Z) (w : world) :
  let runner rs ns :=
    run_all_fetchers_with channels rs ns
      fetch_channel rss_fetchers newsletter_fetchers hours w in
  (forall pre source post,
     rss_sources = pre ++ source :: post ->
     rss_fetchers !! fetcher source = None ->
     runner rss_sources newsletter_sources
     = runner (pre ++ post) newsletter_sources)
  /\ (forall pre source post,
        newsletter_sources = pre ++ source :: post ->
        newsletter_fetchers !! fetcher source = None ->
        runner rss_sources newsletter_sources
        = runner rss_sources (pre ++ post)).
Proof.
  intros runner. unfold runner.
  destruct (run (compute_cutoff hours) w) as [cutoff|e] eqn:Hcut.
  - apply RunnerFacts.compute_cutoff_returns in Hcut as [Hrange _].
    split.
    + intros pre source post -> Hkey. apply io_pair_eq.
      * rewrite !RunnerFacts.run_all_fetchers_with_run, !flat_map_app
          by assumption.
        simpl. unfold rss_contribution at 2. now rewrite Hkey.
      * rewrite !run_all_fetchers_with_trace, !flat_map_app by assumption.
        simpl. unfold rss_requests at 2. now rewrite Hkey.
    + intros pre source post -> Hkey. apply io_pair_eq.
      * rewrite !RunnerFacts.run_all_fetchers_with_run, !flat_map_app
          by assumption.
        simpl. unfold newsletter_contribution at 2. now rewrite Hkey.
      * rewrite !run_all_fetchers_with_trace, !flat_map_app by assumption.
        simpl. unfold newsletter_requests at 2. now rewrite Hkey.
  - split; intros pre source post _ _;
      now rewrite !(RunnerFacts.run_all_fetchers_with_raises
                      _ _ _ _ _ _ hours w e Hcut).
Qed.

Lemma run_all_fetchers_unknown_key_witness :
  run_all_fetchers_with ["@nobody"%string] [unknown_source; flaky_source]
    [steady_source] no_channel flaky_fetchers steady_fetchers 24 offline
  = run_all_fetchers_with ["@nobody"%string] [flaky_source]
      [steady_source] no_channel flaky_fetchers steady_fetchers 24 offline.
Proof.
  exact (proj1 (run_all_fetchers_unknown_key
                  ["@nobody"%string] [unknown_source; flaky_source]
                  [steady_source] no_channel flaky_fetchers steady_fetchers
                  24 offline)
           [] unknown_source [flaky_source] eq_refl eq_refl).
Defined.

(** X23: a run whose cutoff is in range makes the requests of its sources
    one source after the other, in the order of the configuration: the
    channels, then the RSS sources, then the newsletter sources.  The
    requests of a source are those of one invocation of its fetcher,
    whether it returns or raises; nothing is asked twice.  A run whose
    cutoff is out of range makes no request. *)
Theorem run_all_fetchers_requests {A : Type}
        (channels : list string) (rss_sources newsletter_sources : list source)
        (fetch_channel : string -> option Z -> io (list A))
        (rss_fetchers : gmap string (option Z -> io (list A)))
        (newsletter_fetchers : gmap string (io (list A)))
        (hours : Z) (w : world) :
  (cutoff_in_range w hours ->
   trace (run_all_fetchers_with channels rss_sources newsletter_sources
            fetch_channel rss_fetchers newsletter_fetchers hours) w
   = flat_map (fun channel =>
                 trace (fetch_channel channel (Some (cutoff_of w hours))) w)
              channels
     ++ flat_map (fun source =>
                    match rss_fetchers !! fetcher source with
                    | Some fetcher_fn =>
                        trace (fetcher_fn (Some (cutoff_of w hours))) w
                    | None => []
                    end) rss_sources
     ++ flat_map (fun source =>
                    match newsletter_fetchers !! fetcher source with
                    | Some fetcher_fn => trace fetcher_fn w
                    | None => []
                    end) newsletter_sources)
  /\ (~ cutoff_in_range w hours ->
      trace (run_all_fetchers_with channels rss_sources newsletter_sources
               fetch_channel rss_fetchers newsletter_fetchers hours) w
      = []).
Proof.
  split.
  - intros Hrange. rewrite run_all_fetchers_with_trace by assumption.
    unfold channel_requests, rss_requests, newsletter_requests. reflexivity.
  - apply run_all_fetchers_with_silent.
Qed.

Lemma run_all_fetchers_requests_witness :
  trace (run_all_fetchers_with ["@SomeHandle"%string] RSS_SOURCES
           NEWSLETTER_SOURCES
           (fun channel since =>
              fmap Video <$> YouTube.fetch_channel_videos channel since true 50)
           _RSS_FETCHERS _NEWSLETTER_FETCHERS 24) studio
  = [PageFetch "https://www.youtube.com/@SomeHandle";
     FeedRequest
       "https://www.youtube.com/feeds/videos.xml?channel_id=UCabcdefghijklmnopqrstuv";
     TranscriptRequest "aaaaaaaaaaa"; TranscriptRequest "bbbbbbbbbbb";
     FeedRequest "https://openai.com/news/rss.xml";
     FeedRequest "https://news.smol.ai/rss.xml"]
  /\ trace (run_all_fetchers_with ["@SomeHandle"%string] RSS_SOURCES
              NEWSLETTER_SOURCES
              (fun channel since =>
                 fmap Video
                   <$> YouTube.fetch_channel_videos channel since true 50)
              _RSS_FETCHERS _NEWSLETTER_FETCHERS 24000000000) studio
     = [].
Proof.
  split.
  - rewrite (proj1 (run_all_fetchers_requests
                      ["@SomeHandle"%string] RSS_SOURCES NEWSLETTER_SOURCES
                      (fun channel since =>
                         fmap Video
                           <$> YouTube.fetch_channel_videos channel since
                                 true 50)
                      _RSS_FETCHERS _NEWSLETTER_FETCHERS 24 studio)).
    + vm_compute. reflexivity.
    + repeat split; vm_compute; discriminate.
  - apply (proj2 (run_all_fetchers_requests
                    ["@SomeHandle"%string] RSS_SOURCES NEWSLETTER_SOURCES
                    (fun channel since =>
                       fmap Video
                         <$> YouTube.fetch_channel_videos channel since
                               true 50)
                    _RSS_FETCHERS _NEWSLETTER_FETCHERS 24000000000 studio)).
    intros [[_ H] _]. now apply H.
Defined.

(** ** The configured run *)

Lemma contribution_fmap {A B} (g : A -> B) (m : io (list A)) w :
  contribution (run (fmap g <$> m) w) = map g (contribution (run m w)).
Proof. rewrite run_fmap. now destruct (run m w). Qed.

(** The videos of the pipeline are newer than the cutoff. *)
Lemma fetch_channel_videos_newer channel_input since include max_results w l :
  run (YouTube.fetch_channel_videos channel_input (Some since) include
         max_results) w = Returns l ->
  Forall (fun v => since < YouTube.published_at v) l.
Proof.
  unfold run at 1. rewrite PipelineFacts.fetch_channel_videos_pair.
  destruct (run (YouTube.resolve_channel_id channel_input) w)
    as [channel_id|e]; [|discriminate].
  destruct (run (YouTube.fetch_videos channel_id (Some since) max_results) w)
    as [videos|e] eqn:Hv; [|discriminate].
  destruct (VideoWindow.fetch_videos_kept _ _ _ _ _ Hv) as (dated & _ & Hd).
  rewrite Hd in Hv. injection Hv as <-.
  assert (Hnew : Forall (fun v => since < YouTube.published_at v)
                        (videos_kept (Some since) dated)).
  { eapply Forall_impl; [apply VideoWindow.videos_kept_newer|].
    simpl. tauto. }
  destruct include; simpl; intros [= <-]; [|exact Hnew].
  apply Forall_forall. intros v' Hin.
  apply list_elem_of_In, in_map_iff in Hin as (v & <- & Hin).
  change (since < YouTube.published_at v).
  rewrite Forall_forall in Hnew. apply Hnew. now apply list_elem_of_In.
Qed.

(** The parts of the configured run. *)
Lemma run_all_fetchers_parts hours w :
  cutoff_in_range w hours ->
  run (run_all_fetchers hours) w
  = Returns
      (map Video
           (contribution
              (run (YouTube.fetch_channel_videos "@Fireship"
                      (Some (cutoff_of w hours)) true 50) w))
       ++ map News
              (contribution
                 (run (OpenAINews.fetch_openai_news
                         (Some (cutoff_of w hours))) w))
       ++ map Digest (contribution (run SmolAI.fetch_latest_smol_ai_issue w))).
Proof.
  intros Hrange. unfold run_all_fetchers.
  rewrite RunnerFacts.run_all_fetchers_with_run by assumption.
  unfold YOUTUBE_CHANNELS, RSS_SOURCES, NEWSLETTER_SOURCES.
  cbn [flat_map]. rewrite !app_nil_r.
  unfold channel_contribution, rss_contribution, newsletter_contribution.
  cbn [fetcher]. unfold _RSS_FETCHERS, _NEWSLETTER_FETCHERS.
  rewrite !lookup_singleton_eq.
  now rewrite !contribution_fmap.
Qed.

(** A configured run that returns has its cutoff in range. *)
Lemma run_all_fetchers_in_range hours w l :
  run (run_all_fetchers hours) w = Returns l -> cutoff_in_range w hours.
Proof.
  destruct (run (compute_cutoff hours) w) as [cutoff|e] eqn:Hcut.
  - intros _. now apply RunnerFacts.compute_cutoff_returns in Hcut.
  - unfold run at 1, run_all_fetchers.
    now rewrite (RunnerFacts.run_all_fetchers_with_raises
                   _ _ _ _ _ _ hours w e Hcut).
Qed.

(** X24: the configured run, when its cutoff is in range, returns, in
    this order, the videos of the one configured channel, the news
    entries and the digest entries.  The videos and the news entries are
    all published after the cutoff, which is [hours] before the clock; no
    video has an empty string as its description or transcript.  The
    digest entries are what the newsletter fetcher returns, none when it
    raises and at most one, and do not depend on [hours]. *)
Theorem run_all_fetchers_shape hours w :
  cutoff_in_range w hours ->
  exists videos news digests,
    run (run_all_fetchers hours) w
    = Returns (map Video videos ++ map News news ++ map Digest digests)
    /\ Forall (fun v => cutoff_of w hours < YouTube.published_at v /\ clean v)
              videos
    /\ Forall (fun e => cutoff_of w hours < OpenAINews.published_at e) news
    /\ digests = contribution (run SmolAI.fetch_latest_smol_ai_issue w)
    /\ (length digests <= 1)%nat.
Proof.
  intros Hrange.
  exists (contribution
            (run (YouTube.fetch_channel_videos "@Fireship"
                    (Some (cutoff_of w hours)) true 50) w)),
         (contribution
            (run (OpenAINews.fetch_openai_news (Some (cutoff_of w hours))) w)),
         (contribution (run SmolAI.fetch_latest_smol_ai_issue w)).
  split; [|split; [|split; [|split]]].
  - now apply run_all_fetchers_parts.
  - destruct (run (YouTube.fetch_channel_videos "@Fireship"
                     (Some (cutoff_of w hours)) true 50) w)
      as [videos|e] eqn:Hv; [|constructor].
    simpl. apply Forall_forall. intros v Hin.
    pose proof (fetch_channel_videos_newer _ _ _ _ _ _ Hv) as Hnew.
    pose proof (ContentFacts.fetch_channel_videos_clean _ _ _ _ _ _ Hv)
      as Hclean.
    rewrite Forall_forall in Hnew, Hclean. auto.
  - destruct (run (OpenAINews.fetch_openai_news (Some (cutoff_of w hours))) w)
      as [news|e] eqn:Hnews; [|constructor].
    apply NewsWindow.fetch_openai_news_returns in Hnews as [dated ->].
    simpl.
    eapply Forall_impl; [apply NewsWindow.news_kept_newer|]. simpl. tauto.
  - reflexivity.
  - apply DigestFacts.fetch_latest_at_most_one.
Qed.

Lemma run_all_fetchers_shape_witness :
  exists videos news digests,
    run (run_all_fetchers 1) newsroom
    = Returns (map Video videos ++ map News news ++ map Digest digests)
    /\ Forall (fun v => cutoff_of newsroom 1 < YouTube.published_at v
                        /\ clean v) videos
    /\ Forall (fun e => cutoff_of newsroom 1 < OpenAINews.published_at e) news
    /\ digests = contribution (run SmolAI.fetch_latest_smol_ai_issue newsroom)
    /\ (length digests <= 1)%nat.
Proof.
  apply (run_all_fetchers_shape 1 newsroom).
  repeat split; vm_compute; discriminate.
Defined.

(** X25: the configured run, when its cutoff is in range, makes the
    requests of the pipeline of the one configured channel, then one
    request for the news feed, then one for the newsletter feed, whatever
    the outcome of each.  With a cutoff out of range it makes no
    request. *)
Theorem run_all_fetchers_request_order hours w :
  (cutoff_in_range w hours ->
   trace (run_all_fetchers hours) w
   = trace (YouTube.fetch_channel_videos "@Fireship"
              (Some (cutoff_of w hours)) true 50) w
     ++ [FeedRequest OpenAINews._FEED_URL; FeedRequest SmolAI._FEED_URL])
  /\ (~ cutoff_in_range w hours -> trace (run_all_fetchers hours) w = []).
Proof.
  split.
  - intros Hrange.
    unfold run_all_fetchers. rewrite run_all_fetchers_with_trace by assumption.
    unfold YOUTUBE_CHANNELS, RSS_SOURCES, NEWSLETTER_SOURCES.
    cbn [flat_map]. rewrite !app_nil_r.
    unfold channel_requests, rss_requests, newsletter_requests.
    cbn [fetcher]. unfold _RSS_FETCHERS, _NEWSLETTER_FETCHERS.
    rewrite !lookup_singleton_eq, !trace_fmap.
    now rewrite NewsWindow.fetch_openai_news_trace,
      NewsWindow.fetch_latest_trace.
  - apply run_all_fetchers_with_silent.
Qed.

Lemma run_all_fetchers_request_order_witness :
  trace (run_all_fetchers 24) studio
  = [PageFetch "https://www.youtube.com/@Fireship";
     FeedRequest
       "https://www.youtube.com/feeds/videos.xml?channel_id=UCabcdefghijklmnopqrstuv";
     TranscriptRequest "aaaaaaaaaaa"; TranscriptRequest "bbbbbbbbbbb";
     FeedRequest "https://openai.com/news/rss.xml";
     FeedRequest "https://news.smol.ai/rss.xml"]
  /\ trace (run_all_fetchers 24000000000) studio = [].
Proof.
  split.
  - rewrite (proj1 (run_all_fetchers_request_order 24 studio)).
    + vm_compute. reflexivity.
    + repeat split; vm_compute; discriminate.
  - apply (proj2 (run_all_fetchers_request_order 24000000000 studio)).
    intros [[_ H] _]. now apply H.
Defined.

(** ** A longer look-back window *)

Lemma sublist_map {A B} (g : A -> B) (l1 l2 : list A) :
  l1 `sublist_of` l2 -> map g l1 `sublist_of` map g l2.
Proof.
  induction 1; simpl; [constructor | now apply sublist_skip
                                   | now apply sublist_cons].
Qed.

Lemma prefix_sublist {A} (l1 l2 : list A) :
  l1 `prefix_of` l2 -> l1 `sublist_of` l2.
Proof. intros [k ->]. now apply sublist_inserts_r. Qed.

(** The videos of the pipeline under a later cutoff are among those under
    an earlier one: the cutoff decides what the video fetcher keeps, not
    whether it raises. *)
Lemma channel_videos_sublist channel_input since since' include max_results w :
  since' <= since ->
  contribution (run (YouTube.fetch_channel_videos channel_input (Some since)
                       include max_results) w)
  `sublist_of`
  contribution (run (YouTube.fetch_channel_videos channel_input (Some since')
                       include max_results) w).
Proof.
  intros Hle. unfold run.
  rewrite !PipelineFacts.fetch_channel_videos_pair.
  destruct (run (YouTube.resolve_channel_id channel_input) w)
    as [channel_id|e]; [|constructor].
  destruct (run (YouTube.fetch_videos channel_id (Some since) max_results) w)
    as [videos|e] eqn:Hv; [|apply sublist_nil_l].
  destruct (VideoWindow.fetch_videos_kept _ _ _ _ _ Hv) as (dated & _ & Hd).
  rewrite Hd in Hv. injection Hv as <-. rewrite (Hd (Some since')).
  assert (Hsub : videos_kept (Some since) dated
                 `sublist_of` videos_kept (Some since') dated).
  { apply VideoWindow.videos_kept_sublist.
    intros t. simpl. intros Ht%Z.leb_le. apply Z.leb_le. lia. }
  destruct include; simpl; [now apply sublist_map | exact Hsub].
Qed.

(** When the news loop returns under a cutoff, it returns under every
    later one, and a prefix of what it returned. *)
Lemma news_scan_tighter since since' items w :
  since' <= since ->
  forall acc l',
    run (OpenAINews.scan (Some since') items acc) w = Returns l' ->
    exists l, run (OpenAINews.scan (Some since) items acc) w = Returns l
              /\ l `prefix_of` l'.
Proof.
  intros Hle. induction items as [|item rest IH]; intros acc l'.
  - simpl. intros [= <-]. now exists acc.
  - destruct (run (OpenAINews._parse_pubdate item) w) as [t|e] eqn:Ht.
    + rewrite !(NewsFacts.news_scan_cons _ _ _ _ _ _ Ht).
      simpl OpenAINews.at_or_before.
      destruct (Z.leb_spec t since').
      * intros [= <-]. destruct (Z.leb_spec t since); [|lia].
        now exists acc.
      * intros Hl'. destruct (Z.leb_spec t since); [|now apply IH].
        exists acc. split; [reflexivity|].
        apply NewsWindow.news_scan_returns in Hl' as [dated ->].
        rewrite <- app_assoc. now apply prefix_app_r.
    + rewrite (NewsFacts.news_scan_raises _ _ _ _ _ _ Ht). discriminate.
Qed.

Lemma fetch_openai_news_tighter since since' w l' :
  since' <= since ->
  run (OpenAINews.fetch_openai_news (Some since')) w = Returns l' ->
  exists l, run (OpenAINews.fetch_openai_news (Some since)) w = Returns l
            /\ l `prefix_of` l'.
Proof.
  intros Hle. rewrite !NewsFacts.fetch_openai_news_run.
  destruct (feedparser_parse w OpenAINews._FEED_URL) as [f|e];
    [|intros [= <-]; now exists []].
  destruct (entries f) as [|item rest]; [intros [= <-]; now exists []|].
  now apply news_scan_tighter.
Qed.

(** X27: a longer look-back window loses nothing while the news fetcher
    returns under it.  For [hours] not above [hours'] and a news fetcher
    that returns under the cutoff of [hours'], every entry of the
    configured run over [hours] is in the run over [hours'], in the same
    order. *)
Theorem run_all_fetchers_longer_window hours hours' w l l' news' :
  hours <= hours' ->
  run (OpenAINews.fetch_openai_news (Some (cutoff_of w hours'))) w
  = Returns news' ->
  run (run_all_fetchers hours) w = Returns l ->
  run (run_all_fetchers hours') w = Returns l' ->
  l `sublist_of` l'.
Proof.
  intros Hle Hnews Hl Hl'.
  pose proof (run_all_fetchers_in_range _ _ _ Hl) as Hrange.
  pose proof (run_all_fetchers_in_range _ _ _ Hl') as Hrange'.
  rewrite run_all_fetchers_parts in Hl, Hl' by assumption.
  injection Hl as <-. injection Hl' as <-.
  assert (Hcut : cutoff_of w hours' <= cutoff_of w hours)
    by (unfold cutoff_of; lia).
  apply sublist_app; [|apply sublist_app; [|reflexivity]].
  - apply sublist_map. now apply channel_videos_sublist.
  - apply sublist_map, prefix_sublist.
    destruct (fetch_openai_news_tighter _ _ _ _ Hcut Hnews) as (news & Hn & Hp).
    now rewrite Hn, Hnews.
Qed.

Lemma run_all_fetchers_longer_window_witness :
  [News (OpenAINews.make_entry (dated 7000000000 "a") 7000000000)]
    `sublist_of`
  [News (OpenAINews.make_entry (dated 7000000000 "a") 7000000000);
   News (OpenAINews.make_entry (dated 3000000000 "b") 3000000000)].
Proof.
  apply (run_all_fetchers_longer_window 1 2 newsroom _ _
           [OpenAINews.make_entry (dated 7000000000 "a") 7000000000;
            OpenAINews.make_entry (dated 3000000000 "b") 3000000000]);
    [lia | vm_compute; reflexivity | vm_compute; reflexivity
     | vm_compute; reflexivity].
Defined.

(** Without that condition the longer window can lose the news: when
    its scan reaches an item whose date the constructor refuses, the
    news fetcher raises, the runner catches it, and the run has no news
    entry, while the run over the shorter window, which stops before that
    item, has one. *)
Example run_all_fetchers_longer_window_loses :
  run (run_all_fetchers 1) newsroom_undatable
  = Returns [News (news_entry (dated 7000000000 "a") 7000000000)]
  /\ run (run_all_fetchers 2) newsroom_undatable = Returns []
  /\ run (OpenAINews.fetch_openai_news
            (Some (cutoff_of newsroom_undatable 2))) newsroom_undatable
     = Raises (Exn ValueError "year -1 is out of range").
Proof. repeat split; vm_compute; reflexivity. Qed.

End RunnerExtra.
